(** * ollama-local-serve: process supervisor, availability prober and
      backend query router, embedded in Rocq

    The development follows the Python modules it verifies:
    - [Config]  : ollama_local_serve/config.py   (NetworkConfig)
    - [Service] : ollama_local_serve/service.py  (OllamaService)
    - [Router]  : ollama_local_serve/api/dependencies.py (DatabaseManager)
    - [Server]  : ollama_local_serve/api/server.py (lifespan, health endpoint)

    Python objects are records, exceptions are values of [exn], and a
    method is a function in a small state-and-exception monad: the state
    (the fields of [self] and the trace of observable events) survives a
    raised exception, exactly as attribute assignments do in Python.
    A floating point number is the rational it denotes ([Q]); a quotient
    of the source is rounded to the nearest double ([fl]). *)

From Stdlib Require Import ZArith QArith Qround Qabs Qpower List String Bool Lia
  Lqa DecimalString.
Import ListNotations.

Open Scope string_scope.
Open Scope Z_scope.

(* ================================================================== *)
(** * Python values, exceptions and the effect monad                   *)
(* ================================================================== *)

Module Py.

(** The dynamically typed values that reach a dataclass field.  A [bool]
    is an [int] in Python; [PyOther] is any other object (a float, a
    list, ...) together with its printed form. *)
Inductive pyval : Type :=
| PyNone
| PyBool (b : bool)
| PyInt (z : Z)
| PyStr (s : string)
| PyOther (printed : string).

(** [isinstance(v, int)] *)
Definition isinstance_int (v : pyval) : bool :=
  match v with
  | PyInt _ | PyBool _ => true
  | _ => false
  end.

(** The integer an [int] instance denotes in comparisons. *)
Definition int_of (v : pyval) : Z :=
  match v with
  | PyInt z => z
  | PyBool true => 1
  | _ => 0
  end.

(** [str(z)] for an integer. *)
Definition str_int (z : Z) : string := NilZero.string_of_int (Z.to_int z).

(** [f"{v}"] *)
Definition str_pyval (v : pyval) : string :=
  match v with
  | PyNone => "None"
  | PyBool true => "True"
  | PyBool false => "False"
  | PyInt z => str_int z
  | PyStr s => s
  | PyOther printed => printed
  end.

(** Modelled from the spec: the module ollama_local_serve/exceptions.py is
    not among the sources; section 7 of the specification lists its four
    error kinds as a taxonomy in which a Connection error is
    "distinguished from" a Health-check error, so the four classes are
    taken as distinct subclasses of [Exception], none of them a subclass
    of another.  The remaining classes are the ones named by [except]
    clauses of the sources; [OtherException] is any further subclass of
    [Exception] (ProcessLookupError, PermissionError, a driver error). *)
Inductive exn_class : Type :=
| ServiceStartError
| ServiceStopError
| ConnectionError
| HealthCheckError
| ValueError
| IndexError
| FileNotFoundError
| ClientError          (* aiohttp.ClientError and its subclasses *)
| TimeoutExpired       (* subprocess.TimeoutExpired *)
| OtherException (name : string).

Record exn : Type := mkExn { exn_cls : exn_class; exn_msg : string }.

(** [f"{e}"] for an exception. *)
Definition str_exn (e : exn) : string := exn_msg e.

Inductive res (A : Type) : Type :=
| Ok (a : A)
| Raise (e : exn).
Arguments Ok {A} a.
Arguments Raise {A} e.

Definition is_ok {A} (r : res A) : bool :=
  match r with Ok _ => true | Raise _ => false end.

(** A computation over a state [S]: it ends with a value or a raised
    exception, and in both cases with a state. *)
Definition M (S A : Type) : Type := S -> res A * S.

Definition ret {S A} (a : A) : M S A := fun s => (Ok a, s).

Definition bind {S A B} (m : M S A) (k : A -> M S B) : M S B :=
  fun s =>
    match m s with
    | (Ok a, s') => k a s'
    | (Raise e, s') => (Raise e, s')
    end.

Definition raise {S A} (e : exn) : M S A := fun s => (Raise e, s).

(** [try: m  except Exception as e: h e] *)
Definition try_except {S A} (m : M S A) (h : exn -> M S A) : M S A :=
  fun s =>
    match m s with
    | (Ok a, s') => (Ok a, s')
    | (Raise e, s') => h e s'
    end.

Definition get {S} : M S S := fun s => (Ok s, s).
Definition modify {S} (f : S -> S) : M S unit := fun s => (Ok tt, f s).

(** An outcome decided by the environment: a call that returns or raises. *)
Definition lift {S A} (r : res A) : M S A := fun s => (r, s).

Inductive level : Type := DEBUG | INFO | WARNING | ERROR.

(** ** Floats

    A Python [float] is an IEEE 754 double, and a finite double is a
    rational.  A true division of the source ([int / int], [float / int])
    and a division of two doubles by a database server give the exact
    quotient rounded to the nearest double, ties to the even significand.
    No quotient formed by the code modelled here comes near the largest
    double (datetimes span less than ten thousand years), so the upper end
    of the exponent range is left out. *)

(** [floor (log2 |q|)] for [q] other than zero. *)
Definition binade (q : Q) : Z :=
  let e := Z.log2 (Z.abs (Qnum q)) - Z.log2 (Zpos (Qden q)) in
  if Qle_bool (Qpower 2 e) (Qabs q) then e else e - 1.

Definition round_half_even (q : Q) : Z :=
  let f := Qfloor q in
  match Qcompare (q - inject_Z f) (1 # 2) with
  | Lt => f
  | Gt => f + 1
  | Eq => if Z.even f then f else f + 1
  end.

(** The double nearest to [q]: 53 significant bits, and steps of
    [2^-1074] below [2^-1022]. *)
Definition fl (q : Q) : Q :=
  if Qeq_bool q 0 then 0%Q
  else let e := Z.max (binade q - 52) (-1074) in
       (inject_Z (round_half_even (q / Qpower 2 e)) * Qpower 2 e)%Q.

Arguments fl : simpl never.

End Py.

Import Py.

Declare Scope py_scope.
Delimit Scope py_scope with py.
Notation "x <- m ;; k" := (bind m (fun x => k))
  (at level 61, m at next level, right associativity) : py_scope.
Notation "m ;;; k" := (bind m (fun _ => k))
  (at level 61, right associativity) : py_scope.

(* ================================================================== *)
(** * config.py                                                        *)
(* ================================================================== *)

Module Config.

(** A dataclass does not check its field types: the fields hold whatever
    the caller passed until [__post_init__] has looked at them. *)
Record NetworkConfig : Type := mkNetworkConfig {
  host : string;
  port : pyval;
  timeout : pyval;
  max_retries : pyval
}.

Definition default_host : string := "0.0.0.0".
Definition default_port : pyval := PyInt 11434.
Definition default_timeout : pyval := PyInt 30.
Definition default_max_retries : pyval := PyInt 3.

Definition __post_init__ (self : NetworkConfig) : res unit :=
  if negb (isinstance_int (port self))
     || negb ((1 <=? int_of (port self)) && (int_of (port self) <=? 65535))
  then Raise (mkExn ValueError
                ("Port must be between 1 and 65535, got " ++ str_pyval (port self)))
  else if negb (isinstance_int (timeout self)) || (int_of (timeout self) <=? 0)
  then Raise (mkExn ValueError
                ("Timeout must be positive, got " ++ str_pyval (timeout self)))
  else if negb (isinstance_int (max_retries self)) || (int_of (max_retries self) <? 0)
  then Raise (mkExn ValueError
                ("Max retries must be non-negative, got "
                   ++ str_pyval (max_retries self)))
  else Ok tt.

(** [NetworkConfig(host, port, timeout, max_retries)]: the generated
    [__init__] stores the fields and then runs [__post_init__]. *)
Definition new (h : string) (p t r : pyval) : res NetworkConfig :=
  let self := mkNetworkConfig h p t r in
  match __post_init__ self with
  | Ok _ => Ok self
  | Raise e => Raise e
  end.

Definition base_url (self : NetworkConfig) : string :=
  "http://" ++ host self ++ ":" ++ str_pyval (port self).

Definition api_url (self : NetworkConfig) : string :=
  base_url self ++ "/api".

Definition get_connection_url (self : NetworkConfig) (localhost_fallback : bool)
  : string :=
  if localhost_fallback && String.eqb (host self) "0.0.0.0"
  then "http://localhost:" ++ str_pyval (port self)
  else base_url self.

End Config.

(* ================================================================== *)
(** * service.py                                                       *)
(* ================================================================== *)

Module Service.

Import Config.
Local Open Scope py_scope.

(** The handle returned by [subprocess.Popen]. *)
Record Popen : Type := mkPopen { pid : Z }.

Inductive signal : Type := SIGTERM | SIGKILL.

(** What one HTTP GET of the probe comes to: a response with a status
    code, or an exception raised inside the [try] block. *)
Inductive probe_outcome : Type :=
| Response (status : Z)
| Raises (e : exn).

(** Everything the operating system and the network decide.  Each field
    is the outcome of one call of the source. *)
Record Env : Type := mkEnv {
  os_name_nt : bool;                     (* os.name == "nt" *)
  popen_result : res Popen;              (* subprocess.Popen([...], ...) *)
  poll_result : option Z;                (* self._process.poll() *)
  stderr_read : res string;              (* self._process.stderr.read().decode() *)
  probe : nat -> probe_outcome;          (* session.get(url), by attempt *)
  kill_result : res unit;                (* self._process.kill() *)
  terminate_result : res unit;           (* self._process.terminate() *)
  killpg_result : signal -> res unit;    (* os.killpg(os.getpgid(pid), sig) *)
  wait_result : option Q -> res unit     (* self._process.wait(timeout=...) *)
}.

(** The observable actions of the supervisor, in program order. *)
Inductive event : Type :=
| EvLog (lvl : level) (msg : string)
| EvSpawn (binary : string) (ollama_host : string) (setsid : bool)
| EvSleep (seconds : Q)
| EvPoll
| EvReadStderr
| EvProbe (attempt : nat) (url : string)
| EvKill
| EvTerminate
| EvKillpg (sig : signal)
| EvWait (timeout : option Q).

Record OllamaService : Type := mkService {
  config : NetworkConfig;
  ollama_binary : string;
  _process : option Popen;
  _is_running : bool
}.

(** The state a method runs in: the object and the events so far. *)
Record st : Type := mkSt { self : OllamaService; trace : list event }.

Definition emit (e : event) : M st unit :=
  modify (fun s => mkSt (self s) (trace s ++ [e])).

Definition log (lvl : level) (msg : string) : M st unit := emit (EvLog lvl msg).

Definition get_self : M st OllamaService := fun s => (Ok (self s), s).

Definition set_process (p : option Popen) : M st unit :=
  modify (fun s =>
    mkSt (mkService (config (self s)) (ollama_binary (self s)) p
                    (_is_running (self s)))
         (trace s)).

Definition set_is_running (b : bool) : M st unit :=
  modify (fun s =>
    mkSt (mkService (config (self s)) (ollama_binary (self s))
                    (_process (self s)) b)
         (trace s)).

Definition sleep (seconds : Q) : M st unit := emit (EvSleep seconds).

(** [NetworkConfig()] *)
Definition default_config : NetworkConfig :=
  mkNetworkConfig default_host default_port default_timeout default_max_retries.

(** [OllamaService(config, ollama_binary)] *)
Definition __init__ (cfg : option NetworkConfig) (binary : string) : OllamaService :=
  mkService (match cfg with Some c => c | None => default_config end)
            binary None false.

Definition health_url (s : OllamaService) : string :=
  get_connection_url (config s) true ++ "/api/tags".

(** The body of [for attempt in range(max_retries + 1)], with [todo]
    iterations left; when the range is used up the statement after the
    loop raises. *)
Fixpoint health_check_loop (env : Env) (url : string) (max_retries : Z)
         (todo : nat) (attempt : nat) : M st bool :=
  match todo with
  | O =>
      raise (mkExn HealthCheckError
               ("Health check failed after " ++ str_int (max_retries + 1)
                  ++ " attempts"))
  | S todo' =>
      emit (EvProbe attempt url) ;;;
      match probe env attempt with
      | Response status =>
          if status =? 200
          then log DEBUG "Health check passed" ;;; ret true
          else log WARNING ("Health check returned status " ++ str_int status) ;;;
               health_check_loop env url max_retries todo' (S attempt)
      | Raises e =>
          match exn_cls e with
          | ClientError =>
              log DEBUG ("Health check attempt " ++ str_int (Z.of_nat attempt + 1)
                           ++ " failed: " ++ str_exn e) ;;;
              if Z.of_nat attempt <? max_retries
              then sleep 1 ;;;
                   health_check_loop env url max_retries todo' (S attempt)
              else raise (mkExn ConnectionError
                            ("Failed to connect to Ollama service at " ++ url
                               ++ ": " ++ str_exn e))
          | _ =>
              log ERROR ("Unexpected error during health check: " ++ str_exn e) ;;;
              raise (mkExn HealthCheckError ("Health check failed: " ++ str_exn e))
          end
      end
  end.

(** [retries if retries is not None else self.config.max_retries] *)
Definition retry_budget (retries : option Z) (s : OllamaService) : Z :=
  match retries with
  | Some r => r
  | None => int_of (Config.max_retries (config s))
  end.

Definition health_check (env : Env) (retries : option Z) : M st bool :=
  s <- get_self ;;
  let max_retries := retry_budget retries s in
  health_check_loop env (health_url s) max_retries (Z.to_nat (max_retries + 1)) 0.

Definition spawn (env : Env) : M st Popen :=
  s <- get_self ;;
  emit (EvSpawn (ollama_binary s)
                (host (config s) ++ ":" ++ str_pyval (port (config s)))
                (negb (os_name_nt env))) ;;;
  lift (popen_result env).

Definition poll (env : Env) : M st (option Z) :=
  emit EvPoll ;;; ret (poll_result env).

Definition read_stderr (env : Env) : M st string :=
  emit EvReadStderr ;;; lift (stderr_read env).

Definition kill (env : Env) : M st unit :=
  emit EvKill ;;; lift (kill_result env).

Definition terminate (env : Env) : M st unit :=
  emit EvTerminate ;;; lift (terminate_result env).

Definition killpg (env : Env) (sig : signal) : M st unit :=
  emit (EvKillpg sig) ;;; lift (killpg_result env sig).

Definition wait (env : Env) (timeout : option Q) : M st unit :=
  emit (EvWait timeout) ;;; lift (wait_result env timeout).

Definition start (env : Env) (startup_delay : Q) : M st unit :=
  s <- get_self ;;
  if _is_running s
  then log WARNING "Service is already running"
  else
    try_except
      (log INFO ("Starting Ollama service on " ++ host (config s) ++ ":"
                   ++ str_pyval (port (config s))) ;;;
       p <- spawn env ;;
       set_process (Some p) ;;;
       sleep startup_delay ;;;
       rc <- poll env ;;
       match rc with
       | Some _ =>
           stderr <- read_stderr env ;;
           raise (mkExn ServiceStartError
                    ("Ollama process terminated immediately. stderr: " ++ stderr))
       | None =>
           try_except
             (health_check env None ;;;
              set_is_running true ;;;
              log INFO "Ollama service started successfully")
             (fun e =>
                match exn_cls e with
                | HealthCheckError =>
                    log WARNING ("Service started but health check failed: "
                                   ++ str_exn e) ;;;
                    set_is_running true
                | _ => raise e
                end)
       end)
      (fun e =>
         match exn_cls e with
         | FileNotFoundError =>
             raise (mkExn ServiceStartError
                      ("Ollama binary not found: " ++ ollama_binary s
                         ++ ". Please ensure Ollama is installed and in PATH."))
         | _ =>
             log ERROR ("Failed to start Ollama service: " ++ str_exn e) ;;;
             s' <- get_self ;;
             match _process s' with
             | Some _ =>
                 try_except (kill env) (fun _ => ret tt) ;;;
                 set_process None
             | None => ret tt
             end ;;;
             raise (mkExn ServiceStartError
                      ("Failed to start Ollama service: " ++ str_exn e))
         end).

Definition stop (env : Env) (timeout : Q) : M st unit :=
  s <- get_self ;;
  if negb (_is_running s)
     || negb (match _process s with Some _ => true | None => false end)
  then log WARNING "Service is not running"
  else
    try_except
      (log INFO "Stopping Ollama service" ;;;
       (if negb (os_name_nt env) then killpg env SIGTERM else terminate env) ;;;
       try_except
         (wait env (Some timeout))
         (fun e =>
            match exn_cls e with
            | TimeoutExpired =>
                log WARNING "Graceful shutdown timed out, forcing termination" ;;;
                (if negb (os_name_nt env) then killpg env SIGKILL else kill env) ;;;
                wait env None
            | _ => raise e
            end) ;;;
       set_is_running false ;;;
       set_process None ;;;
       log INFO "Ollama service stopped successfully")
      (fun e =>
         log ERROR ("Failed to stop Ollama service: " ++ str_exn e) ;;;
         raise (mkExn ServiceStopError
                  ("Failed to stop Ollama service: " ++ str_exn e))).

(** The [is_running] property. *)
Definition is_running (s : OllamaService) : bool := _is_running s.

(** The [base_url] property. *)
Definition base_url (s : OllamaService) : string :=
  get_connection_url (config s) true.

Definition __aenter__ (env : Env) : M st OllamaService :=
  start env 2 ;;; get_self.

Definition __aexit__ (env : Env) : M st unit := stop env 5.

(** Trace observers used by the statements below. *)
Definition is_probe (e : event) : bool :=
  match e with EvProbe _ _ => true | _ => false end.

Definition is_sleep (e : event) : bool :=
  match e with EvSleep _ => true | _ => false end.

Definition is_spawn (e : event) : bool :=
  match e with EvSpawn _ _ _ => true | _ => false end.

Definition attempts (t : list event) : nat := List.length (filter is_probe t).

Definition sleeps (t : list event) : nat := List.length (filter is_sleep t).

Definition spawns (t : list event) : nat := List.length (filter is_spawn t).

(** The probe and sleep events of a trace, the log lines dropped. *)
Definition schedule (t : list event) : list event :=
  filter (fun e => is_probe e || is_sleep e) t.

(** The events a health check can cause. *)
Definition of_prober (e : event) : bool :=
  match e with
  | EvProbe _ _ | EvSleep _ | EvLog _ _ => true
  | _ => false
  end.

(** The state [s] once the events [evs] have happened. *)
Definition after (s : st) (evs : list event) : st :=
  mkSt (self s) (trace s ++ evs).

(** The sleeps that follow the probe of attempt [k], up to the next
    probe. *)
Fixpoint sleeps_until_probe (t : list event) : list Q :=
  match t with
  | [] => []
  | EvProbe _ _ :: _ => []
  | EvSleep d :: rest => d :: sleeps_until_probe rest
  | _ :: rest => sleeps_until_probe rest
  end.

Fixpoint sleeps_after (k : nat) (t : list event) : list Q :=
  match t with
  | [] => []
  | EvProbe k' _ :: rest =>
      if Nat.eqb k' k then sleeps_until_probe rest else sleeps_after k rest
  | _ :: rest => sleeps_after k rest
  end.

Definition probed (k : nat) (t : list event) : Prop :=
  exists url, In (EvProbe k url) t.

(** The attempt ended in the [except aiohttp.ClientError] clause. *)
Definition connection_failure (o : probe_outcome) : Prop :=
  exists e, o = Raises e /\ exn_cls e = ClientError.

(** The attempt got a response whose status is not 200. *)
Definition unhealthy_response (o : probe_outcome) : Prop :=
  exists status, o = Response status /\ status <> 200.

(** ** Concrete supervisors and environments *)

(** A freshly built supervisor with the default configuration. *)
Definition fresh : st := mkSt (__init__ None "ollama") [].

(** The same supervisor, started: it holds a handle and is running. *)
Definition started : st :=
  mkSt (mkService default_config "ollama" (Some (mkPopen 4242)) true) [].

(** A POSIX host on which the binary spawns and stays alive, every call
    on the process succeeds, and the probe behaves as [probes] says. *)
Definition posix (probes : nat -> probe_outcome) : Env :=
  mkEnv false (Ok (mkPopen 4242)) None (Ok "") probes (Ok tt) (Ok tt)
        (fun _ => Ok tt) (fun _ => Ok tt).

(** The same host once the process group is gone: signalling it raises
    [ProcessLookupError]. *)
Definition process_gone : Env :=
  mkEnv false (Ok (mkPopen 4242)) None (Ok "") (fun _ => Response 200)
        (Ok tt) (Ok tt)
        (fun _ => Raise (mkExn (OtherException "ProcessLookupError")
                               "[Errno 3] No such process"))
        (fun _ => Ok tt).

Definition refused : probe_outcome :=
  Raises (mkExn ClientError "Cannot connect to host localhost:11434").

Definition always_refused : nat -> probe_outcome := fun _ => refused.

Definition always_503 : nat -> probe_outcome := fun _ => Response 503.

Definition refused_then_200 : nat -> probe_outcome :=
  fun attempt => match attempt with O => refused | _ => Response 200 end.

Definition status_503_then_200 : nat -> probe_outcome :=
  fun attempt => match attempt with O => Response 503 | _ => Response 200 end.

Definition default_url : string := "http://localhost:11434/api/tags".

(** ** The model listing *)

(** A parsed JSON document, as [response.json()] returns it. *)
#[warnings="-register-all"]
Inductive json : Type :=
| JNull
| JBool (b : bool)
| JNumber (q : Q)
| JString (s : string)
| JArray (items : list json)
| JObject (members : list (string * json)).

(** [get_models]: one GET of the URL the probe uses, decided by the
    environment like attempt 0 of a health check; [body] is what
    [response.json()] returns or raises when the body is read. *)
Definition get_models (env : Env) (body : res json) : M st json :=
  s <- get_self ;;
  let url := health_url s in
  try_except
    (emit (EvProbe 0 url) ;;;
     match probe env 0 with
     | Response status =>
         if status =? 200
         then lift body
         else raise (mkExn ConnectionError
                       ("Failed to get models: HTTP " ++ str_int status))
     | Raises e => raise e
     end)
    (fun e =>
       match exn_cls e with
       | ClientError =>
           raise (mkExn ConnectionError
                    ("Failed to connect to Ollama service: " ++ str_exn e))
       | _ => raise e
       end).

(** What the [except aiohttp.ClientError] clause of [get_models] makes of
    an exception. *)
Definition surfaced (e : exn) : exn :=
  match exn_cls e with
  | ClientError =>
      mkExn ConnectionError ("Failed to connect to Ollama service: " ++ str_exn e)
  | _ => e
  end.

(** ** Sequences of lifecycle calls *)

(** A caller that starts and stops the supervisor, each call in the
    environment of its moment, and goes on whatever a call raises. *)
Inductive call : Type :=
| Start (env : Env) (startup_delay : Q)
| Stop (env : Env) (timeout : Q).

Definition run_call (c : call) (s : st) : st :=
  match c with
  | Start env startup_delay => snd (start env startup_delay s)
  | Stop env timeout => snd (stop env timeout s)
  end.

Definition run_calls (cs : list call) (s : st) : st :=
  fold_left (fun s c => run_call c s) cs s.

Definition has_handle (o : OllamaService) : bool :=
  match _process o with Some _ => true | None => false end.

(** Reading the error stream of the child does not end in
    [FileNotFoundError]. *)
Definition stderr_readable (env : Env) : Prop :=
  forall e, stderr_read env = Raise e -> exn_cls e <> FileNotFoundError.

Definition orderly (c : call) : Prop :=
  match c with
  | Start env _ => stderr_readable env
  | Stop _ _ => True
  end.

(** The signals of a stop: the graceful one and the forceful one, by
    platform. *)
Definition graceful (env : Env) : event :=
  if os_name_nt env then EvTerminate else EvKillpg SIGTERM.

Definition graceful_result (env : Env) : res unit :=
  if os_name_nt env then terminate_result env else killpg_result env SIGTERM.

Definition forceful_result (env : Env) : res unit :=
  if os_name_nt env then kill_result env else killpg_result env SIGKILL.

Definition forceful (env : Env) : event :=
  if os_name_nt env then EvKill else EvKillpg SIGKILL.

(** Calls on the process group, and calls on the single process. *)
Definition on_group (e : event) : bool :=
  match e with EvKillpg _ => true | _ => false end.

Definition on_process (e : event) : bool :=
  match e with EvTerminate | EvKill => true | _ => false end.

Definition is_forceful (e : event) : bool :=
  match e with
  | EvKill | EvKillpg SIGKILL => true
  | _ => false
  end.

Definition is_graceful (e : event) : bool :=
  match e with
  | EvTerminate | EvKillpg SIGTERM => true
  | _ => false
  end.

Definition escalations (t : list event) : nat := List.length (filter is_forceful t).

Definition graceful_signals (t : list event) : nat :=
  List.length (filter is_graceful t).

(** The graceful wait ran into its timeout. *)
Definition timed_out (env : Env) (timeout : Q) : bool :=
  match wait_result env (Some timeout) with
  | Raise e => match exn_cls e with TimeoutExpired => true | _ => false end
  | Ok _ => false
  end.

(** An attempt after which the loop goes on when attempts are left. *)
Definition retryable (o : probe_outcome) : Prop :=
  connection_failure o \/ unhealthy_response o.

(** An attempt that ended in the [except Exception] clause. *)
Definition unexpected_failure (o : probe_outcome) : Prop :=
  exists e, o = Raises e /\ exn_cls e <> ClientError.

(** The first two events of a start that goes past the running check:
    the log line and the spawn. *)
Definition spawning (env : Env) (s : st) : list event :=
  [EvLog INFO ("Starting Ollama service on " ++ host (config (self s)) ++ ":"
                 ++ str_pyval (port (config (self s))));
   EvSpawn (ollama_binary (self s))
           (host (config (self s)) ++ ":" ++ str_pyval (port (config (self s))))
           (negb (os_name_nt env))].

(** The object of [s] with its two mutable fields set. *)
Definition with_fields (s : st) (p : option Popen) (running : bool)
  : OllamaService :=
  mkService (config (self s)) (ollama_binary (self s)) p running.

(** ** More hosts *)

(** A host without the binary. *)
Definition no_binary : Env :=
  mkEnv false (Raise (mkExn FileNotFoundError
                            "[Errno 2] No such file or directory: 'ollama'"))
        None (Ok "") (fun _ => Response 200) (Ok tt) (Ok tt)
        (fun _ => Ok tt) (fun _ => Ok tt).

(** A host on which the child exits at once, with a line on its error
    stream, and can no longer be killed. *)
Definition exits_at_once : Env :=
  mkEnv false (Ok (mkPopen 4242)) (Some 1) (Ok "Error: listen tcp: address in use")
        (fun _ => Response 200)
        (Raise (mkExn (OtherException "ProcessLookupError") "[Errno 3] No such process"))
        (Ok tt) (fun _ => Ok tt) (fun _ => Ok tt).

(** A POSIX host whose child ignores SIGTERM: the graceful wait times
    out, the forceful one returns. *)
Definition stubborn : Env :=
  mkEnv false (Ok (mkPopen 4242)) None (Ok "") (fun _ => Response 200)
        (Ok tt) (Ok tt) (fun _ => Ok tt)
        (fun timeout =>
           match timeout with
           | Some _ => Raise (mkExn TimeoutExpired
                                    "Command 'ollama' timed out after 5.0 seconds")
           | None => Ok tt
           end).

Definition timeout_error : exn := mkExn (OtherException "TimeoutError") "".

(** ** Connection-level failures

    The specification lists three: a refused connection, a failed name
    lookup and a timeout.  The HTTP client raises the first two as
    subclasses of [aiohttp.ClientError].  The one time limit the source
    sets is [ClientTimeout(total=...)]; when it runs out the request is
    cancelled and [TimeoutError] is raised, which is no [ClientError]. *)
Inductive failure : Type := Refused | NameLookupFailed | TimeLimitExpired.

Definition raised_on (f : failure) : exn :=
  match f with
  | Refused => mkExn ClientError "Cannot connect to host localhost:11434"
  | NameLookupFailed =>
      mkExn ClientError "Cannot connect to host localhost:11434 [Name or service not known]"
  | TimeLimitExpired => timeout_error
  end.

(** A connection-level failure in the words of the specification. *)
Definition connection_level_failure (o : probe_outcome) : Prop :=
  exists f, o = Raises (raised_on f).

(** A server that accepts the connection and never answers. *)
Definition always_timed_out : nat -> probe_outcome :=
  fun _ => Raises (raised_on TimeLimitExpired).

End Service.

(* ================================================================== *)
(** * api/dependencies.py                                              *)
(* ================================================================== *)

Module Router.

Local Open Scope py_scope.

(** A [datetime] is its number of microseconds since the epoch. *)
Definition minute_us : Z := 60000000.
Definition hour_us : Z := 3600000000.

(** A numeric cell as a driver hands it over: [None], an [int], or a
    [float] (or [Decimal]). *)
Inductive num : Type :=
| Null
| Int (z : Z)
| Float (q : Q).

(** Truth value of a cell: [None], [0] and [0.0] are false. *)
Definition truthy (n : num) : bool :=
  match n with
  | Null => false
  | Int z => negb (z =? 0)
  | Float q => negb (Qeq_bool q 0)
  end.

(** [n or 0] *)
Definition or0 (n : num) : num := if truthy n then n else Int 0.

Definition Qtrunc (q : Q) : Z := if Qle_bool 0 q then Qfloor q else Qceiling q.

(** [int(n)] and [float(n)] for a cell that is not [None]. *)
Definition int_ (n : num) : Z :=
  match n with
  | Null => 0
  | Int z => z
  | Float q => Qtrunc q
  end.

Definition float_ (n : num) : Q :=
  match n with
  | Null => 0%Q
  | Int z => inject_Z z
  | Float q => q
  end.

Record DatabaseConfig : Type := mkDatabaseConfig {
  exporter_type : string;
  clickhouse_host : string;
  clickhouse_port : Z;
  clickhouse_database : string;
  clickhouse_user : string;
  clickhouse_password : string;
  postgres_host : string;
  postgres_port : Z;
  postgres_database : string;
  postgres_user : string;
  postgres_password : string
}.

Definition default_DatabaseConfig : DatabaseConfig :=
  mkDatabaseConfig "clickhouse" "localhost" 9000 "ollama_metrics" "default" ""
                   "localhost" 5432 "ollama_metrics" "postgres" "postgres".

(** ** Result rows and result dictionaries *)

Record history_row : Type := mkHistoryRow {
  time_bucket : Z;
  r_tokens_total : num;
  r_latency_ms : num;
  r_throughput : num;
  r_error_count : num
}.

Record log_row : Type := mkLogRow {
  request_id : string;
  l_timestamp : Z;
  l_model : string;
  l_tokens_generated : num;
  l_latency_ms : num;
  l_status : string;
  l_error_message : option string
}.

Record model_row : Type := mkModelRow {
  m_model : string;
  m_requests_count : num;
  m_tokens_generated : num;
  m_avg_latency_ms : num;
  m_error_count : num;
  m_last_used : option Z
}.

Record MetricsSnapshot : Type := mkSnapshot {
  tokens_total : Z;
  tokens_per_sec : Q;
  uptime_hours : Q;
  error_count : Z;
  request_count : Z;
  avg_latency_ms : Q;
  models_available : Z;
  timestamp : Z
}.

Record HistoryPoint : Type := mkHistoryPoint {
  h_timestamp : Z;
  h_tokens_total : Z;
  h_latency_ms : Q;
  h_throughput : Q;
  h_error_count : Z
}.

Record LogEntry : Type := mkLogEntry {
  e_request_id : string;
  e_timestamp : Z;
  e_model : string;
  e_tokens : num;
  e_latency : num;
  e_status : string;
  e_error_message : option string
}.

Record LogsPage : Type := mkLogsPage { total : num; logs : list LogEntry }.

Record ModelAggregate : Type := mkModelAggregate {
  model_name : string;
  requests_count : num;
  tokens_generated : num;
  a_avg_latency_ms : Q;
  a_error_count : num;
  last_used : option Z
}.

(** Query parameters, a [dict] in insertion order. *)
Definition params : Type := list (string * pyval).

(** ** The two backends

    A connected ClickHouse client, seen through the queries the manager
    sends it: every [execute] returns its rows or raises. *)
Record ClickHouseClient : Type := mkClickHouse {
  ch_totals : res (list (num * num * num * num));
  ch_tps : res (list num);
  ch_uptime : res (list num);
  ch_history : Z -> Z -> res (list history_row);   (* hours, granularity_minutes *)
  ch_logs_count : string -> params -> res (list num);
  ch_logs : string -> params -> res (list log_row);
  ch_model_stats : res (list model_row)
}.

(** The PostgreSQL session factory: entering the session, and each
    [execute] followed by [fetchone], [fetchall] or [scalar], returns or
    raises. *)
Record SessionFactory : Type := mkSessionFactory {
  enter_session : res unit;
  pg_totals : res (option (num * num * num * num));
  pg_tps : res (option num);
  pg_history : Z -> Z -> res (list history_row);   (* hours, granularity_minutes *)
  pg_logs_count : string -> params -> res num;
  pg_logs : string -> params -> res (list log_row);
  pg_model_stats : res (list model_row)
}.

Record DatabaseManager : Type := mkManager {
  config : DatabaseConfig;
  _clickhouse_client : option ClickHouseClient;
  _postgres_session_factory : option SessionFactory;
  _connected : bool;
  _start_time : Z
}.

(** The state a query runs in: how often the wall clock was read, and
    the log lines written. *)
Record st : Type := mkSt { clock_reads : nat; log_lines : list (level * string) }.

(** [xs[0]] on a list, [row[0]] on the result of [fetchone()]. *)
Definition index0 {A} (xs : list A) : res A :=
  match xs with
  | x :: _ => Ok x
  | [] => Raise (mkExn IndexError "list index out of range")
  end.

Definition subscript {A} (row : option A) : res A :=
  match row with
  | Some r => Ok r
  | None => Raise (mkExn (OtherException "TypeError")
                         "'NoneType' object is not subscriptable")
  end.

(** Using an attribute that holds [None]. *)
Definition deref {A} (o : option A) : res A :=
  match o with
  | Some a => Ok a
  | None => Raise (mkExn (OtherException "AttributeError")
                         "'NoneType' object has no attribute")
  end.

Definition call {A} (o : option A) : res A :=
  match o with
  | Some a => Ok a
  | None => Raise (mkExn (OtherException "TypeError")
                         "'NoneType' object is not callable")
  end.

Definition is_some {A} (o : option A) : bool :=
  match o with Some _ => true | None => false end.

Definition log (lvl : level) (msg : string) : M st unit :=
  modify (fun s => mkSt (clock_reads s) (log_lines s ++ [(lvl, msg)])).

(** What the surroundings of the manager decide: [clock k] is what the
    [k]-th call of [datetime.utcnow()] returns, [import_text] is how
    [from sqlalchemy import text] ends. *)
Record Env : Type := mkEnv {
  clock : nat -> Z;
  import_text : res unit
}.

Section Queries.

Variable env : Env.

Definition utcnow : M st Z :=
  fun s => (Ok (clock env (clock_reads s)),
            mkSt (S (clock_reads s)) (log_lines s)).

(** [DatabaseManager(config)] *)
Definition __init__ (cfg : DatabaseConfig) : M st DatabaseManager :=
  now <- utcnow ;;
  ret (mkManager cfg None None false now).

Definition is_connected (self : DatabaseManager) : bool := _connected self.

(** [(datetime.utcnow() - self._start_time).total_seconds()]: the
    microseconds of the difference, divided by [10**6]. *)
Definition uptime_seconds (self : DatabaseManager) : M st Q :=
  now <- utcnow ;;
  ret (fl (inject_Z (now - _start_time self) / 1000000)).

Definition _get_empty_stats (self : DatabaseManager) : M st MetricsSnapshot :=
  up <- uptime_seconds self ;;
  now <- utcnow ;;
  ret (mkSnapshot 0 0%Q (fl (up / 3600)) 0 0 0%Q 0 now).

(** [self.config.exporter_type in ("clickhouse", "both") and
     self._clickhouse_client] *)
Definition use_clickhouse (self : DatabaseManager) : bool :=
  (String.eqb (exporter_type (config self)) "clickhouse"
   || String.eqb (exporter_type (config self)) "both")
  && is_some (_clickhouse_client self).

(** Each adapter is one [try] block with one [except Exception] handler;
    [X_try] is the block of adapter [X].  The uptime cell of ClickHouse
    is divided by 3600 as the [int] or [float] it is. *)
Definition _get_current_stats_clickhouse_try (self : DatabaseManager)
  : M st MetricsSnapshot :=
  c <- lift (deref (_clickhouse_client self)) ;;
  totals <- lift (ch_totals c) ;;
  tps <- lift (ch_tps c) ;;
  uptime <- lift (ch_uptime c) ;;
  t0 <- lift (index0 totals) ;;
  let '(tok, err, req, lat) := t0 in
  p0 <- lift (index0 tps) ;;
  u0 <- lift (index0 uptime) ;;
  now <- utcnow ;;
  ret (mkSnapshot (int_ (or0 tok))
                  (float_ (or0 p0))
                  (fl (float_ (or0 u0) / 3600))
                  (int_ (or0 err))
                  (int_ (or0 req))
                  (float_ (or0 lat))
                  0
                  now).

Definition _get_current_stats_clickhouse (self : DatabaseManager)
  : M st MetricsSnapshot :=
  try_except
    (_get_current_stats_clickhouse_try self)
    (fun e =>
       log ERROR ("Error getting stats from ClickHouse: " ++ str_exn e) ;;;
       _get_empty_stats self).

Definition _get_current_stats_postgres_try (self : DatabaseManager)
  : M st MetricsSnapshot :=
  lift (import_text env) ;;;
  f <- lift (call (_postgres_session_factory self)) ;;
  lift (enter_session f) ;;;
  totals <- lift (pg_totals f) ;;
  tps <- lift (pg_tps f) ;;
  t0 <- lift (subscript totals) ;;
  let '(tok, err, req, lat) := t0 in
  p0 <- lift (subscript tps) ;;
  up <- uptime_seconds self ;;
  now <- utcnow ;;
  ret (mkSnapshot (int_ (or0 tok))
                  (float_ (or0 p0))
                  (fl (up / 3600))
                  (int_ (or0 err))
                  (int_ (or0 req))
                  (float_ (or0 lat))
                  0
                  now).

Definition _get_current_stats_postgres (self : DatabaseManager)
  : M st MetricsSnapshot :=
  try_except
    (_get_current_stats_postgres_try self)
    (fun e =>
       log ERROR ("Error getting stats from PostgreSQL: " ++ str_exn e) ;;;
       _get_empty_stats self).

Definition get_current_stats (self : DatabaseManager) : M st MetricsSnapshot :=
  if use_clickhouse self then _get_current_stats_clickhouse self
  else if is_some (_postgres_session_factory self)
  then _get_current_stats_postgres self
  else _get_empty_stats self.

(** [range_map.get(time_range, 1)] and [granularity_map.get(granularity, 1)] *)
Definition range_map (time_range : string) : Z :=
  if String.eqb time_range "1h" then 1
  else if String.eqb time_range "6h" then 6
  else if String.eqb time_range "24h" then 24
  else 1.

Definition granularity_map (granularity : string) : Z :=
  if String.eqb granularity "1m" then 1
  else if String.eqb granularity "5m" then 5
  else if String.eqb granularity "1h" then 60
  else 1.

Definition history_point (row : history_row) : HistoryPoint :=
  mkHistoryPoint (time_bucket row)
                 (int_ (or0 (r_tokens_total row)))
                 (float_ (or0 (r_latency_ms row)))
                 (float_ (or0 (r_throughput row)))
                 (int_ (or0 (r_error_count row))).

Definition _get_history_clickhouse_try (self : DatabaseManager)
           (hours granularity_minutes : Z) : M st (list HistoryPoint) :=
  c <- lift (deref (_clickhouse_client self)) ;;
  rows <- lift (ch_history c hours granularity_minutes) ;;
  ret (map history_point rows).

Definition _get_history_clickhouse (self : DatabaseManager)
           (hours granularity_minutes : Z) : M st (list HistoryPoint) :=
  try_except
    (_get_history_clickhouse_try self hours granularity_minutes)
    (fun e =>
       log ERROR ("Error getting history from ClickHouse: " ++ str_exn e) ;;;
       ret []).

Definition _get_history_postgres_try (self : DatabaseManager)
           (hours granularity_minutes : Z) : M st (list HistoryPoint) :=
  lift (import_text env) ;;;
  f <- lift (call (_postgres_session_factory self)) ;;
  lift (enter_session f) ;;;
  rows <- lift (pg_history f hours granularity_minutes) ;;
  ret (map history_point rows).

Definition _get_history_postgres (self : DatabaseManager)
           (hours granularity_minutes : Z) : M st (list HistoryPoint) :=
  try_except
    (_get_history_postgres_try self hours granularity_minutes)
    (fun e =>
       log ERROR ("Error getting history from PostgreSQL: " ++ str_exn e) ;;;
       ret []).

Definition get_history (self : DatabaseManager) (time_range granularity : string)
  : M st (list HistoryPoint) :=
  let hours := range_map time_range in
  let minutes := granularity_map granularity in
  if use_clickhouse self then _get_history_clickhouse self hours minutes
  else if is_some (_postgres_session_factory self)
  then _get_history_postgres self hours minutes
  else ret [].

(** [if status:] on an optional string: [None] and [""] are false. *)
Definition given (o : option string) : bool :=
  match o with
  | Some s => negb (String.eqb s "")
  | None => false
  end.

Definition str_of (o : option string) : string :=
  match o with Some s => s | None => "" end.

(** [" AND ".join(conditions) if conditions else otherwise] *)
Definition where_clause (conditions : list string) (otherwise : string) : string :=
  match conditions with
  | [] => otherwise
  | _ => String.concat " AND " conditions
  end.

Definition log_entry (row : log_row) : LogEntry :=
  mkLogEntry (request_id row) (l_timestamp row) (l_model row)
             (l_tokens_generated row) (l_latency_ms row) (l_status row)
             (l_error_message row).

Definition empty_logs : LogsPage := mkLogsPage (Int 0) [].

Definition _get_logs_clickhouse_try (self : DatabaseManager) (limit offset : Z)
           (status model : option string) : M st LogsPage :=
  let conditions :=
    ((if given status then ["status = %(status)s"] else [])
       ++ (if given model then ["model = %(model)s"] else []))%list in
  let ps : params :=
    ((if given status then [("status", PyStr (str_of status))] else [])
       ++ (if given model then [("model", PyStr (str_of model))] else []))%list in
  let w := where_clause conditions "1=1" in
  c <- lift (deref (_clickhouse_client self)) ;;
  counted <- lift (ch_logs_count c w ps) ;;
  tot <- lift (index0 counted) ;;
  rows <- lift (ch_logs c w (ps ++ [("limit", PyInt limit);
                                    ("offset", PyInt offset)])%list) ;;
  ret (mkLogsPage tot (map log_entry rows)).

Definition _get_logs_clickhouse (self : DatabaseManager) (limit offset : Z)
           (status model : option string) : M st LogsPage :=
  try_except
    (_get_logs_clickhouse_try self limit offset status model)
    (fun e =>
       log ERROR ("Error getting logs from ClickHouse: " ++ str_exn e) ;;;
       ret empty_logs).

Definition _get_logs_postgres_try (self : DatabaseManager) (limit offset : Z)
           (status model : option string) : M st LogsPage :=
  lift (import_text env) ;;;
  let conditions :=
    ((if given status then ["status = :status"] else [])
       ++ (if given model then ["model = :model"] else []))%list in
  let ps : params :=
    ([("limit", PyInt limit); ("offset", PyInt offset)]
       ++ (if given status then [("status", PyStr (str_of status))] else [])
       ++ (if given model then [("model", PyStr (str_of model))] else []))%list in
  let w := where_clause conditions "TRUE" in
  f <- lift (call (_postgres_session_factory self)) ;;
  lift (enter_session f) ;;;
  counted <- lift (pg_logs_count f w ps) ;;
  rows <- lift (pg_logs f w ps) ;;
  ret (mkLogsPage (or0 counted) (map log_entry rows)).

Definition _get_logs_postgres (self : DatabaseManager) (limit offset : Z)
           (status model : option string) : M st LogsPage :=
  try_except
    (_get_logs_postgres_try self limit offset status model)
    (fun e =>
       log ERROR ("Error getting logs from PostgreSQL: " ++ str_exn e) ;;;
       ret empty_logs).

Definition get_logs (self : DatabaseManager) (limit offset : Z)
           (status model : option string) : M st LogsPage :=
  if use_clickhouse self then _get_logs_clickhouse self limit offset status model
  else if is_some (_postgres_session_factory self)
  then _get_logs_postgres self limit offset status model
  else ret empty_logs.

Definition model_aggregate (row : model_row) : ModelAggregate :=
  mkModelAggregate (m_model row) (m_requests_count row) (m_tokens_generated row)
                   (float_ (or0 (m_avg_latency_ms row)))
                   (m_error_count row) (m_last_used row).

Definition _get_model_stats_clickhouse_try (self : DatabaseManager)
  : M st (list ModelAggregate) :=
  c <- lift (deref (_clickhouse_client self)) ;;
  rows <- lift (ch_model_stats c) ;;
  ret (map model_aggregate rows).

Definition _get_model_stats_clickhouse (self : DatabaseManager)
  : M st (list ModelAggregate) :=
  try_except
    (_get_model_stats_clickhouse_try self)
    (fun e =>
       log ERROR ("Error getting model stats from ClickHouse: " ++ str_exn e) ;;;
       ret []).

Definition _get_model_stats_postgres_try (self : DatabaseManager)
  : M st (list ModelAggregate) :=
  lift (import_text env) ;;;
  f <- lift (call (_postgres_session_factory self)) ;;
  lift (enter_session f) ;;;
  rows <- lift (pg_model_stats f) ;;
  ret (map model_aggregate rows).

Definition _get_model_stats_postgres (self : DatabaseManager)
  : M st (list ModelAggregate) :=
  try_except
    (_get_model_stats_postgres_try self)
    (fun e =>
       log ERROR ("Error getting model stats from PostgreSQL: " ++ str_exn e) ;;;
       ret []).

Definition get_model_stats (self : DatabaseManager) : M st (list ModelAggregate) :=
  if use_clickhouse self then _get_model_stats_clickhouse self
  else if is_some (_postgres_session_factory self)
  then _get_model_stats_postgres self
  else ret [].

End Queries.

(** ** What a healthy server answers to the history queries

    The SQL text of the two history queries, read over the rows of the
    table [ollama_metrics] and the server's [now()]. *)

Record metric : Type := mkMetric {
  m_timestamp : Z;
  metric_name : string;
  metric_value : Q
}.

(** ClickHouse [toStartOfInterval(timestamp, INTERVAL n MINUTE)] *)
Definition toStartOfInterval (t n : Z) : Z := t - t mod (n * minute_us).

(** PostgreSQL [date_trunc('minute', timestamp)] *)
Definition date_trunc_minute (t : Z) : Z := t - t mod minute_us.

(** [WHERE timestamp >= now() - INTERVAL hours HOUR] *)
Definition in_range (now hours : Z) (r : metric) : bool :=
  now - hours * hour_us <=? m_timestamp r.

(** [GROUP BY time_bucket ORDER BY time_bucket DESC]: the distinct keys,
    largest first. *)
Fixpoint insert_desc (k : Z) (ks : list Z) : list Z :=
  match ks with
  | [] => [k]
  | k' :: ks' =>
      if k' <? k then k :: ks
      else if k' =? k then ks
      else k' :: insert_desc k ks'
  end.

Definition group_keys_desc (keys : list Z) : list Z :=
  fold_right insert_desc [] keys.

Definition named (name : string) (r : metric) : bool :=
  String.eqb (metric_name r) name.

(** [sum(CASE WHEN metric_name = name THEN metric_value ELSE 0 END)] *)
Definition sum_case (name : string) (g : list metric) : Q :=
  fold_right (fun r acc => ((if named name r then metric_value r else 0) + acc)%Q)
             0%Q g.

(** [count(CASE WHEN metric_name = name THEN 1 ELSE NULL END)] *)
Definition count_case (name : string) (g : list metric) : Z :=
  Z.of_nat (List.length (filter (named name) g)).

(** [avg(CASE WHEN metric_name = name THEN metric_value ELSE NULL END)],
    [NULL] when no row of the group has that name. *)
Definition avg_case (name : string) (g : list metric) : num :=
  match filter (named name) g with
  | [] => Null
  | _ => Float (sum_case name g / inject_Z (count_case name g))%Q
  end.

(** [COALESCE(x, 0)] *)
Definition coalesce0 (n : num) : num :=
  match n with Null => Int 0 | _ => n end.

Section History.

(** The bucket expression of the [SELECT] list. *)
Variable bucket : Z -> Z.

Definition group_of (b : Z) (rows : list metric) : list metric :=
  filter (fun r => bucket (m_timestamp r) =? b) rows.

Definition selected (now hours : Z) (table : list metric) : list metric :=
  filter (in_range now hours) table.

Definition buckets_of (rows : list metric) : list Z :=
  group_keys_desc (map (fun r => bucket (m_timestamp r)) rows).

End History.

Definition sql_history_clickhouse (table : list metric) (now : Z)
           (hours granularity_minutes : Z) : list history_row :=
  let bucket := fun t => toStartOfInterval t granularity_minutes in
  let rows := selected now hours table in
  map (fun b =>
         let g := group_of bucket b rows in
         mkHistoryRow b
           (Float (sum_case "ollama_tokens_generated_total" g))
           (avg_case "ollama_request_latency_ms" g)
           (Float (fl (inject_Z (count_case "ollama_requests_total" g)
                         / inject_Z granularity_minutes)))
           (Float (sum_case "ollama_errors_total" g)))
      (buckets_of bucket rows).

Definition sql_history_postgres (table : list metric) (now : Z)
           (hours granularity_minutes : Z) : list history_row :=
  let rows := selected now hours table in
  map (fun b =>
         let g := group_of date_trunc_minute b rows in
         mkHistoryRow b
           (coalesce0 (Float (sum_case "ollama_tokens_generated_total" g)))
           (coalesce0 (avg_case "ollama_request_latency_ms" g))
           (Float (fl (inject_Z (count_case "ollama_requests_total" g)
                         / inject_Z granularity_minutes)))
           (coalesce0 (Float (sum_case "ollama_errors_total" g))))
      (buckets_of date_trunc_minute rows).

(** A ClickHouse client and a session factory answer the history query
    from a table when every [execute] of that query returns these rows. *)
Definition serves_history_clickhouse (c : ClickHouseClient)
           (table : list metric) (now : Z) : Prop :=
  forall hours minutes,
    ch_history c hours minutes = Ok (sql_history_clickhouse table now hours minutes).

Definition serves_history_postgres (f : SessionFactory)
           (table : list metric) (now : Z) : Prop :=
  enter_session f = Ok tt /\
  forall hours minutes,
    pg_history f hours minutes = Ok (sql_history_postgres table now hours minutes).

(** Strictly decreasing timestamps: distinct and newest first. *)
Fixpoint newest_first (ts : list Z) : Prop :=
  match ts with
  | [] => True
  | t :: rest =>
      match rest with
      | [] => True
      | t' :: _ => t' < t
      end /\ newest_first rest
  end.

(** The manager with no backend connected. *)
Definition disconnected (self : DatabaseManager) : DatabaseManager :=
  mkManager (config self) None None (_connected self) (_start_time self).

(** A query degrades: it always returns, and when the [try] block of the
    adapter it selects raises, it writes one error line to the log and
    returns what it returns with no backend connected. *)
Definition degrades {A} (query : DatabaseManager -> M st A)
           (clickhouse_try postgres_try : DatabaseManager -> M st A) : Prop :=
  forall (self : DatabaseManager) (s : st),
    (exists v s', query self s = (Ok v, s')) /\
    (forall e s1,
        (use_clickhouse self = true /\ clickhouse_try self s = (Raise e, s1))
        \/ (use_clickhouse self = false
            /\ is_some (_postgres_session_factory self) = true
            /\ postgres_try self s = (Raise e, s1)) ->
        fst (query self s) = fst (query (disconnected self) s)
        /\ exists msg,
            log_lines (snd (query self s)) = (log_lines s ++ [(ERROR, msg)])%list).

(** A router method: ClickHouse adapter when it is selected, otherwise
    Postgres adapter when a session factory is there, otherwise the empty
    result; each adapter is a [try] block whose handler logs and falls
    back on the empty result. *)
Definition routed {A} (query : DatabaseManager -> M st A)
           (clickhouse_try postgres_try : DatabaseManager -> M st A)
           (clickhouse_msg postgres_msg : exn -> string)
           (empty : DatabaseManager -> M st A) : Prop :=
  forall self s,
    query self s =
    if use_clickhouse self
    then try_except (clickhouse_try self)
                    (fun e => bind (log ERROR (clickhouse_msg e))
                                   (fun _ => empty self)) s
    else if is_some (_postgres_session_factory self)
    then try_except (postgres_try self)
                    (fun e => bind (log ERROR (postgres_msg e))
                                   (fun _ => empty self)) s
    else empty self s.

(** The empty result is always there, and neither reads nor writes the
    log. *)
Definition steady {A} (empty : DatabaseManager -> M st A) : Prop :=
  forall self s, exists v reads,
    forall lines,
      empty self (mkSt (clock_reads s) lines) = (Ok v, mkSt reads lines)
      /\ empty (disconnected self) (mkSt (clock_reads s) lines)
         = (Ok v, mkSt reads lines).

(** A [try] block that raises leaves the state as it found it. *)
Definition fails_early {A} (block : DatabaseManager -> M st A) : Prop :=
  forall self s e s1, block self s = (Raise e, s1) -> s1 = s.

(** ** Concrete managers and backends *)

Definition s0 : st := mkSt 0 [].

(** A clock that advances by one hour between two readings. *)
Definition hourly : Env := mkEnv (fun k => Z.of_nat k * hour_us) (Ok tt).

(** A clock that advances by one second between two readings. *)
Definition every_second : Env := mkEnv (fun k => Z.of_nat k * 1000000) (Ok tt).

Definition driver_error : exn :=
  mkExn (OtherException "NetworkError") "Code: 210. Connection refused".

(** A ClickHouse client whose connection is lost: every query raises. *)
Definition lost_clickhouse : ClickHouseClient :=
  mkClickHouse (Raise driver_error) (Raise driver_error) (Raise driver_error)
               (fun _ _ => Raise driver_error) (fun _ _ => Raise driver_error)
               (fun _ _ => Raise driver_error) (Raise driver_error).

(** A ClickHouse client and a session factory that answer the history
    query from a table; the other queries are not served. *)
Definition clickhouse_over (table : list metric) (now : Z) : ClickHouseClient :=
  mkClickHouse (Raise driver_error) (Raise driver_error) (Raise driver_error)
               (fun hours minutes =>
                  Ok (sql_history_clickhouse table now hours minutes))
               (fun _ _ => Raise driver_error)
               (fun _ _ => Raise driver_error) (Raise driver_error).

Definition postgres_over (table : list metric) (now : Z) : SessionFactory :=
  mkSessionFactory (Ok tt) (Raise driver_error) (Raise driver_error)
                   (fun hours minutes =>
                      Ok (sql_history_postgres table now hours minutes))
                   (fun _ _ => Raise driver_error)
                   (fun _ _ => Raise driver_error) (Raise driver_error).

Definition manager_on_clickhouse (c : ClickHouseClient) : DatabaseManager :=
  mkManager default_DatabaseConfig (Some c) None true 0.

Definition manager_on_postgres (f : SessionFactory) : DatabaseManager :=
  mkManager (mkDatabaseConfig "postgres" "localhost" 9000 "ollama_metrics"
                              "default" "" "localhost" 5432 "ollama_metrics"
                              "postgres" "postgres")
            None (Some f) true 0.

(** Half past twelve, and one request in each of the last six hours and
    one right now: 06:30, 07:30, ..., 12:30. *)
Definition half_past_twelve : Z := 12 * hour_us + 30 * minute_us.

Definition one_request_per_hour : list metric :=
  map (fun i => mkMetric (half_past_twelve - i * hour_us) "ollama_requests_total" 1)
      [6; 5; 4; 3; 2; 1; 0].

(** Two requests of the same hour, one minute apart: 12:10 and 12:11. *)
Definition two_requests_one_hour : list metric :=
  [mkMetric (12 * hour_us + 10 * minute_us) "ollama_requests_total" 1;
   mkMetric (12 * hour_us + 11 * minute_us) "ollama_requests_total" 1].

(** ** Connecting and disconnecting *)

(** The SQLAlchemy engine, seen through what [connect] and [disconnect]
    do with it: opening a connection, running the test statement, and
    disposing of the pool. *)
Record Engine : Type := mkEngine {
  engine_connect : res unit;      (* async with engine.connect() as conn *)
  engine_select1 : res unit;      (* await conn.execute(text("SELECT 1")) *)
  engine_dispose : res unit       (* await engine.dispose() *)
}.

(** What the two driver libraries do when [connect] and [disconnect]
    call them. *)
Record Drivers : Type := mkDrivers {
  import_clickhouse_driver : res unit;
  new_clickhouse_client :
    string -> Z -> string -> string -> string -> res ClickHouseClient;
  clickhouse_select1 : ClickHouseClient -> res unit;
  clickhouse_disconnect : ClickHouseClient -> res unit;
  import_sqlalchemy_asyncio : res unit;
  create_async_engine : string -> res Engine;
  async_sessionmaker : Engine -> res SessionFactory
}.

(** The manager with the one field the queries never read, and the log. *)
Record ms : Type := mkMs {
  manager : DatabaseManager;
  _postgres_engine : option Engine;
  lines : list (level * string)
}.

Definition say (lvl : level) (msg : string) : M ms unit :=
  modify (fun s => mkMs (manager s) (_postgres_engine s)
                        (lines s ++ [(lvl, msg)])).

Definition set_clickhouse_client (c : option ClickHouseClient) : M ms unit :=
  modify (fun s =>
    mkMs (mkManager (config (manager s)) c
                    (_postgres_session_factory (manager s))
                    (_connected (manager s)) (_start_time (manager s)))
         (_postgres_engine s) (lines s)).

Definition set_session_factory (f : option SessionFactory) : M ms unit :=
  modify (fun s =>
    mkMs (mkManager (config (manager s)) (_clickhouse_client (manager s)) f
                    (_connected (manager s)) (_start_time (manager s)))
         (_postgres_engine s) (lines s)).

Definition set_engine (e : option Engine) : M ms unit :=
  modify (fun s => mkMs (manager s) e (lines s)).

Definition set_connected (b : bool) : M ms unit :=
  modify (fun s =>
    mkMs (mkManager (config (manager s)) (_clickhouse_client (manager s))
                    (_postgres_session_factory (manager s))
                    b (_start_time (manager s)))
         (_postgres_engine s) (lines s)).

Definition wants_clickhouse (cfg : DatabaseConfig) : bool :=
  String.eqb (exporter_type cfg) "clickhouse" || String.eqb (exporter_type cfg) "both".

Definition wants_postgres (cfg : DatabaseConfig) : bool :=
  String.eqb (exporter_type cfg) "postgres" || String.eqb (exporter_type cfg) "both".

Definition postgres_url (cfg : DatabaseConfig) : string :=
  "postgresql+asyncpg://" ++ postgres_user cfg ++ ":" ++ postgres_password cfg
    ++ "@" ++ postgres_host cfg ++ ":" ++ str_int (postgres_port cfg)
    ++ "/" ++ postgres_database cfg.

Section Connections.

Variable drivers : Drivers.
Variable env : Env.

Definition _connect_clickhouse : M ms unit :=
  try_except
    (lift (import_clickhouse_driver drivers) ;;;
     s <- get ;;
     let cfg := config (manager s) in
     c <- lift (new_clickhouse_client drivers
                  (clickhouse_host cfg) (clickhouse_port cfg)
                  (clickhouse_database cfg) (clickhouse_user cfg)
                  (clickhouse_password cfg)) ;;
     set_clickhouse_client (Some c) ;;;
     lift (clickhouse_select1 drivers c) ;;;
     say INFO "Connected to ClickHouse")
    (fun e =>
       say ERROR ("Failed to connect to ClickHouse: " ++ str_exn e) ;;;
       raise e).

Definition _connect_postgres : M ms unit :=
  try_except
    (lift (import_sqlalchemy_asyncio drivers) ;;;
     s <- get ;;
     engine <- lift (create_async_engine drivers (postgres_url (config (manager s)))) ;;
     set_engine (Some engine) ;;;
     factory <- lift (async_sessionmaker drivers engine) ;;
     set_session_factory (Some factory) ;;;
     lift (engine_connect engine) ;;;
     lift (import_text env) ;;;
     lift (engine_select1 engine) ;;;
     say INFO "Connected to PostgreSQL")
    (fun e =>
       say ERROR ("Failed to connect to PostgreSQL: " ++ str_exn e) ;;;
       raise e).

Definition connect : M ms unit :=
  try_except
    (s <- get ;;
     (if wants_clickhouse (config (manager s)) then _connect_clickhouse else ret tt) ;;;
     (if wants_postgres (config (manager s)) then _connect_postgres else ret tt) ;;;
     set_connected true ;;;
     say INFO ("Database connections established (type: "
                 ++ exporter_type (config (manager s)) ++ ")"))
    (fun e =>
       say ERROR ("Failed to connect to database: " ++ str_exn e) ;;;
       raise e).

Definition disconnect : M ms unit :=
  s <- get ;;
  match _clickhouse_client (manager s) with
  | Some c =>
      try_except
        (lift (clickhouse_disconnect drivers c))
        (fun e => say WARNING ("Error disconnecting from ClickHouse: " ++ str_exn e)) ;;;
      set_clickhouse_client None
  | None => ret tt
  end ;;;
  match _postgres_engine s with
  | Some engine =>
      try_except
        (lift (engine_dispose engine))
        (fun e => say WARNING ("Error disconnecting from PostgreSQL: " ++ str_exn e)) ;;;
      set_engine None ;;;
      set_session_factory None
  | None => ret tt
  end ;;;
  set_connected false ;;;
  say INFO "Database connections closed".

End Connections.

(** A caller that connects and disconnects the manager, each call with
    the drivers of its moment, and goes on whatever a call raises. *)
Inductive mcall : Type :=
| Connect (drivers : Drivers) (env : Env)
| Disconnect (drivers : Drivers).

Definition run_mcall (c : mcall) (s : ms) : ms :=
  match c with
  | Connect drivers env => snd (connect drivers env s)
  | Disconnect drivers => snd (disconnect drivers s)
  end.

Definition run_mcalls (cs : list mcall) (s : ms) : ms :=
  fold_left (fun s c => run_mcall c s) cs s.

(** A session factory is never there without its engine. *)
Definition engine_behind_factory (s : ms) : Prop :=
  is_some (_postgres_session_factory (manager s)) = true ->
  is_some (_postgres_engine s) = true.

(** The manager [DatabaseManager(cfg)] built at time [now]. *)
Definition new_manager (cfg : DatabaseConfig) (now : Z) : ms :=
  mkMs (mkManager cfg None None false now) None [].

(** The manager with one backend replaced. *)
Definition with_session_factory (self : DatabaseManager) (f : option SessionFactory)
  : DatabaseManager :=
  mkManager (config self) (_clickhouse_client self) f
            (_connected self) (_start_time self).

Definition with_clickhouse_client (self : DatabaseManager)
           (c : option ClickHouseClient) : DatabaseManager :=
  mkManager (config self) c (_postgres_session_factory self)
            (_connected self) (_start_time self).

(** Sum of a list of integers. *)
Definition Zsum (zs : list Z) : Z := fold_right Z.add 0 zs.

(** Sum of a list of rationals. *)
Definition Qsum (qs : list Q) : Q := fold_right Qplus 0%Q qs.

(** The rows of a table that count as requests and lie in range. *)
Definition requests_in_range (table : list metric) (now hours : Z) : list metric :=
  filter (named "ollama_requests_total") (selected now hours table).

(** The request rows of the bucket [b]. *)
Definition bucket_requests (bucket : Z -> Z) (rows : list metric) (b : Z) : Z :=
  count_case "ollama_requests_total" (group_of bucket b rows).

(** Drivers with which every step of both connections goes through. *)
Definition working_engine : Engine := mkEngine (Ok tt) (Ok tt) (Ok tt).

Definition working (c : ClickHouseClient) (f : SessionFactory) : Drivers :=
  mkDrivers (Ok tt) (fun _ _ _ _ _ => Ok c) (fun _ => Ok tt) (fun _ => Ok tt)
            (Ok tt) (fun _ => Ok working_engine) (fun _ => Ok f).

(** Drivers with which the ClickHouse server does not answer the test
    statement, and a disconnect raises as well. *)
Definition unreachable_clickhouse (c : ClickHouseClient) (f : SessionFactory)
  : Drivers :=
  mkDrivers (Ok tt) (fun _ _ _ _ _ => Ok c) (fun _ => Raise driver_error)
            (fun _ => Raise driver_error)
            (Ok tt) (fun _ => Ok working_engine) (fun _ => Ok f).

Definition config_for (exporter : string) : DatabaseConfig :=
  mkDatabaseConfig exporter "localhost" 9000 "ollama_metrics" "default" ""
                   "localhost" 5432 "ollama_metrics" "postgres" "postgres".

(** ** Configuration from the environment *)

(** What the process environment holds, and what [int] makes of a string
    that is not a run of one to 4300 ASCII digits (a sign, blanks,
    underscores, digits of another script, a longer run): a number or a
    [ValueError], as the interpreter decides. *)
Record Os : Type := mkOs {
  environ : string -> option string;
  int_other : string -> res Z
}.

(** [os.getenv(name, default)] *)
Definition getenv (os : Os) (name default : string) : string :=
  match environ os name with
  | Some v => v
  | None => default
  end.

Definition is_digit (c : Ascii.ascii) : bool :=
  let n := Ascii.N_of_ascii c in (48 <=? n)%N && (n <=? 57)%N.

Fixpoint digits_value (acc : Z) (s : string) : option Z :=
  match s with
  | EmptyString => Some acc
  | String c s' =>
      if is_digit c
      then digits_value (10 * acc + (Z.of_N (Ascii.N_of_ascii c) - 48)) s'
      else None
  end.

(** [int(s)] for a string [s] *)
Definition int_str (os : Os) (s : string) : res Z :=
  if ((1 <=? String.length s) && (String.length s <=? 4300))%nat
  then match digits_value 0 s with
       | Some z => Ok z
       | None => int_other os s
       end
  else int_other os s.

(** [DatabaseConfig.from_env()]: the keyword arguments are evaluated in
    the order they are written, so of two ports that [int] refuses the
    ClickHouse one raises. *)
Definition from_env (os : Os) : res DatabaseConfig :=
  let exporter := getenv os "EXPORTER_TYPE" "clickhouse" in
  let ch_host := getenv os "CLICKHOUSE_HOST" "localhost" in
  match int_str os (getenv os "CLICKHOUSE_PORT" "9000") with
  | Raise e => Raise e
  | Ok ch_port =>
      let ch_database := getenv os "CLICKHOUSE_DATABASE" "ollama_metrics" in
      let ch_user := getenv os "CLICKHOUSE_USER" "default" in
      let ch_password := getenv os "CLICKHOUSE_PASSWORD" "" in
      let pg_host := getenv os "POSTGRES_HOST" "localhost" in
      match int_str os (getenv os "POSTGRES_PORT" "5432") with
      | Raise e => Raise e
      | Ok pg_port =>
          Ok (mkDatabaseConfig exporter ch_host ch_port ch_database ch_user
                ch_password pg_host pg_port
                (getenv os "POSTGRES_DATABASE" "ollama_metrics")
                (getenv os "POSTGRES_USER" "postgres")
                (getenv os "POSTGRES_PASSWORD" "postgres"))
      end
  end.

(** [DatabaseManager(config)] with the optional argument: a configuration
    object is always true, so [config or DatabaseConfig.from_env()] reads
    the environment exactly when no configuration is passed. *)
Definition DatabaseManager_ (os : Os) (env : Env) (cfg : option DatabaseConfig)
  : M st DatabaseManager :=
  c <- match cfg with
       | Some c => ret c
       | None => lift (from_env os)
       end ;;
  __init__ env c.

(** ** The module's manager

    The state of the process: the global [_db_manager] (the manager object
    with its engine field, or [None]), the clock and the log. *)
Record proc : Type := mkProc {
  _db_manager : option (DatabaseManager * option Engine);
  reads : nat;
  logged : list (level * string)
}.

(** A computation that only reads the clock and writes the log. *)
Definition in_world {A} (m : M st A) : M proc A :=
  fun p =>
    let (r, w) := m (mkSt (reads p) (logged p)) in
    (r, mkProc (_db_manager p) (clock_reads w) (log_lines w)).

(** A method called on the object the global refers to: what the method
    assigns is seen through the global, also when the method raises. *)
Definition on_manager {A} (m : M ms A) : M proc A :=
  fun p =>
    match _db_manager p with
    | Some (mgr, engine) =>
        let (r, s) := m (mkMs mgr engine (logged p)) in
        (r, mkProc (Some (manager s, _postgres_engine s)) (reads p) (lines s))
    | None =>
        (Raise (mkExn (OtherException "AttributeError")
                      "'NoneType' object has no attribute"), p)
    end.

Definition set_db_manager (g : option (DatabaseManager * option Engine))
  : M proc unit :=
  modify (fun p => mkProc g (reads p) (logged p)).

Definition get_database_manager (os : Os) (env : Env) : M proc DatabaseManager :=
  p <- get ;;
  match _db_manager p with
  | Some (mgr, _) => ret mgr
  | None =>
      mgr <- in_world (DatabaseManager_ os env None) ;;
      set_db_manager (Some (mgr, None)) ;;;
      ret mgr
  end.

Definition init_database (os : Os) (env : Env) (drivers : Drivers)
  : M proc DatabaseManager :=
  mgr <- in_world (DatabaseManager_ os env None) ;;
  set_db_manager (Some (mgr, None)) ;;;
  on_manager (connect drivers env) ;;;
  on_manager (s <- get ;; ret (manager s)).

Definition close_database (drivers : Drivers) : M proc unit :=
  p <- get ;;
  match _db_manager p with
  | Some _ =>
      on_manager (disconnect drivers) ;;;
      set_db_manager None
  | None => ret tt
  end.

(** A process that has not touched the module yet. *)
Definition fresh : proc := mkProc None 0 [].

(** An environment that sets no variable, and one that sets the exporter
    type only. *)
Definition nothing_set : Os :=
  mkOs (fun _ => None) (fun _ => Raise (mkExn ValueError "invalid literal for int()")).

Definition exporter_set (exporter : string) : Os :=
  mkOs (fun name => if String.eqb name "EXPORTER_TYPE" then Some exporter else None)
       (fun _ => Raise (mkExn ValueError "invalid literal for int()")).

(** An environment whose ClickHouse port is not a number. *)
Definition bad_port : Os :=
  mkOs (fun name => if String.eqb name "CLICKHOUSE_PORT" then Some "nine" else None)
       (fun _ => Raise (mkExn ValueError "invalid literal for int()")).

End Router.

(* ================================================================== *)
(** * api/server.py: start-up, shut-down and the health endpoint       *)
(* ================================================================== *)

Module Server.

Import Router.
Local Open Scope py_scope.

Definition log (lvl : level) (msg : string) : M proc unit :=
  modify (fun p => mkProc (_db_manager p) (reads p) (logged p ++ [(lvl, msg)])).

(** The part of [lifespan] before the [yield]. *)
Definition lifespan_startup (os : Os) (env : Env) (drivers : Drivers) : M proc unit :=
  log INFO "Starting Ollama monitoring API server" ;;;
  try_except
    (init_database os env drivers ;;;
     log INFO "Database connections established")
    (fun e =>
       log WARNING ("Failed to connect to database on startup: " ++ str_exn e)).

(** The part of [lifespan] after the [yield]. *)
Definition lifespan_shutdown (drivers : Drivers) : M proc unit :=
  log INFO "Shutting down Ollama monitoring API server" ;;;
  close_database drivers.

(** The response model of the health endpoint; the handler fills
    [details] with strings. *)
Record HealthResponse : Type := mkHealthResponse {
  status : string;
  uptime_seconds : Q;
  database_connected : bool;
  details : list (string * string)
}.

(** The handler of [GET /api/health]; [isoformat] is how a datetime is
    printed. *)
Definition health_check (isoformat : Z -> string) (os : Os) (env : Env)
  : M proc HealthResponse :=
  try_except
    (db <- get_database_manager os env ;;
     let is_connected := Router.is_connected db in
     let status := if is_connected then "healthy" else "degraded" in
     up <- in_world (Router.uptime_seconds env db) ;;
     now <- in_world (utcnow env) ;;
     ret (mkHealthResponse status up is_connected
            [("exporter_type", exporter_type (config db));
             ("timestamp", isoformat now)]))
    (fun e =>
       log ERROR ("Health check failed: " ++ str_exn e) ;;;
       ret (mkHealthResponse "unhealthy" 0%Q false [("error", str_exn e)])).

End Server.

(* ================================================================== *)
(** * Properties of config.py                                          *)
(* ================================================================== *)

Section ConfigProps.

Import Config.

(** On integer fields the three guards of [__post_init__] are three
    comparisons, tried in the order port, timeout, retries. *)
Lemma post_init_int (h : string) (p t r : Z) :
  __post_init__ (mkNetworkConfig h (PyInt p) (PyInt t) (PyInt r)) =
  if (1 <=? p) && (p <=? 65535) && (0 <? t) && (0 <=? r)
  then Ok tt
  else Raise (mkExn ValueError
         (if (1 <=? p) && (p <=? 65535)
          then if 0 <? t
               then "Max retries must be non-negative, got " ++ str_int r
               else "Timeout must be positive, got " ++ str_int t
          else "Port must be between 1 and 65535, got " ++ str_int p)).
Proof.
  unfold __post_init__;
    cbn [port timeout max_retries isinstance_int int_of negb orb str_pyval].
  destruct (1 <=? p) eqn:H1, (p <=? 65535) eqn:H2; cbn [andb negb]; try reflexivity.
  replace (t <=? 0) with (negb (0 <? t)) by lia.
  destruct (0 <? t); cbn [negb andb]; try reflexivity.
  replace (r <? 0) with (negb (0 <=? r)) by lia.
  destruct (0 <=? r); reflexivity.
Qed.

(** A port outside the range is refused whatever the other fields hold. *)
Lemma port_out_of_range (h : string) (p : Z) (t r : pyval) :
  p < 1 \/ 65535 < p ->
  new h (PyInt p) t r =
  Raise (mkExn ValueError ("Port must be between 1 and 65535, got " ++ str_int p)).
Proof.
  intros Hp. unfold new, __post_init__; cbn [port isinstance_int int_of negb orb str_pyval].
  replace ((1 <=? p) && (p <=? 65535)) with false by lia. reflexivity.
Qed.

End ConfigProps.

(** C8. Built from integers, a NetworkConfig is constructed exactly when
    1 <= port <= 65535, timeout > 0 and max_retries >= 0, and construction
    raises ValueError otherwise; ports 1 and 65535 are accepted, and every
    port outside [1, 65535] is refused whatever the other fields are. *)
Theorem config_construction (h : string) (p t r : Z) :
  ((exists c, Config.new h (PyInt p) (PyInt t) (PyInt r) = Ok c)
   <-> (1 <= p <= 65535 /\ 0 < t /\ 0 <= r))
  /\ ((exists msg, Config.new h (PyInt p) (PyInt t) (PyInt r)
                   = Raise (mkExn ValueError msg))
      <-> ~ (1 <= p <= 65535 /\ 0 < t /\ 0 <= r))
  /\ Config.new h (PyInt 1) Config.default_timeout Config.default_max_retries
     = Ok (Config.mkNetworkConfig h (PyInt 1) (PyInt 30) (PyInt 3))
  /\ Config.new h (PyInt 65535) Config.default_timeout Config.default_max_retries
     = Ok (Config.mkNetworkConfig h (PyInt 65535) (PyInt 30) (PyInt 3))
  /\ (p < 1 \/ 65535 < p ->
      forall t' r' : pyval,
      exists msg, Config.new h (PyInt p) t' r' = Raise (mkExn ValueError msg)).
Proof.
  assert (Hnew : Config.new h (PyInt p) (PyInt t) (PyInt r) =
                 if (1 <=? p) && (p <=? 65535) && (0 <? t) && (0 <=? r)
                 then Ok (Config.mkNetworkConfig h (PyInt p) (PyInt t) (PyInt r))
                 else Raise (mkExn ValueError
                        (if (1 <=? p) && (p <=? 65535)
                         then if 0 <? t
                              then "Max retries must be non-negative, got " ++ str_int r
                              else "Timeout must be positive, got " ++ str_int t
                         else "Port must be between 1 and 65535, got " ++ str_int p))).
  { unfold Config.new. rewrite post_init_int.
    now destruct ((1 <=? p) && (p <=? 65535) && (0 <? t) && (0 <=? r)). }
  rewrite Hnew.
  split; [|split; [|split; [reflexivity|split; [reflexivity|]]]].
  - destruct ((1 <=? p) && (p <=? 65535) && (0 <? t) && (0 <=? r)) eqn:Hv; split.
    + intros _. lia.
    + intros _. eexists; reflexivity.
    + intros (c & H). discriminate.
    + intros H. lia.
  - destruct ((1 <=? p) && (p <=? 65535) && (0 <? t) && (0 <=? r)) eqn:Hv; split.
    + intros (msg & H). discriminate.
    + intros H. lia.
    + intros _. lia.
    + intros _. eexists; reflexivity.
  - intros Hp t' r'. eexists. now apply port_out_of_range.
Qed.

Lemma config_construction_witness :
  exists msg,
    Config.new "0.0.0.0" (PyInt 65536) (PyStr "soon") PyNone
    = Raise (mkExn ValueError msg).
Proof.
  apply (config_construction "0.0.0.0" 65536 30 3). right. lia.
Defined.

(* ================================================================== *)
(** * Properties of the availability prober                            *)
(* ================================================================== *)

Lemma client_error_dec (c : exn_class) : {c = ClientError} + {c <> ClientError}.
Proof. destruct c; (now left) || (right; discriminate). Defined.

Section ProbeLoop.

Import Service.

Variable env : Env.
Variable url : string.
Variable m : Z.

Let loop := health_check_loop env url m.

Lemma after_after s e1 e2 : after (after s e1) e2 = after s (e1 ++ e2).
Proof. unfold after; cbn. now rewrite app_assoc. Qed.

Lemma after_nil s : after s [] = s.
Proof. unfold after. rewrite app_nil_r. now destruct s. Qed.

(** One equation for each way an iteration can go. *)
Lemma loop_exhausted a s :
  loop 0%nat a s =
  (Raise (mkExn HealthCheckError
            ("Health check failed after " ++ str_int (m + 1) ++ " attempts")), s).
Proof. reflexivity. Qed.

Lemma loop_healthy todo a s :
  probe env a = Response 200 ->
  loop (S todo) a s =
  (Ok true, after s [EvProbe a url; EvLog DEBUG "Health check passed"]).
Proof.
  intros H. unfold loop, after. cbn. unfold bind, emit, modify. cbn. rewrite H. cbn.
  now rewrite <- app_assoc.
Qed.

Lemma loop_unhealthy todo a s status :
  probe env a = Response status -> status <> 200 ->
  loop (S todo) a s =
  loop todo (S a)
       (after s [EvProbe a url;
                 EvLog WARNING ("Health check returned status " ++ str_int status)]).
Proof.
  intros H Hs. unfold loop, after. cbn. unfold bind, emit, modify. cbn. rewrite H.
  destruct (Z.eqb_spec status 200); [contradiction|]. cbn.
  now rewrite <- app_assoc.
Qed.

Lemma loop_retry todo a s e :
  probe env a = Raises e -> exn_cls e = ClientError -> Z.of_nat a < m ->
  loop (S todo) a s =
  loop todo (S a)
       (after s [EvProbe a url;
                 EvLog DEBUG ("Health check attempt " ++ str_int (Z.of_nat a + 1)
                                ++ " failed: " ++ str_exn e);
                 EvSleep 1]).
Proof.
  intros H Hc Hlt. unfold loop, after. cbn. unfold bind, emit, modify. cbn.
  rewrite H, Hc. destruct (Z.ltb_spec (Z.of_nat a) m); [|lia]. cbn.
  now rewrite <- !app_assoc.
Qed.

Lemma loop_unreachable todo a s e :
  probe env a = Raises e -> exn_cls e = ClientError -> m <= Z.of_nat a ->
  loop (S todo) a s =
  (Raise (mkExn ConnectionError
            ("Failed to connect to Ollama service at " ++ url ++ ": " ++ str_exn e)),
   after s [EvProbe a url;
            EvLog DEBUG ("Health check attempt " ++ str_int (Z.of_nat a + 1)
                           ++ " failed: " ++ str_exn e)]).
Proof.
  intros H Hc Hlt. unfold loop, after. cbn. unfold bind, emit, modify. cbn.
  rewrite H, Hc. destruct (Z.ltb_spec (Z.of_nat a) m); [lia|]. cbn.
  now rewrite <- !app_assoc.
Qed.

Lemma loop_unexpected todo a s e :
  probe env a = Raises e -> exn_cls e <> ClientError ->
  loop (S todo) a s =
  (Raise (mkExn HealthCheckError ("Health check failed: " ++ str_exn e)),
   after s [EvProbe a url;
            EvLog ERROR ("Unexpected error during health check: " ++ str_exn e)]).
Proof.
  intros H Hc. unfold loop, after. cbn. unfold bind, emit, modify. cbn. rewrite H.
  destruct (exn_cls e); try contradiction; cbn; now rewrite <- !app_assoc.
Qed.

(** The five ways one iteration can go. *)
Ltac iteration a :=
  let status := fresh "status" in
  let e := fresh "e" in
  let Hp := fresh "Hp" in
  destruct (probe env a) as [status|e] eqn:Hp;
  [ destruct (Z.eq_dec status 200) as [->|]
  | destruct (client_error_dec (exn_cls e));
    [ destruct (Z_lt_le_dec (Z.of_nat a) m) | ] ].

(** The verdict and the events of the loop do not depend on the state it
    starts in, and the events are probes, sleeps and log lines only. *)
Lemma loop_frame todo : forall a,
  exists r new,
    (forall s, loop todo a s = (r, after s new))
    /\ Forall (fun ev => of_prober ev = true) new.
Proof.
  induction todo as [|todo IH]; intros a.
  - do 2 eexists; split; [intros s; rewrite loop_exhausted, <- (after_nil s) at 1|];
      [reflexivity|constructor].
  - destruct (IH (S a)) as (r' & new' & IH' & Hq).
    iteration a; do 2 eexists; (split; [intros s|]).
    + rewrite loop_healthy by assumption. reflexivity.
    + repeat constructor.
    + erewrite loop_unhealthy by eassumption. rewrite IH', after_after. reflexivity.
    + apply Forall_app; split; [repeat constructor|assumption].
    + erewrite loop_retry by eassumption. rewrite IH', after_after. reflexivity.
    + apply Forall_app; split; [repeat constructor|assumption].
    + rewrite (loop_unreachable todo a s e) by assumption. reflexivity.
    + repeat constructor.
    + rewrite (loop_unexpected todo a s e) by assumption. reflexivity.
    + repeat constructor.
Qed.

Lemma probed_app_r k t1 t2 : probed k t2 -> probed k (t1 ++ t2).
Proof. intros (u & H). exists u. apply in_or_app. now right. Qed.

(** The loop never yields [False]: it returns [True] after a 200, or it
    raises one of the two probe errors. *)
Lemma loop_verdict todo : forall a s,
  exists r new,
    loop todo a s = (r, after s new) /\
    ((r = Ok true /\ exists k, probed k new /\ probe env k = Response 200)
     \/ exists msg, r = Raise (mkExn ConnectionError msg)
                    \/ r = Raise (mkExn HealthCheckError msg)).
Proof.
  induction todo as [|todo IH]; intros a s.
  - exists (fst (loop 0%nat a s)), []. split; [now rewrite after_nil|].
    right. eexists. right. reflexivity.
  - iteration a.
    + rewrite loop_healthy by assumption. do 2 eexists; split; [reflexivity|].
      left. split; [reflexivity|]. exists a. split; [|assumption].
      exists url. now left.
    + erewrite loop_unhealthy by eassumption.
      edestruct IH as (r & new & Hrun & Hv). rewrite Hrun, after_after.
      do 2 eexists; split; [reflexivity|].
      destruct Hv as [(-> & k & Hin & H200)|Hv]; [left|now right].
      split; [reflexivity|]. exists k; split; [|assumption].
      now apply probed_app_r.
    + erewrite loop_retry by eassumption.
      edestruct IH as (r & new & Hrun & Hv). rewrite Hrun, after_after.
      do 2 eexists; split; [reflexivity|].
      destruct Hv as [(-> & k & Hin & H200)|Hv]; [left|now right].
      split; [reflexivity|]. exists k; split; [|assumption].
      now apply probed_app_r.
    + rewrite (loop_unreachable todo a s e) by assumption.
      do 2 eexists; split; [reflexivity|]. right. eexists. now left.
    + rewrite (loop_unexpected todo a s e) by assumption.
      do 2 eexists; split; [reflexivity|]. right. eexists. now right.
Qed.

Lemma attempts_app t1 t2 : attempts (t1 ++ t2) = (attempts t1 + attempts t2)%nat.
Proof. unfold attempts. now rewrite filter_app, length_app. Qed.

Lemma sleeps_app t1 t2 : sleeps (t1 ++ t2) = (sleeps t1 + sleeps t2)%nat.
Proof. unfold sleeps. now rewrite filter_app, length_app. Qed.

(** When every attempt that is left fails at the connection level, the
    loop uses them all, sleeps between them, and the last one raises the
    connection error. *)
Lemma loop_all_unreachable todo : forall a s,
  Z.of_nat a + Z.of_nat (S todo) = m + 1 ->
  (forall k, (a <= k)%nat -> Z.of_nat k <= m -> connection_failure (probe env k)) ->
  exists msg new,
    loop (S todo) a s = (Raise (mkExn ConnectionError msg), after s new) /\
    attempts new = S todo /\ sleeps new = todo /\ probed (Z.to_nat m) new.
Proof.
  induction todo as [|todo IH]; intros a s Hsum Hall;
    destruct (Hall a) as (e & Hp & Hc); try lia.
  - rewrite (loop_unreachable 0 a s e) by (assumption || lia).
    do 2 eexists; split; [reflexivity|]. repeat split.
    exists url. left. f_equal. lia.
  - rewrite (loop_retry (S todo) a s e) by (assumption || lia).
    edestruct (IH (S a)) as (msg & new & Hrun & Ha & Hs & Hin).
    + lia.
    + intros k Hk. apply Hall. lia.
    + rewrite Hrun, after_after. do 2 eexists; split; [reflexivity|].
      rewrite attempts_app, sleeps_app, Ha, Hs. repeat split.
      now apply probed_app_r.
Qed.

Lemma probed_inv k a u lg new :
  probed k (EvProbe a u :: lg ++ new) ->
  Forall (fun e => is_probe e = false) lg ->
  k = a \/ probed k new.
Proof.
  intros (u' & [H|H]) Hlg.
  - left. congruence.
  - apply in_app_or in H as [H|H].
    + rewrite Forall_forall in Hlg. apply Hlg in H. discriminate.
    + right. now exists u'.
Qed.

(** Between two consecutive attempts the loop sleeps once, for one
    second, after a connection failure, and not at all after a response. *)
Lemma loop_backoff todo : forall a s,
  exists r new,
    loop todo a s = (r, after s new) /\
    (forall k, probed k new -> (a <= k)%nat) /\
    sleeps_until_probe new = [] /\
    (forall k, probed k new -> probed (S k) new ->
       (connection_failure (probe env k) -> sleeps_after k new = [1%Q]) /\
       (unhealthy_response (probe env k) -> sleeps_after k new = [])).
Proof.
  induction todo as [|todo IH]; intros a s.
  - exists (fst (loop 0%nat a s)), []. split; [now rewrite after_nil|].
    split; [|split].
    + now intros k (u & []).
    + reflexivity.
    + now intros k (u & []).
  - assert (Hlast : forall lg : event, is_probe lg = false ->
              (forall k, probed k [EvProbe a url; lg] -> (a <= k)%nat) /\
              (forall k, probed k [EvProbe a url; lg] ->
                         probed (S k) [EvProbe a url; lg] -> False)).
    { intros lg Hlg. split.
      - intros k (u & [H|[H|[]]]); [injection H; lia | subst lg; discriminate].
      - intros k (u & [H|[H|[]]]) (u' & [H'|[H'|[]]]);
          try (subst lg; discriminate). injection H; injection H'; lia. }
    iteration a.
    + rewrite loop_healthy by assumption. do 2 eexists; split; [reflexivity|].
      destruct (Hlast (EvLog DEBUG "Health check passed") eq_refl) as (H1 & H2).
      split; [exact H1|]. split; [reflexivity|].
      intros k Hk HSk. destruct (H2 k Hk HSk).
    + erewrite loop_unhealthy by eassumption.
      edestruct (IH (S a)) as (r & new & Hrun & Hge & Hhead & Hgap).
      rewrite Hrun, after_after. do 2 eexists; split; [reflexivity|].
      cbn [app]. split; [|split; [reflexivity|]].
      * intros k Hk. apply (probed_inv k a url [_] new) in Hk as [->|Hk];
          [lia| apply Hge in Hk; lia | repeat constructor].
      * intros k Hk HSk.
        apply (probed_inv k a url [_] new) in Hk as [->|Hk]; [| |repeat constructor].
        -- cbn. rewrite Nat.eqb_refl, Hhead. split; [|reflexivity].
           intros (e & He & _). congruence.
        -- pose proof (Hge k Hk).
           apply (probed_inv (S k) a url [_] new) in HSk as [HSk|HSk];
             [lia| |repeat constructor].
           cbn. destruct (Nat.eqb_spec a k); [lia|]. now apply Hgap.
    + erewrite loop_retry by eassumption.
      edestruct (IH (S a)) as (r & new & Hrun & Hge & Hhead & Hgap).
      rewrite Hrun, after_after. do 2 eexists; split; [reflexivity|].
      cbn [app]. split; [|split; [reflexivity|]].
      * intros k Hk. apply (probed_inv k a url [_; _] new) in Hk as [->|Hk];
          [lia| apply Hge in Hk; lia | repeat constructor].
      * intros k Hk HSk.
        apply (probed_inv k a url [_; _] new) in Hk as [->|Hk]; [| |repeat constructor].
        -- cbn. rewrite Nat.eqb_refl, Hhead. split; [reflexivity|].
           intros (st' & He & _). congruence.
        -- pose proof (Hge k Hk).
           apply (probed_inv (S k) a url [_; _] new) in HSk as [HSk|HSk];
             [lia| |repeat constructor].
           cbn. destruct (Nat.eqb_spec a k); [lia|]. now apply Hgap.
    + rewrite (loop_unreachable todo a s e) by assumption.
      do 2 eexists; split; [reflexivity|].
      match goal with
      | |- context [[EvProbe a url; ?lg]] => destruct (Hlast lg eq_refl) as (H1 & H2)
      end.
      split; [exact H1|]. split; [reflexivity|].
      intros k Hk HSk. destruct (H2 k Hk HSk).
    + rewrite (loop_unexpected todo a s e) by assumption.
      do 2 eexists; split; [reflexivity|].
      match goal with
      | |- context [[EvProbe a url; ?lg]] => destruct (Hlast lg eq_refl) as (H1 & H2)
      end.
      split; [exact H1|]. split; [reflexivity|].
      intros k Hk HSk. destruct (H2 k Hk HSk).
Qed.

(** One refused attempt followed by a 200, with a retry to spare. *)
Lemma loop_second_attempt todo s e :
  probe env 0%nat = Raises e -> exn_cls e = ClientError ->
  probe env 1%nat = Response 200 -> 1 <= m ->
  exists lg1 lg2,
    loop (S (S todo)) 0%nat s =
    (Ok true, after s [EvProbe 0 url; EvLog DEBUG lg1; EvSleep 1;
                       EvProbe 1 url; EvLog DEBUG lg2]).
Proof.
  intros H0 Hc H1 Hm.
  rewrite (loop_retry (S todo) 0%nat s e) by (assumption || (cbn; lia)).
  rewrite loop_healthy by assumption. rewrite after_after.
  do 2 eexists. reflexivity.
Qed.

End ProbeLoop.

Section Prober.

Import Service.

Lemma health_check_unfold env retries s :
  health_check env retries s =
  health_check_loop env (health_url (self s)) (retry_budget retries (self s))
                    (Z.to_nat (retry_budget retries (self s) + 1)) 0 s.
Proof. reflexivity. Qed.

(** The verdict and the events of a health check depend on the
    configuration only. *)
Lemma health_check_frame env retries s0 :
  exists r new,
    (forall s, config (self s) = config (self s0) ->
               health_check env retries s = (r, after s new))
    /\ Forall (fun ev => of_prober ev = true) new.
Proof.
  destruct (loop_frame env (health_url (self s0)) (retry_budget retries (self s0))
              (Z.to_nat (retry_budget retries (self s0) + 1)) 0%nat)
    as (r & new & H & Hq).
  exists r, new. split; [|assumption]. intros s Hc. rewrite health_check_unfold.
  replace (health_url (self s)) with (health_url (self s0))
    by (unfold health_url; now rewrite Hc).
  replace (retry_budget retries (self s)) with (retry_budget retries (self s0))
    by (unfold retry_budget; now rewrite Hc).
  apply H.
Qed.

(** C10. Whatever the retry budget and the probe outcomes, health_check
    never returns False: it returns True, and then some attempt was
    answered with HTTP 200, or it raises ConnectionError or
    HealthCheckError. *)
Theorem health_check_never_false (env : Env) (retries : option Z) (s : st) :
  exists r new,
    health_check env retries s = (r, after s new) /\
    r <> Ok false /\
    ((r = Ok true /\ exists k, probed k new /\ probe env k = Response 200)
     \/ exists msg, r = Raise (mkExn ConnectionError msg)
                    \/ r = Raise (mkExn HealthCheckError msg)).
Proof.
  rewrite health_check_unfold.
  destruct (loop_verdict env (health_url (self s)) (retry_budget retries (self s))
              (Z.to_nat (retry_budget retries (self s) + 1)) 0%nat s)
    as (r & new & Hrun & Hv).
  exists r, new. split; [assumption|]. split; [|assumption].
  destruct Hv as [(-> & _)|(msg & [->| ->])]; discriminate.
Qed.







End Prober.

(* ================================================================== *)
(** * Properties of the process supervisor                             *)
(* ================================================================== *)

Section Supervisor.

Import Service.

(** C7. start on a running supervisor only logs a warning: it returns,
    the object (state flag and process handle included) is unchanged, and
    no process is spawned. *)
Theorem start_when_running_is_noop (env : Env) (delay : Q) (s : st) :
  _is_running (self s) = true ->
  start env delay s = (Ok tt, after s [EvLog WARNING "Service is already running"])
  /\ self (snd (start env delay s)) = self s
  /\ spawns (trace (snd (start env delay s))) = spawns (trace s).
Proof.
  intros H.
  assert (Hrun : start env delay s
                 = (Ok tt, after s [EvLog WARNING "Service is already running"])).
  { unfold start, bind, get_self. cbn. now rewrite H. }
  rewrite Hrun. repeat split. cbn. unfold spawns.
  rewrite filter_app, length_app. cbn. lia.
Qed.

Lemma start_when_running_is_noop_witness :
  start (posix always_refused) 2 started
  = (Ok tt, after started [EvLog WARNING "Service is already running"])
  /\ self (snd (start (posix always_refused) 2 started)) = self started
  /\ spawns (trace (snd (start (posix always_refused) 2 started)))
     = spawns (trace started).
Proof.
  apply (start_when_running_is_noop (posix always_refused) 2 started). reflexivity.
Defined.

(** How a stop of a running supervisor can end: cleared and stopped, or a
    Stop error with the object as it was. *)
Lemma stop_outcome (env : Env) (timeout : Q) (s : st) (p : Popen) :
  _is_running (self s) = true -> _process (self s) = Some p ->
  (exists evs, stop env timeout s =
     (Ok tt, mkSt (mkService (config (self s)) (ollama_binary (self s)) None false)
                  (trace s ++ evs)))
  \/ (exists msg evs, stop env timeout s =
        (Raise (mkExn ServiceStopError msg), after s evs)).
Proof.
  intros Hr Hp. unfold stop, bind, get_self, try_except. cbn. rewrite Hr, Hp. cbn.
  unfold killpg, terminate, kill, wait, bind, emit, modify, lift, log, emit, modify,
    set_is_running, set_process, modify, raise, after; cbn.
  destruct (os_name_nt env); cbn.
  - destruct (terminate_result env) as [[]|e0]; cbn.
    + destruct (wait_result env (Some timeout)) as [[]|e1]; cbn.
      * left. rewrite <- !app_assoc. eexists; reflexivity.
      * destruct (exn_cls e1) eqn:Hc; cbn;
          try (right; rewrite <- !app_assoc; do 2 eexists; reflexivity).
        destruct (kill_result env) as [[]|e2]; cbn;
          [|right; rewrite <- !app_assoc; do 2 eexists; reflexivity].
        destruct (wait_result env None) as [[]|e3]; cbn;
          [left|right]; rewrite <- !app_assoc; repeat eexists; reflexivity.
    + right; rewrite <- !app_assoc; do 2 eexists; reflexivity.
  - destruct (killpg_result env SIGTERM) as [[]|e0]; cbn.
    + destruct (wait_result env (Some timeout)) as [[]|e1]; cbn.
      * left. rewrite <- !app_assoc. eexists; reflexivity.
      * destruct (exn_cls e1) eqn:Hc; cbn;
          try (right; rewrite <- !app_assoc; do 2 eexists; reflexivity).
        destruct (killpg_result env SIGKILL) as [[]|e2]; cbn;
          [|right; rewrite <- !app_assoc; do 2 eexists; reflexivity].
        destruct (wait_result env None) as [[]|e3]; cbn;
          [left|right]; rewrite <- !app_assoc; repeat eexists; reflexivity.
    + right; rewrite <- !app_assoc; do 2 eexists; reflexivity.
Qed.

(** A failure of the first signal is the failure of the whole stop. *)
Lemma stop_signal_failure (env : Env) (timeout : Q) (s : st) (p : Popen) (e0 : exn) :
  _is_running (self s) = true -> _process (self s) = Some p ->
  (if os_name_nt env then terminate_result env else killpg_result env SIGTERM)
  = Raise e0 ->
  exists evs,
    stop env timeout s =
    (Raise (mkExn ServiceStopError ("Failed to stop Ollama service: " ++ str_exn e0)),
     after s evs).
Proof.
  intros Hr Hp Hsig. unfold stop, bind, get_self, try_except. cbn. rewrite Hr, Hp. cbn.
  unfold killpg, terminate, bind, emit, modify, lift, log, emit, modify, raise, after;
    cbn.
  destruct (os_name_nt env); cbn; rewrite Hsig; cbn;
    rewrite <- !app_assoc; eexists; reflexivity.
Qed.




(** C2, as the code has it. When the spawned process is alive and the
    probe run by start raises HealthCheckError, start logs a warning, does
    not raise, keeps the handle and marks the supervisor running.  When
    the probe raises ConnectionError instead, the failure is not absorbed:
    start kills the process, clears the handle, leaves the supervisor not
    running and raises a Start error. *)
Theorem start_probe_failure (env : Env) (delay : Q) (s : st) (p : Popen) (e : exn) :
  _is_running (self s) = false ->
  popen_result env = Ok p ->
  poll_result env = None ->
  fst (health_check env None s) = Raise e ->
  (exn_cls e = HealthCheckError ->
   exists evs,
     start env delay s =
     (Ok tt, mkSt (mkService (config (self s)) (ollama_binary (self s)) (Some p) true)
                  (trace s ++ evs)) /\
     In (EvLog WARNING ("Service started but health check failed: " ++ str_exn e)) evs
     /\ ~ In EvKill evs)
  /\ (exn_cls e = ConnectionError ->
      exists evs,
        start env delay s =
        (Raise (mkExn ServiceStartError ("Failed to start Ollama service: " ++ str_exn e)),
         mkSt (mkService (config (self s)) (ollama_binary (self s)) None false)
              (trace s ++ evs)) /\
        In EvKill evs).
Proof.
  intros Hr Hpo Hpl Hhc.
  destruct (health_check_frame env None s) as (r & new & Hf & Hq).
  rewrite (Hf s eq_refl) in Hhc. cbn in Hhc. subst r.
  unfold start, bind, get_self, try_except. cbn -[health_check]. rewrite Hr.
  unfold spawn, bind, get_self, emit, log, emit, modify, lift, poll, bind, emit,
    modify, ret, set_process, sleep, emit, modify. cbn -[health_check].
  rewrite Hpo. cbn -[health_check]. rewrite Hpl. cbn -[health_check].
  rewrite Hf by reflexivity. cbn -[health_check].
  split; intros Hc; rewrite Hc; cbn.
  - unfold after; cbn. rewrite <- !app_assoc. eexists; split; [reflexivity|].
    split.
    + cbn. do 4 right. apply in_or_app. right. now left.
    + cbn. intros [H|[H|[H|[H|H]]]]; try discriminate.
      apply in_app_or in H as [H|[H|[]]]; [|discriminate].
      rewrite Forall_forall in Hq. apply Hq in H. discriminate.
  - rewrite Hc; cbn. unfold kill, bind, emit, modify, lift; cbn.
    destruct (kill_result env) as [[]|ek]; cbn; unfold after; cbn;
      rewrite <- !app_assoc, Hr; (eexists; split; [reflexivity|]);
      cbn; do 4 right; apply in_or_app; right; right; now left.
Qed.

Lemma start_probe_failure_witness :
  exists evs,
    start (posix always_503) 2 fresh =
    (Ok tt, mkSt (mkService (config (self fresh)) (ollama_binary (self fresh))
                            (Some (mkPopen 4242)) true)
                 (trace fresh ++ evs)) /\
    In (EvLog WARNING
          ("Service started but health check failed: "
             ++ "Health check failed after 4 attempts")) evs
    /\ ~ In EvKill evs.
Proof.
  apply (proj1 (start_probe_failure (posix always_503) 2 fresh (mkPopen 4242)
                  (mkExn HealthCheckError "Health check failed after 4 attempts")
                  eq_refl eq_refl eq_refl eq_refl)).
  reflexivity.
Defined.

(** C2 as stated fails for ConnectionError: the process is alive, every
    probe is refused, and start raises a Start error with the handle
    cleared and the supervisor not running. *)
Lemma start_connection_error_not_absorbed :
  let probed_alone := health_check (posix always_refused) None fresh in
  let out := start (posix always_refused) 2 fresh in
  poll_result (posix always_refused) = None
  /\ fst probed_alone
     = Raise (mkExn ConnectionError
                ("Failed to connect to Ollama service at " ++ default_url
                   ++ ": Cannot connect to host localhost:11434"))
  /\ fst out
     = Raise (mkExn ServiceStartError
                ("Failed to start Ollama service: "
                   ++ "Failed to connect to Ollama service at " ++ default_url
                   ++ ": Cannot connect to host localhost:11434"))
  /\ _is_running (self (snd out)) = false
  /\ _process (self (snd out)) = None.
Proof. repeat split. Qed.

End Supervisor.

(* ================================================================== *)
(** * Properties of the backend query router                           *)
(* ================================================================== *)

Section RouterProps.

Import Router.

Variable env : Env.

Lemma use_clickhouse_disconnected self : use_clickhouse (disconnected self) = false.
Proof. unfold use_clickhouse. cbn. apply andb_false_r. Qed.

Lemma use_clickhouse_none self :
  _clickhouse_client self = None -> use_clickhouse self = false.
Proof. intros H. unfold use_clickhouse. rewrite H. apply andb_false_r. Qed.

(** The empty snapshot: two clock readings, nothing else. *)
Lemma empty_stats_run self s :
  _get_empty_stats env self s =
  (Ok (mkSnapshot 0 0%Q
         (fl (fl (inject_Z (clock env (clock_reads s) - _start_time self) / 1000000)
                 / 3600))
         0 0 0%Q 0 (clock env (S (clock_reads s)))),
   mkSt (S (S (clock_reads s))) (log_lines s)).
Proof. reflexivity. Qed.

(** [__init__] reads the clock once and connects nothing. *)
Lemma created_manager cfg s :
  __init__ env cfg s =
  (Ok (mkManager cfg None None false (clock env (clock_reads s))),
   mkSt (S (clock_reads s)) (log_lines s)).
Proof. reflexivity. Qed.

End RouterProps.

Section Degradation.

Import Router.

Variable env : Env.

Lemma routed_degrades {A} (query clickhouse_try postgres_try : DatabaseManager -> M st A)
      (clickhouse_msg postgres_msg : exn -> string)
      (empty : DatabaseManager -> M st A) :
  routed query clickhouse_try postgres_try clickhouse_msg postgres_msg empty ->
  steady empty ->
  fails_early clickhouse_try ->
  fails_early postgres_try ->
  degrades query clickhouse_try postgres_try.
Proof.
  intros Hq Hempty Hch Hpg self [k lines0].
  destruct (Hempty self (mkSt k lines0)) as (v0 & reads & Hv). cbn in Hv.
  assert (Hdis : query (disconnected self) (mkSt k lines0)
                 = (Ok v0, mkSt reads lines0)).
  { rewrite Hq, use_clickhouse_disconnected. apply (Hv lines0). }
  split.
  - rewrite Hq. unfold try_except.
    destruct (use_clickhouse self).
    + destruct (clickhouse_try self (mkSt k lines0)) as [[v|e] s1] eqn:Ht; [now eauto|].
      apply Hch in Ht as ->. unfold bind, log, modify. cbn.
      destruct (Hv (lines0 ++ [(ERROR, clickhouse_msg e)])%list) as (-> & _). eauto.
    + destruct (is_some (_postgres_session_factory self)).
      * destruct (postgres_try self (mkSt k lines0)) as [[v|e] s1] eqn:Ht; [now eauto|].
        apply Hpg in Ht as ->. unfold bind, log, modify. cbn.
        destruct (Hv (lines0 ++ [(ERROR, postgres_msg e)])%list) as (-> & _). eauto.
      * destruct (Hv lines0) as (-> & _). eauto.
  - intros e s1 Hsel.
    assert (exists msg, query self (mkSt k lines0)
                        = (Ok v0, mkSt reads (lines0 ++ [(ERROR, msg)])%list))
      as (msg & Hrun).
    { rewrite Hq.
      destruct Hsel as [(Huse & Ht)|(Huse & Hpgf & Ht)]; rewrite Huse;
        [|rewrite Hpgf]; unfold try_except; rewrite Ht;
        [apply Hch in Ht as -> | apply Hpg in Ht as ->];
        unfold bind, log, modify; cbn; eexists; apply Hv. }
    rewrite Hrun, Hdis. cbn. eauto.
Qed.

(** Every statement of a [try] block that can raise comes before the
    first reading of the clock. *)
Ltac early H :=
  repeat match type of H with
         | context [match ?x with _ => _ end] => destruct x; cbn in H
         end;
  try discriminate; now inversion H.

Lemma stats_clickhouse_fails_early : fails_early (_get_current_stats_clickhouse_try env).
Proof.
  intros self s e s1 H.
  unfold _get_current_stats_clickhouse_try, bind, lift, ret, utcnow, deref, index0 in H.
  cbn in H. early H.
Qed.

Lemma stats_postgres_fails_early : fails_early (_get_current_stats_postgres_try env).
Proof.
  intros self s e s1 H.
  unfold _get_current_stats_postgres_try, bind, lift, ret, utcnow, uptime_seconds,
    call, subscript in H.
  cbn in H. early H.
Qed.

Lemma history_clickhouse_fails_early h g :
  fails_early (fun self => _get_history_clickhouse_try self h g).
Proof.
  intros self s e s1 H.
  unfold _get_history_clickhouse_try, bind, lift, ret, deref in H. cbn in H. early H.
Qed.

Lemma history_postgres_fails_early h g :
  fails_early (fun self => _get_history_postgres_try env self h g).
Proof.
  intros self s e s1 H.
  unfold _get_history_postgres_try, bind, lift, ret, call in H. cbn in H. early H.
Qed.

Lemma logs_clickhouse_fails_early limit offset status model :
  fails_early (fun self => _get_logs_clickhouse_try self limit offset status model).
Proof.
  intros self s e s1 H.
  unfold _get_logs_clickhouse_try, bind, lift, ret, deref, index0 in H. cbn in H.
  early H.
Qed.

Lemma logs_postgres_fails_early limit offset status model :
  fails_early (fun self => _get_logs_postgres_try env self limit offset status model).
Proof.
  intros self s e s1 H.
  unfold _get_logs_postgres_try, bind, lift, ret, call in H. cbn in H. early H.
Qed.

Lemma model_stats_clickhouse_fails_early : fails_early _get_model_stats_clickhouse_try.
Proof.
  intros self s e s1 H.
  unfold _get_model_stats_clickhouse_try, bind, lift, ret, deref in H. cbn in H.
  early H.
Qed.

Lemma model_stats_postgres_fails_early : fails_early (_get_model_stats_postgres_try env).
Proof.
  intros self s e s1 H.
  unfold _get_model_stats_postgres_try, bind, lift, ret, call in H. cbn in H. early H.
Qed.

Lemma steady_ret {A} (v : A) : steady (fun _ => ret v).
Proof. intros self s. exists v, (clock_reads s). intros lines. now split. Qed.

Lemma steady_empty_stats : steady (_get_empty_stats env).
Proof.
  intros self s.
  exists (mkSnapshot 0 0%Q
            (fl (fl (inject_Z (clock env (clock_reads s) - _start_time self) / 1000000)
                 / 3600))
            0 0 0%Q 0 (clock env (S (clock_reads s)))),
         (S (S (clock_reads s))).
  intros lines. split; reflexivity.
Qed.

(** The three branches of a router method. *)
Ltac routing :=
  let self := fresh "self" in
  let s := fresh "s" in
  intros self s;
  unfold get_current_stats, get_history, get_logs, get_model_stats;
  destruct (use_clickhouse self);
  [ reflexivity
  | destruct (is_some (_postgres_session_factory self)); reflexivity ].

(** C6. Each of the four query operations always returns, and when the
    try block of the adapter it selects raises, whatever the exception, it
    logs one error line and returns exactly what it returns when no
    backend is connected. *)
Theorem queries_degrade :
  degrades (get_current_stats env)
           (_get_current_stats_clickhouse_try env)
           (_get_current_stats_postgres_try env)
  /\ (forall time_range granularity,
        degrades (fun self => get_history env self time_range granularity)
                 (fun self => _get_history_clickhouse_try self
                                (range_map time_range) (granularity_map granularity))
                 (fun self => _get_history_postgres_try env self
                                (range_map time_range) (granularity_map granularity)))
  /\ (forall limit offset status model,
        degrades (fun self => get_logs env self limit offset status model)
                 (fun self => _get_logs_clickhouse_try self limit offset status model)
                 (fun self => _get_logs_postgres_try env self limit offset status model))
  /\ degrades (get_model_stats env)
              _get_model_stats_clickhouse_try
              (_get_model_stats_postgres_try env).
Proof.
  split; [|split; [|split]]; intros.
  - apply (routed_degrades _ _ _
             (fun e => "Error getting stats from ClickHouse: " ++ str_exn e)
             (fun e => "Error getting stats from PostgreSQL: " ++ str_exn e)
             (_get_empty_stats env));
      [ routing | apply steady_empty_stats
      | apply stats_clickhouse_fails_early | apply stats_postgres_fails_early ].
  - apply (routed_degrades _ _ _
             (fun e => "Error getting history from ClickHouse: " ++ str_exn e)
             (fun e => "Error getting history from PostgreSQL: " ++ str_exn e)
             (fun _ => ret []));
      [ routing | apply steady_ret
      | apply history_clickhouse_fails_early | apply history_postgres_fails_early ].
  - apply (routed_degrades _ _ _
             (fun e => "Error getting logs from ClickHouse: " ++ str_exn e)
             (fun e => "Error getting logs from PostgreSQL: " ++ str_exn e)
             (fun _ => ret empty_logs));
      [ routing | apply steady_ret
      | apply logs_clickhouse_fails_early | apply logs_postgres_fails_early ].
  - apply (routed_degrades _ _ _
             (fun e => "Error getting model stats from ClickHouse: " ++ str_exn e)
             (fun e => "Error getting model stats from PostgreSQL: " ++ str_exn e)
             (fun _ => ret []));
      [ routing | apply steady_ret
      | apply model_stats_clickhouse_fails_early
      | apply model_stats_postgres_fails_early ].
Qed.

End Degradation.

Lemma queries_degrade_witness :
  fst (Router.get_current_stats Router.hourly
         (Router.manager_on_clickhouse Router.lost_clickhouse) Router.s0)
  = fst (Router.get_current_stats Router.hourly
           (Router.disconnected (Router.manager_on_clickhouse Router.lost_clickhouse))
           Router.s0)
  /\ exists msg,
      Router.log_lines
        (snd (Router.get_current_stats Router.hourly
                (Router.manager_on_clickhouse Router.lost_clickhouse) Router.s0))
      = (Router.log_lines Router.s0 ++ [(ERROR, msg)])%list.
Proof.
  apply (proj2 (proj1 (queries_degrade Router.hourly)
                  (Router.manager_on_clickhouse Router.lost_clickhouse) Router.s0)
           Router.driver_error Router.s0).
  left. split; reflexivity.
Defined.

(* ================================================================== *)
(** * Properties of the history query                                  *)
(* ================================================================== *)

Section Bucketing.

Import Router.

Lemma newest_first_cons a b l :
  newest_first (a :: b :: l) <-> b < a /\ newest_first (b :: l).
Proof. cbn. tauto. Qed.

Lemma newest_first_tail a l : newest_first (a :: l) -> newest_first l.
Proof. cbn. tauto. Qed.

Lemma newest_first_below a l :
  newest_first (a :: l) -> forall x, In x l -> x < a.
Proof.
  revert a. induction l as [|b l IH]; intros a H x Hin; [destruct Hin|].
  apply newest_first_cons in H as (Hba & Hrest).
  destruct Hin as [<-|Hin]; [assumption|].
  specialize (IH b Hrest x Hin). lia.
Qed.

Lemma insert_desc_In k ks x : In x (insert_desc k ks) <-> x = k \/ In x ks.
Proof.
  induction ks as [|k' ks IH]; cbn.
  - intuition.
  - destruct (Z.ltb_spec k' k); [cbn; intuition|].
    destruct (Z.eqb_spec k' k); cbn; [subst; intuition|].
    rewrite IH. intuition.
Qed.

Lemma insert_desc_newest_first k ks :
  newest_first ks -> newest_first (insert_desc k ks).
Proof.
  induction ks as [|k' ks IH]; intros H; [cbn; tauto|].
  cbn [insert_desc].
  destruct (Z.ltb_spec k' k); [apply newest_first_cons; now split|].
  destruct (Z.eqb_spec k' k); [assumption|].
  specialize (IH (newest_first_tail _ _ H)).
  destruct (insert_desc k ks) as [|h rest] eqn:Hins; [cbn; tauto|].
  apply newest_first_cons. split; [|assumption].
  assert (In h (insert_desc k ks)) as Hh by (rewrite Hins; now left).
  apply insert_desc_In in Hh as [->|Hh]; [lia|].
  now apply (newest_first_below k' ks).
Qed.

Lemma group_keys_desc_In keys x : In x (group_keys_desc keys) <-> In x keys.
Proof.
  induction keys as [|k keys IH]; cbn; [tauto|].
  rewrite insert_desc_In, IH. intuition.
Qed.

Lemma group_keys_desc_newest_first keys : newest_first (group_keys_desc keys).
Proof.
  induction keys as [|k keys IH]; cbn; [tauto|].
  now apply insert_desc_newest_first.
Qed.

(** A strictly decreasing list of multiples of [w] whose quotients lie
    between [lo] and [hi] has at most [hi - lo + 1] elements. *)
Lemma newest_first_length w lo l : forall hi,
  0 < w ->
  newest_first l ->
  (forall x, In x l -> exists q, x = w * q /\ lo <= q <= hi) ->
  Z.of_nat (List.length l) <= Z.max 0 (hi - lo + 1).
Proof.
  induction l as [|x l IH]; intros hi Hw Hsorted Hall; [cbn; lia|].
  destruct (Hall x (or_introl eq_refl)) as (q & -> & Hq).
  assert (Hrest : Z.of_nat (List.length l) <= Z.max 0 (q - 1 - lo + 1)).
  { apply IH; [assumption|now apply newest_first_tail in Hsorted|].
    intros y Hy. destruct (Hall y (or_intror Hy)) as (q' & -> & Hq').
    exists q'. split; [reflexivity|].
    pose proof (newest_first_below _ _ Hsorted _ Hy). nia. }
  cbn [List.length]. lia.
Qed.

Lemma toStartOfInterval_quotient t n :
  toStartOfInterval t n = (n * minute_us) * (t / (n * minute_us)).
Proof.
  unfold toStartOfInterval.
  destruct (Z.eq_dec (n * minute_us) 0) as [->|Hn].
  - rewrite Z.mod_0_r. lia.
  - rewrite Z.mod_eq by assumption. lia.
Qed.

(** The timestamps of the result are the bucket keys of the query. *)
Lemma history_stamps table now hours minutes :
  map h_timestamp (map history_point (sql_history_clickhouse table now hours minutes))
  = buckets_of (fun t => toStartOfInterval t minutes) (selected now hours table).
Proof.
  unfold sql_history_clickhouse. rewrite !map_map. cbn. apply map_id.
Qed.

(** C4, as the ClickHouse adapter has it. For every range and
    granularity the timestamps of get_history are exactly the timestamps of
    the rows in range truncated to the granularity width, each once,
    newest first; for range 6h and granularity 1h, and no row stamped
    later than the server's now, there are at most 7 of them. *)
Theorem history_clickhouse_buckets
        (env : Env) (self : DatabaseManager) (c : ClickHouseClient)
        (table : list metric) (now : Z) (time_range granularity : string) (s : st) :
  use_clickhouse self = true ->
  _clickhouse_client self = Some c ->
  serves_history_clickhouse c table now ->
  exists points,
    get_history env self time_range granularity s = (Ok points, s) /\
    newest_first (map h_timestamp points) /\
    (forall t, In t (map h_timestamp points) <->
               exists r, In r table
                         /\ now - range_map time_range * hour_us <= m_timestamp r
                         /\ t = toStartOfInterval (m_timestamp r)
                                                  (granularity_map granularity)) /\
    (time_range = "6h" -> granularity = "1h" ->
     (forall r, In r table -> m_timestamp r <= now) ->
     (List.length points <= 7)%nat).
Proof.
  intros Huse Hc Hserves.
  exists (map history_point
            (sql_history_clickhouse table now (range_map time_range)
                                    (granularity_map granularity))).
  assert (Hin : forall t,
             In t (buckets_of (fun t => toStartOfInterval t (granularity_map granularity))
                              (selected now (range_map time_range) table)) <->
             exists r, In r table
                       /\ now - range_map time_range * hour_us <= m_timestamp r
                       /\ t = toStartOfInterval (m_timestamp r)
                                                (granularity_map granularity)).
  { intros t. unfold buckets_of, selected. rewrite group_keys_desc_In, in_map_iff.
    split.
    - intros (r & <- & Hr). apply filter_In in Hr as (Hr & Hrange).
      exists r. unfold in_range in Hrange. repeat split; [assumption|lia].
    - intros (r & Hr & Hrange & ->). exists r. split; [reflexivity|].
      apply filter_In. split; [assumption|]. unfold in_range. lia. }
  split; [|split; [|split]].
  - unfold get_history. rewrite Huse.
    unfold _get_history_clickhouse, try_except, _get_history_clickhouse_try, bind, lift.
    rewrite Hc. cbn. rewrite Hserves. reflexivity.
  - rewrite history_stamps. apply group_keys_desc_newest_first.
  - intros t. rewrite history_stamps. apply Hin.
  - intros -> -> Hpast.
    rewrite <- (length_map h_timestamp), history_stamps.
    change (range_map "6h") with 6 in *. change (granularity_map "1h") with 60 in *.
    pose proof (newest_first_length (60 * minute_us) (now / (60 * minute_us) - 6)
                  (buckets_of (fun t => toStartOfInterval t 60) (selected now 6 table))
                  (now / (60 * minute_us))) as Hlen.
    enough (Z.of_nat (List.length (buckets_of (fun t => toStartOfInterval t 60)
                                              (selected now 6 table)))
            <= Z.max 0 (now / (60 * minute_us) - (now / (60 * minute_us) - 6) + 1))
      by lia.
    apply Hlen; [reflexivity|apply group_keys_desc_newest_first|].
    intros x Hx. apply Hin in Hx as (r & Hr & Hrange & ->).
    exists (m_timestamp r / (60 * minute_us)).
    split; [apply toStartOfInterval_quotient|].
    specialize (Hpast r Hr).
    change (60 * minute_us) with hour_us.
    split.
    + replace (now / hour_us - 6) with ((now - 6 * hour_us) / hour_us).
      * apply Z.div_le_mono; [reflexivity|lia].
      * replace (now - 6 * hour_us) with (now + (-6) * hour_us) by lia.
        rewrite Z.div_add by discriminate. lia.
    + apply Z.div_le_mono; [reflexivity|assumption].
Qed.

End Bucketing.

Lemma history_clickhouse_buckets_witness :
  exists points,
    Router.get_history Router.hourly
      (Router.manager_on_clickhouse
         (Router.clickhouse_over Router.one_request_per_hour Router.half_past_twelve))
      "6h" "1h" Router.s0 = (Ok points, Router.s0) /\
    (List.length points <= 7)%nat.
Proof.
  destruct (history_clickhouse_buckets Router.hourly
              (Router.manager_on_clickhouse
                 (Router.clickhouse_over Router.one_request_per_hour
                                         Router.half_past_twelve))
              (Router.clickhouse_over Router.one_request_per_hour
                                      Router.half_past_twelve)
              Router.one_request_per_hour Router.half_past_twelve "6h" "1h" Router.s0
              eq_refl eq_refl (fun _ _ => eq_refl))
    as (points & Hrun & _ & _ & Hlen).
  exists points. split; [exact Hrun|].
  apply Hlen; [reflexivity|reflexivity|].
  intros r Hr. cbn in Hr.
  repeat (destruct Hr as [<-|Hr]; [vm_compute; discriminate|]). destruct Hr.
Defined.

(** C4 as stated fails: at half past twelve, with one row in each of the
    last six hours and one right now, the 6h/1h history of the ClickHouse
    adapter has seven buckets, 12:00 down to 06:00. *)
Lemma history_six_hours_seven_buckets :
  let out :=
    Router.get_history Router.hourly
      (Router.manager_on_clickhouse
         (Router.clickhouse_over Router.one_request_per_hour Router.half_past_twelve))
      "6h" "1h" Router.s0 in
  exists points,
    fst out = Ok points /\
    map Router.h_timestamp points
    = map (fun h => h * Router.hour_us) [12; 11; 10; 9; 8; 7; 6] /\
    List.length points = 7%nat /\
    ~ (List.length points <= 6)%nat /\
    Forall (fun r => Router.half_past_twelve - 6 * Router.hour_us
                     <= Router.m_timestamp r <= Router.half_past_twelve)
           Router.one_request_per_hour.
Proof.
  eexists. split; [vm_compute; reflexivity|].
  split; [reflexivity|]. split; [reflexivity|]. split; [cbn; lia|].
  repeat constructor; vm_compute; discriminate.
Qed.

(** The Postgres adapter truncates to the minute whatever the
    granularity: two rows of the same hour, one minute apart, make two
    buckets of the 6h/1h history, where the ClickHouse adapter makes one. *)
Remark history_postgres_buckets_by_minute :
  let postgres :=
    Router.get_history Router.hourly
      (Router.manager_on_postgres
         (Router.postgres_over Router.two_requests_one_hour Router.half_past_twelve))
      "6h" "1h" Router.s0 in
  let clickhouse :=
    Router.get_history Router.hourly
      (Router.manager_on_clickhouse
         (Router.clickhouse_over Router.two_requests_one_hour Router.half_past_twelve))
      "6h" "1h" Router.s0 in
  (exists points,
      fst postgres = Ok points /\
      map Router.h_timestamp points
      = [12 * Router.hour_us + 11 * Router.minute_us;
         12 * Router.hour_us + 10 * Router.minute_us])
  /\ (exists points,
         fst clickhouse = Ok points /\
         map Router.h_timestamp points = [12 * Router.hour_us]).
Proof. split; eexists; (split; [vm_compute; reflexivity|reflexivity]). Qed.

(* ================================================================== *)
(** * Further properties of config.py                                  *)
(* ================================================================== *)

Section ConfigMore.

Import Config.

(** X1. For arbitrary Python values in the three numeric fields,
    construction either stores the four fields as given or raises
    ValueError; it succeeds exactly when each field is an int instance (a
    bool counts, as 0 or 1) within its bounds. *)
Theorem config_accepts_exactly_ints (h : string) (p t r : pyval) :
  (Config.new h p t r = Ok (mkNetworkConfig h p t r)
   \/ exists msg, Config.new h p t r = Raise (mkExn ValueError msg))
  /\ (Config.new h p t r = Ok (mkNetworkConfig h p t r)
      <-> (isinstance_int p = true /\ 1 <= int_of p <= 65535)
          /\ (isinstance_int t = true /\ 0 < int_of t)
          /\ (isinstance_int r = true /\ 0 <= int_of r)).
Proof.
  unfold new, __post_init__; cbn [port timeout max_retries].
  destruct (isinstance_int p) eqn:Hp; cbn [negb orb].
  2:{ split; [right; eexists; reflexivity|].
      split; [intros H; discriminate H|]. intros ((H & _) & _). discriminate H. }
  destruct ((1 <=? int_of p) && (int_of p <=? 65535)) eqn:Hpr; cbn [negb].
  2:{ split; [right; eexists; reflexivity|].
      split; [intros H; discriminate H|]. intros ((_ & H) & _). lia. }
  destruct (isinstance_int t) eqn:Ht; cbn [negb orb].
  2:{ split; [right; eexists; reflexivity|].
      split; [intros H; discriminate H|]. intros (_ & (H & _) & _). discriminate H. }
  destruct (int_of t <=? 0) eqn:Htr.
  { split; [right; eexists; reflexivity|].
    split; [intros H; discriminate H|]. intros (_ & (_ & H) & _). lia. }
  destruct (isinstance_int r) eqn:Hr; cbn [negb orb].
  2:{ split; [right; eexists; reflexivity|].
      split; [intros H; discriminate H|]. intros (_ & _ & (H & _)). discriminate H. }
  destruct (int_of r <? 0) eqn:Hrr.
  { split; [right; eexists; reflexivity|].
    split; [intros H; discriminate H|]. intros (_ & _ & (_ & H)). lia. }
  split; [now left|]. split; [intros _|reflexivity].
  repeat split; lia.
Qed.

(** X2. The three checks run in the order port, timeout, max_retries and
    the first one that fails decides the message, which ends with the
    printed form of the offending value. *)
Theorem config_first_failure_wins (h : string) (p t r : pyval) :
  let port_ok := isinstance_int p = true /\ 1 <= int_of p <= 65535 in
  let timeout_ok := isinstance_int t = true /\ 0 < int_of t in
  let retries_ok := isinstance_int r = true /\ 0 <= int_of r in
  (~ port_ok ->
   Config.new h p t r
   = Raise (mkExn ValueError ("Port must be between 1 and 65535, got " ++ str_pyval p)))
  /\ (port_ok -> ~ timeout_ok ->
      Config.new h p t r
      = Raise (mkExn ValueError ("Timeout must be positive, got " ++ str_pyval t)))
  /\ (port_ok -> timeout_ok -> ~ retries_ok ->
      Config.new h p t r
      = Raise (mkExn ValueError
                 ("Max retries must be non-negative, got " ++ str_pyval r))).
Proof.
  cbv zeta. unfold new, __post_init__; cbn [port timeout max_retries].
  split; [|split].
  - intros Hbad.
    destruct (isinstance_int p); cbn [negb orb]; [|reflexivity].
    destruct ((1 <=? int_of p) && (int_of p <=? 65535)) eqn:Hpr; [|reflexivity].
    exfalso. apply Hbad. split; [reflexivity|lia].
  - intros (Hp & Hpr) Hbad. rewrite Hp; cbn [negb orb].
    replace ((1 <=? int_of p) && (int_of p <=? 65535)) with true by lia. cbn [negb].
    destruct (isinstance_int t); cbn [negb orb]; [|reflexivity].
    destruct (int_of t <=? 0) eqn:Htr; [reflexivity|].
    exfalso. apply Hbad. split; [reflexivity|lia].
  - intros (Hp & Hpr) (Ht & Htr) Hbad. rewrite Hp, Ht; cbn [negb orb].
    replace ((1 <=? int_of p) && (int_of p <=? 65535)) with true by lia. cbn [negb].
    replace (int_of t <=? 0) with false by lia.
    destruct (isinstance_int r); cbn [negb orb]; [|reflexivity].
    destruct (int_of r <? 0) eqn:Hrr; [reflexivity|].
    exfalso. apply Hbad. split; [reflexivity|lia].
Qed.

Lemma config_first_failure_wins_witness :
  Config.new "0.0.0.0" (PyStr "11434") (PyInt 0) (PyInt (-1))
  = Raise (mkExn ValueError "Port must be between 1 and 65535, got 11434")
  /\ Config.new "0.0.0.0" (PyBool true) PyNone (PyInt (-1))
     = Raise (mkExn ValueError "Timeout must be positive, got None")
  /\ Config.new "0.0.0.0" (PyInt 11434) (PyBool true) (PyOther "2.5")
     = Raise (mkExn ValueError "Max retries must be non-negative, got 2.5").
Proof.
  split; [|split].
  - apply (proj1 (config_first_failure_wins "0.0.0.0" (PyStr "11434") (PyInt 0)
                    (PyInt (-1)))).
    intros (H & _). discriminate H.
  - apply (proj1 (proj2 (config_first_failure_wins "0.0.0.0" (PyBool true) PyNone
                           (PyInt (-1))))).
    + split; [reflexivity|cbn; lia].
    + intros (H & _). discriminate H.
  - apply (proj2 (proj2 (config_first_failure_wins "0.0.0.0" (PyInt 11434)
                           (PyBool true) (PyOther "2.5")))).
    + split; [reflexivity|cbn; lia].
    + split; [reflexivity|cbn; lia].
    + intros (H & _). discriminate H.
Defined.

(** X3. Without the fallback the connection URL is the base URL; with it,
    the URL differs from the base URL exactly when the host is the
    wildcard address 0.0.0.0, and is then the loopback URL with the same
    port. *)
Theorem connection_url_fallback (c : NetworkConfig) :
  get_connection_url c false = base_url c
  /\ (host c = "0.0.0.0" ->
      get_connection_url c true = "http://localhost:" ++ str_pyval (port c))
  /\ (get_connection_url c true <> base_url c <-> host c = "0.0.0.0").
Proof.
  unfold get_connection_url, base_url. cbn [andb].
  split; [reflexivity|]. split.
  - intros ->. reflexivity.
  - destruct (String.eqb_spec (host c) "0.0.0.0") as [->|Hne].
    + split; [reflexivity|]. intros _. apply String.eqb_neq. reflexivity.
    + split; [intros H; now elim H|intros H; contradiction].
Qed.

End ConfigMore.

(* ================================================================== *)
(** * Further properties of the process supervisor                     *)
(* ================================================================== *)

Lemma exn_class_eq_FileNotFound (c : exn_class) :
  {c = FileNotFoundError} + {c <> FileNotFoundError}.
Proof. destruct c; (now left) || (right; discriminate). Defined.

Section Lifecycle.

Import Service.

Variable env : Env.

Ltac run_start Hr :=
  unfold start, bind, get_self, try_except; cbn -[health_check]; rewrite Hr;
  unfold spawn, read_stderr, kill, bind, get_self, emit, log, emit, modify, lift,
    poll, bind, emit, modify, ret, raise, set_process, set_is_running, sleep, emit,
    modify;
  cbn -[health_check].

(** The binary is missing: nothing to clean up. *)
Lemma start_not_found delay s e :
  _is_running (self s) = false ->
  popen_result env = Raise e -> exn_cls e = FileNotFoundError ->
  start env delay s =
  (Raise (mkExn ServiceStartError
            ("Ollama binary not found: " ++ ollama_binary (self s)
               ++ ". Please ensure Ollama is installed and in PATH.")),
   after s (spawning env s)).
Proof.
  intros Hr Hpo Hc. run_start Hr. rewrite Hpo. cbn. rewrite Hc. cbn.
  unfold after, spawning. now rewrite <- !app_assoc.
Qed.

(** Any other failure of the spawn goes through the clean-up. *)
Lemma start_spawn_error delay s e :
  _is_running (self s) = false ->
  popen_result env = Raise e -> exn_cls e <> FileNotFoundError ->
  exists evs,
    start env delay s =
    (Raise (mkExn ServiceStartError ("Failed to start Ollama service: " ++ str_exn e)),
     mkSt (with_fields s None false) (trace s ++ evs))
    /\ attempts evs = 0%nat
    /\ sleeps evs = 0%nat
    /\ escalations evs = (if has_handle (self s) then 1 else 0)%nat.
Proof.
  intros Hr Hpo Hc. run_start Hr. rewrite Hpo. cbn.
  unfold with_fields, has_handle.
  destruct (exn_cls e) eqn:He; try contradiction; cbn;
    (destruct (_process (self s)) as [p|] eqn:Hp; cbn;
     [ destruct (kill_result env) as [[]|ek]; cbn | ]);
    rewrite <- ?app_assoc, ?Hr; cbn;
    try (eexists; split; [reflexivity|repeat split; reflexivity]).
  all: destruct s as [[c b pr r] t]; cbn in *; subst;
    eexists; split; [rewrite <- ?app_assoc; reflexivity|repeat split; reflexivity].
Qed.

(** The child is gone when the start-up delay is over. *)
Lemma start_exited delay s p code text :
  _is_running (self s) = false ->
  popen_result env = Ok p -> poll_result env = Some code ->
  stderr_read env = Ok text ->
  start env delay s =
  (Raise (mkExn ServiceStartError
            ("Failed to start Ollama service: "
               ++ "Ollama process terminated immediately. stderr: " ++ text)),
   mkSt (with_fields s None false)
        (trace s ++ spawning env s
           ++ [EvSleep delay; EvPoll; EvReadStderr;
               EvLog ERROR ("Failed to start Ollama service: "
                              ++ "Ollama process terminated immediately. stderr: "
                              ++ text);
               EvKill])).
Proof.
  intros Hr Hpo Hpl Herr. run_start Hr. rewrite Hpo. cbn. rewrite Hpl. cbn.
  rewrite Herr. cbn. unfold with_fields, spawning.
  destruct (kill_result env) as [[]|ek]; cbn; rewrite <- !app_assoc, Hr; reflexivity.
Qed.

(** The child is gone and its error stream cannot be read. *)
Lemma start_exited_unread delay s p code e :
  _is_running (self s) = false ->
  popen_result env = Ok p -> poll_result env = Some code ->
  stderr_read env = Raise e -> exn_cls e <> FileNotFoundError ->
  exists evs,
    start env delay s =
    (Raise (mkExn ServiceStartError ("Failed to start Ollama service: " ++ str_exn e)),
     mkSt (with_fields s None false) (trace s ++ evs)).
Proof.
  intros Hr Hpo Hpl Herr Hc. run_start Hr. rewrite Hpo. cbn. rewrite Hpl. cbn.
  rewrite Herr. cbn. unfold with_fields.
  destruct (exn_cls e) eqn:He; try contradiction; cbn;
    destruct (kill_result env) as [[]|ek]; cbn; rewrite <- !app_assoc, Hr;
    eexists; reflexivity.
Qed.

(** The child is alive: the verdict of the probe decides. *)
Lemma start_probed delay s p r new :
  _is_running (self s) = false ->
  popen_result env = Ok p -> poll_result env = None ->
  (forall s', config (self s') = config (self s) ->
              health_check env None s' = (r, after s' new)) ->
  start env delay s =
  match r with
  | Ok _ =>
      (Ok tt, mkSt (with_fields s (Some p) true)
                   (trace s ++ spawning env s ++ [EvSleep delay; EvPoll] ++ new
                      ++ [EvLog INFO "Ollama service started successfully"]))
  | Raise e =>
      match exn_cls e with
      | HealthCheckError =>
          (Ok tt, mkSt (with_fields s (Some p) true)
                       (trace s ++ spawning env s ++ [EvSleep delay; EvPoll] ++ new
                          ++ [EvLog WARNING
                                ("Service started but health check failed: "
                                   ++ str_exn e)]))
      | FileNotFoundError =>
          (Raise (mkExn ServiceStartError
                    ("Ollama binary not found: " ++ ollama_binary (self s)
                       ++ ". Please ensure Ollama is installed and in PATH.")),
           mkSt (with_fields s (Some p) false)
                (trace s ++ spawning env s ++ [EvSleep delay; EvPoll] ++ new))
      | _ =>
          (Raise (mkExn ServiceStartError
                    ("Failed to start Ollama service: " ++ str_exn e)),
           mkSt (with_fields s None false)
                (trace s ++ spawning env s ++ [EvSleep delay; EvPoll] ++ new
                   ++ [EvLog ERROR ("Failed to start Ollama service: " ++ str_exn e);
                       EvKill]))
      end
  end.
Proof.
  intros Hr Hpo Hpl Hf. run_start Hr. rewrite Hpo. cbn -[health_check].
  rewrite Hpl. cbn -[health_check]. rewrite Hf by reflexivity.
  unfold with_fields, spawning, after. cbn.
  destruct r as [b|e]; cbn; [rewrite <- !app_assoc; reflexivity|].
  destruct (exn_cls e) eqn:He; cbn; rewrite ?He; cbn;
    try (destruct (kill_result env) as [[]|ek]; cbn);
    rewrite <- ?app_assoc, ?Hr; reflexivity.
Qed.

End Lifecycle.

Section LifecycleProps.

Import Service.

(** X4. stop on a supervisor that is not running, or that holds no
    handle, only logs a warning: it returns, the object is unchanged, and
    nothing is signalled or waited for. *)
Theorem stop_when_stopped_is_noop (env : Env) (timeout : Q) (s : st) :
  _is_running (self s) = false \/ _process (self s) = None ->
  stop env timeout s = (Ok tt, after s [EvLog WARNING "Service is not running"]).
Proof.
  intros H. unfold stop, bind, get_self. cbn.
  destruct H as [-> | ->]; [reflexivity|].
  now destruct (_is_running (self s)).
Qed.

Lemma stop_when_stopped_is_noop_witness :
  stop process_gone 5 fresh = (Ok tt, after fresh [EvLog WARNING "Service is not running"]).
Proof. apply (stop_when_stopped_is_noop process_gone 5 fresh). now left. Defined.

(** X5. When the spawn itself raises, start raises a Start error without
    sleeping or probing and leaves the supervisor not running.  For
    FileNotFoundError the message names the binary and the object is
    untouched; for any other exception the message carries the cause and
    the handle is empty afterwards. *)
Theorem start_spawn_failure (env : Env) (delay : Q) (s : st) (e : exn) :
  _is_running (self s) = false ->
  popen_result env = Raise e ->
  exists msg evs,
    start env delay s
    = (Raise (mkExn ServiceStartError msg),
       mkSt (self (snd (start env delay s))) (trace s ++ evs))
    /\ _is_running (self (snd (start env delay s))) = false
    /\ attempts evs = 0%nat
    /\ sleeps evs = 0%nat
    /\ (exn_cls e = FileNotFoundError ->
        msg = "Ollama binary not found: " ++ ollama_binary (self s)
              ++ ". Please ensure Ollama is installed and in PATH."
        /\ self (snd (start env delay s)) = self s
        /\ escalations evs = 0%nat)
    /\ (exn_cls e <> FileNotFoundError ->
        msg = "Failed to start Ollama service: " ++ str_exn e
        /\ _process (self (snd (start env delay s))) = None).
Proof.
  intros Hr Hpo.
  destruct (exn_class_eq_FileNotFound (exn_cls e)) as [Hc|Hc].
  - rewrite (start_not_found env delay s e Hr Hpo Hc). cbn.
    do 2 eexists. split; [reflexivity|]. split; [assumption|].
    split; [reflexivity|]. split; [reflexivity|].
    split; [intros _; repeat split|intros H; contradiction].
  - destruct (start_spawn_error env delay s e Hr Hpo Hc) as (evs & -> & Ha & Hs & _).
    cbn. do 2 eexists. split; [reflexivity|]. split; [reflexivity|].
    split; [assumption|]. split; [assumption|].
    split; [intros H; contradiction|intros _; now split].
Qed.

Lemma start_spawn_failure_witness :
  exists msg evs,
    start no_binary 2 fresh
    = (Raise (mkExn ServiceStartError msg),
       mkSt (self (snd (start no_binary 2 fresh))) (trace fresh ++ evs))
    /\ _is_running (self (snd (start no_binary 2 fresh))) = false
    /\ attempts evs = 0%nat
    /\ sleeps evs = 0%nat.
Proof.
  destruct (start_spawn_failure no_binary 2 fresh
              (mkExn FileNotFoundError "[Errno 2] No such file or directory: 'ollama'")
              eq_refl eq_refl)
    as (msg & evs & H1 & H2 & H3 & H4 & _).
  exists msg, evs. repeat split; assumption.
Defined.

(** X6. When the child has exited by the end of the start-up delay, start
    raises a Start error that carries the child's error output, kills
    the handle once whether or not the kill raises, clears it, stays not
    running and never probes. *)
Theorem start_child_exited (env : Env) (delay : Q) (s : st) (p : Popen)
        (code : Z) (text : string) :
  _is_running (self s) = false ->
  popen_result env = Ok p ->
  poll_result env = Some code ->
  stderr_read env = Ok text ->
  exists evs,
    start env delay s
    = (Raise (mkExn ServiceStartError
                ("Failed to start Ollama service: "
                   ++ "Ollama process terminated immediately. stderr: " ++ text)),
       mkSt (with_fields s None false) (trace s ++ evs))
    /\ escalations evs = 1%nat
    /\ attempts evs = 0%nat
    /\ spawns evs = 1%nat.
Proof.
  intros Hr Hpo Hpl Herr. rewrite (start_exited env delay s p code text) by assumption.
  eexists. split; [reflexivity|]. repeat split.
Qed.

Lemma start_child_exited_witness :
  exists evs,
    start exits_at_once 2 fresh
    = (Raise (mkExn ServiceStartError
                ("Failed to start Ollama service: "
                   ++ "Ollama process terminated immediately. stderr: "
                   ++ "Error: listen tcp: address in use")),
       mkSt (with_fields fresh None false) (trace fresh ++ evs))
    /\ escalations evs = 1%nat
    /\ attempts evs = 0%nat
    /\ spawns evs = 1%nat.
Proof.
  apply (start_child_exited exits_at_once 2 fresh (mkPopen 4242) 1
           "Error: listen tcp: address in use"); reflexivity.
Defined.

End LifecycleProps.

Section Invariant.

Import Service.

Ltac fields :=
  unfold with_fields, has_handle, after; cbn;
  repeat match goal with H : _ = _ |- _ => rewrite H end;
  tauto.

(** Where one start can leave the two mutable fields. *)
Lemma start_fields (env : Env) (delay : Q) (s : st) :
  _is_running (self s) = false ->
  let s' := snd (start env delay s) in
  config (self s') = config (self s)
  /\ ollama_binary (self s') = ollama_binary (self s)
  /\ ((_is_running (self s') = true /\ has_handle (self s') = true)
      \/ (_is_running (self s') = false /\ has_handle (self s') = false)
      \/ (_is_running (self s') = false /\ has_handle (self s') = has_handle (self s))
      \/ (_is_running (self s') = false /\ ~ stderr_readable env)).
Proof.
  intros Hr. cbv zeta.
  destruct (popen_result env) as [p|e] eqn:Hpo.
  - destruct (poll_result env) as [code|] eqn:Hpl.
    + destruct (stderr_read env) as [text|e] eqn:Herr.
      * rewrite (start_exited env delay s p code text) by assumption. fields.
      * destruct (exn_class_eq_FileNotFound (exn_cls e)) as [Hc|Hc].
        -- assert (~ stderr_readable env) as Hbad by (intros H; now apply (H e)).
           assert (_is_running (self (snd (start env delay s))) = false
                   /\ config (self (snd (start env delay s))) = config (self s)
                   /\ ollama_binary (self (snd (start env delay s)))
                      = ollama_binary (self s)) as (H1 & H2 & H3).
           { unfold start, bind, get_self, try_except; cbn; rewrite Hr.
             unfold spawn, read_stderr, bind, get_self, emit, log, emit, modify, lift,
               poll, bind, emit, modify, ret, raise, set_process, sleep, emit, modify.
             cbn. rewrite Hpo. cbn. rewrite Hpl. cbn. rewrite Herr. cbn.
             rewrite Hc. cbn. auto. }
           tauto.
        -- destruct (start_exited_unread env delay s p code e) as (evs & ->);
             try assumption. fields.
    + destruct (health_check_frame env None s) as (r & new & Hf & _).
      rewrite (start_probed env delay s p r new Hr Hpo Hpl Hf).
      destruct (loop_verdict env (health_url (self s)) (retry_budget None (self s))
                  (Z.to_nat (retry_budget None (self s) + 1)) 0%nat s)
        as (r' & new' & Hrun & Hv).
      rewrite <- health_check_unfold, (Hf s eq_refl) in Hrun.
      injection Hrun as <- _.
      destruct Hv as [(-> & _)|(msg & [-> | ->])]; fields.
  - destruct (exn_class_eq_FileNotFound (exn_cls e)) as [Hc|Hc].
    + rewrite (start_not_found env delay s e Hr Hpo Hc). fields.
    + destruct (start_spawn_error env delay s e Hr Hpo Hc) as (evs & -> & _).
      fields.
Qed.

Lemma run_call_fields (c : call) (s : st) :
  (_is_running (self s) = true -> has_handle (self s) = true) ->
  let s' := run_call c s in
  config (self s') = config (self s)
  /\ ollama_binary (self s') = ollama_binary (self s)
  /\ (_is_running (self s') = true -> has_handle (self s') = true)
  /\ (orderly c -> has_handle (self s) = _is_running (self s) ->
      has_handle (self s') = _is_running (self s')).
Proof.
  intros Hinv. cbv zeta. destruct c as [env delay|env timeout]; cbn [run_call orderly].
  - destruct (_is_running (self s)) eqn:Hr.
    + assert (start env delay s
              = (Ok tt, after s [EvLog WARNING "Service is already running"])) as ->.
      { unfold start, bind, get_self. cbn. now rewrite Hr. }
      cbn. rewrite Hr. auto.
    + destruct (start_fields env delay s Hr) as (Hc & Hb & Hf).
      split; [assumption|]. split; [assumption|].
      destruct Hf as [(H1 & H2)|[(H1 & H2)|[(H1 & H2)|(H1 & H2)]]];
        rewrite H1, ?H2; (split; [congruence|]); intros Hord Heq;
        try reflexivity; try congruence.
  - destruct (_is_running (self s)) eqn:Hr.
    + specialize (Hinv eq_refl). unfold has_handle in Hinv.
      destruct (_process (self s)) as [p|] eqn:Hp; [|discriminate].
      destruct (stop_outcome env timeout s p Hr Hp) as [(evs & ->)|(msg & evs & ->)];
        cbn; unfold has_handle; rewrite ?Hr, ?Hp; auto.
    + assert (stop env timeout s
              = (Ok tt, after s [EvLog WARNING "Service is not running"])) as ->.
      { unfold stop, bind, get_self. cbn. now rewrite Hr. }
      cbn. rewrite Hr. repeat split; auto.
Qed.

(** X7. Over any sequence of start and stop calls, each in its own
    environment and whatever it raises, the configuration and the binary
    never change and a supervisor that counts as running holds a handle.
    Conversely a handle is held only while running, as long as no start
    runs into a FileNotFoundError while reading the child's error
    stream. *)
Theorem lifecycle_invariant (cs : list call) (s : st) :
  (_is_running (self s) = true -> has_handle (self s) = true) ->
  let s' := run_calls cs s in
  config (self s') = config (self s)
  /\ ollama_binary (self s') = ollama_binary (self s)
  /\ (_is_running (self s') = true -> has_handle (self s') = true)
  /\ (Forall orderly cs -> has_handle (self s) = _is_running (self s) ->
      has_handle (self s') = _is_running (self s')).
Proof.
  revert s. induction cs as [|c cs IH]; intros s Hinv; cbv zeta.
  - cbn. auto.
  - cbn [run_calls fold_left].
    destruct (run_call_fields c s Hinv) as (Hc & Hb & Hinv' & Hiff).
    destruct (IH (run_call c s) Hinv') as (Hc' & Hb' & Hinv'' & Hiff').
    unfold run_calls in *. cbv zeta in *.
    split; [congruence|]. split; [congruence|]. split; [assumption|].
    intros Hall Heq. inversion Hall; subst. auto.
Qed.

Lemma lifecycle_invariant_witness :
  let s' := run_calls [Start (posix always_refused) 2; Start (posix always_503) 2;
                       Stop process_gone 5; Start no_binary 2; Stop stubborn 5;
                       Stop stubborn 5; Start exits_at_once 2] fresh in
  config (self s') = config (self fresh)
  /\ ollama_binary (self s') = ollama_binary (self fresh)
  /\ (_is_running (self s') = true -> has_handle (self s') = true)
  /\ has_handle (self s') = _is_running (self s').
Proof.
  destruct (lifecycle_invariant
              [Start (posix always_refused) 2; Start (posix always_503) 2;
               Stop process_gone 5; Start no_binary 2; Stop stubborn 5;
               Stop stubborn 5; Start exits_at_once 2] fresh)
    as (H1 & H2 & H3 & H4).
  - discriminate.
  - split; [exact H1|]. split; [exact H2|]. split; [exact H3|].
    apply H4; [|reflexivity].
    repeat constructor; intros e H; discriminate H.
Defined.

End Invariant.

Section Shutdown.

Import Service.

Ltac closing := repeat split; try reflexivity; try easy; try congruence.

(** X8. A stop of a running supervisor sends the graceful signal exactly
    once and the forceful one at most once: exactly once when the
    graceful signal went through and the graceful wait timed out, never
    otherwise.  A POSIX host signals the process group only, a Windows
    host the process only.  When it escalates, the order is graceful
    signal, bounded wait, forceful signal and, if that one goes through,
    unbounded wait; the stop succeeds as soon as the forceful signal and
    the last wait do. *)
Theorem stop_escalation (env : Env) (timeout : Q) (s : st) (p : Popen) :
  _is_running (self s) = true ->
  _process (self s) = Some p ->
  exists new,
    trace (snd (stop env timeout s)) = (trace s ++ new)%list
    /\ graceful_signals new = 1%nat
    /\ escalations new
       = (if is_ok (graceful_result env) && timed_out env timeout then 1 else 0)%nat
    /\ filter (if os_name_nt env then on_group else on_process) new = []
    /\ (is_ok (graceful_result env) && timed_out env timeout = true ->
        firstn 5 new
        = [EvLog INFO "Stopping Ollama service"; graceful env;
           EvWait (Some timeout);
           EvLog WARNING "Graceful shutdown timed out, forcing termination";
           forceful env]
        /\ (forceful_result env = Ok tt -> nth_error new 5 = Some (EvWait None))
        /\ (forceful_result env = Ok tt -> wait_result env None = Ok tt ->
            stop env timeout s
            = (Ok tt, mkSt (with_fields s None false)
                           (trace s ++ new)))).
Proof.
  intros Hr Hp. unfold stop, bind, get_self, try_except. cbn. rewrite Hr, Hp. cbn.
  unfold killpg, terminate, kill, wait, bind, emit, modify, lift, log, emit, modify,
    set_is_running, set_process, modify, raise, after, graceful_result,
    forceful_result, timed_out, graceful, forceful, with_fields; cbn.
  destruct (os_name_nt env); cbn.
  - destruct (terminate_result env) as [[]|e0]; cbn.
    + destruct (wait_result env (Some timeout)) as [[]|e1]; cbn.
      * rewrite <- !app_assoc. eexists; split; [reflexivity|].
        closing.
      * destruct (exn_cls e1) eqn:Hc; cbn;
          try (rewrite <- !app_assoc; eexists; split; [reflexivity|];
               closing).
        destruct (kill_result env) as [[]|e2]; cbn.
        -- destruct (wait_result env None) as [[]|e3]; cbn;
             rewrite <- !app_assoc; (eexists; split; [reflexivity|]);
             closing.
        -- rewrite <- !app_assoc; (eexists; split; [reflexivity|]);
             closing.
    + rewrite <- !app_assoc. eexists; split; [reflexivity|].
      closing.
  - destruct (killpg_result env SIGTERM) as [[]|e0]; cbn.
    + destruct (wait_result env (Some timeout)) as [[]|e1]; cbn.
      * rewrite <- !app_assoc. eexists; split; [reflexivity|].
        closing.
      * destruct (exn_cls e1) eqn:Hc; cbn;
          try (rewrite <- !app_assoc; eexists; split; [reflexivity|];
               closing).
        destruct (killpg_result env SIGKILL) as [[]|e2]; cbn.
        -- destruct (wait_result env None) as [[]|e3]; cbn;
             rewrite <- !app_assoc; (eexists; split; [reflexivity|]);
             closing.
        -- rewrite <- !app_assoc; (eexists; split; [reflexivity|]);
             closing.
    + rewrite <- !app_assoc. eexists; split; [reflexivity|].
      closing.
Qed.

Lemma stop_escalation_witness :
  exists new,
    trace (snd (stop stubborn 5 started)) = (trace started ++ new)%list
    /\ graceful_signals new = 1%nat
    /\ escalations new = 1%nat
    /\ stop stubborn 5 started
       = (Ok tt, mkSt (with_fields started None false) (trace started ++ new)).
Proof.
  destruct (stop_escalation stubborn 5 started (mkPopen 4242) eq_refl eq_refl)
    as (new & Htrace & Hg & He & _ & Hesc).
  exists new. split; [exact Htrace|]. split; [exact Hg|]. split; [exact He|].
  apply (proj2 (proj2 (Hesc eq_refl))); reflexivity.
Defined.

(** X15. A supervisor whose stop has failed cannot be started again: it
    still counts as running, so the next start, in whatever environment,
    only logs the warning and spawns nothing. *)
Theorem start_after_failed_stop (env env' : Env) (timeout delay : Q) (s s1 : st)
        (p : Popen) (e : exn) :
  _is_running (self s) = true ->
  _process (self s) = Some p ->
  stop env timeout s = (Raise e, s1) ->
  start env' delay s1
  = (Ok tt, after s1 [EvLog WARNING "Service is already running"])
  /\ self (snd (start env' delay s1)) = self s
  /\ spawns (trace (snd (start env' delay s1))) = spawns (trace s1).
Proof.
  intros Hr Hp Hstop.
  destruct (stop_outcome env timeout s p Hr Hp) as [(evs & H)|(msg & evs & H)];
    rewrite H in Hstop; [discriminate Hstop|].
  injection Hstop as <- <-.
  assert (Hrun : start env' delay (after s evs)
                 = (Ok tt, after (after s evs)
                                 [EvLog WARNING "Service is already running"])).
  { unfold start, bind, get_self. cbn. now rewrite Hr. }
  rewrite Hrun. repeat split. cbn. unfold spawns.
  rewrite !filter_app, !length_app. cbn. lia.
Qed.

Lemma start_after_failed_stop_witness :
  start (posix (fun _ => Response 200)) 2 (snd (stop process_gone 5 started))
  = (Ok tt, after (snd (stop process_gone 5 started))
                  [EvLog WARNING "Service is already running"])
  /\ self (snd (start (posix (fun _ => Response 200)) 2
                      (snd (stop process_gone 5 started)))) = self started
  /\ spawns (trace (snd (start (posix (fun _ => Response 200)) 2
                               (snd (stop process_gone 5 started)))))
     = spawns (trace (snd (stop process_gone 5 started))).
Proof.
  apply (start_after_failed_stop process_gone (posix (fun _ => Response 200)) 5 2
           started (snd (stop process_gone 5 started)) (mkPopen 4242)
           (mkExn ServiceStopError
                  "Failed to stop Ollama service: [Errno 3] No such process"));
    reflexivity.
Defined.

(** X9. Scoped use. Entering a stopped supervisor on a host where the
    child stays alive and the probe does not end in a connection error,
    and leaving it on a host where the graceful signal and the wait go
    through, spawns one process, sends one graceful signal and no
    forceful one, and gives back the object as it was before. *)
Theorem scoped_use_restores (env env' : Env) (s : st) (p : Popen) :
  _is_running (self s) = false ->
  _process (self s) = None ->
  popen_result env = Ok p ->
  poll_result env = None ->
  (forall e, fst (health_check env None s) = Raise e -> exn_cls e <> ConnectionError) ->
  graceful_result env' = Ok tt ->
  wait_result env' (Some 5%Q) = Ok tt ->
  exists s1 s2 evs,
    __aenter__ env s = (Ok (self s1), s1)
    /\ _is_running (self s1) = true
    /\ _process (self s1) = Some p
    /\ __aexit__ env' s1 = (Ok tt, s2)
    /\ self s2 = self s
    /\ trace s2 = (trace s ++ evs)%list
    /\ spawns evs = 1%nat
    /\ graceful_signals evs = 1%nat
    /\ escalations evs = 0%nat.
Proof.
  intros Hr Hp Hpo Hpl Hprobe Hg Hw.
  destruct (health_check_frame env None s) as (r & new & Hf & Hq).
  pose proof (start_probed env 2 s p r new Hr Hpo Hpl Hf) as Hstart.
  destruct (loop_verdict env (health_url (self s)) (retry_budget None (self s))
              (Z.to_nat (retry_budget None (self s) + 1)) 0%nat s)
    as (r' & new' & Hrun & Hv).
  rewrite <- health_check_unfold, (Hf s eq_refl) in Hrun. injection Hrun as <- _.
  rewrite (Hf s eq_refl) in Hprobe. cbn in Hprobe.
  assert (Hquiet : spawns new = 0%nat /\ graceful_signals new = 0%nat
                   /\ escalations new = 0%nat).
  { clear - Hq. induction Hq as [|ev new Hev _ IH]; [repeat split|].
    destruct IH as (I1 & I2 & I3).
    unfold spawns, graceful_signals, escalations in *. cbn.
    destruct ev; try discriminate Hev; cbn; auto. }
  destruct Hquiet as (Q1 & Q2 & Q3).
  assert (Hstarted : exists tail,
             start env 2 s
             = (Ok tt, mkSt (with_fields s (Some p) true)
                            (trace s ++ spawning env s ++ [EvSleep 2; EvPoll] ++ new
                               ++ [tail]))
             /\ of_prober tail = true).
  { destruct Hv as [(-> & _)|(msg & [-> | ->])].
    - eexists; split; [exact Hstart|reflexivity].
    - exfalso. now apply (Hprobe _ eq_refl).
    - eexists; split; [exact Hstart|reflexivity]. }
  destruct Hstarted as (tail & Hstarted & Htail).
  unfold __aenter__, __aexit__, bind, get_self. rewrite Hstarted.
  set (s1 := mkSt (with_fields s (Some p) true)
                  (trace s ++ spawning env s ++ [EvSleep 2; EvPoll] ++ new ++ [tail])).
  assert (Hstop : stop env' 5 s1
                  = (Ok tt, mkSt (with_fields s None false)
                                 (trace s1 ++ [EvLog INFO "Stopping Ollama service";
                                               graceful env'; EvWait (Some 5%Q);
                                               EvLog INFO
                                                 "Ollama service stopped successfully"]))).
  { unfold stop, bind, get_self, try_except. cbn.
    unfold killpg, terminate, wait, bind, emit, modify, lift, log, emit, modify,
      set_is_running, set_process, modify, graceful_result, graceful, with_fields in *;
      cbn.
    destruct (os_name_nt env'); cbn; rewrite Hg; cbn; rewrite Hw; cbn;
      rewrite <- !app_assoc; reflexivity. }
  exists s1, (snd (stop env' 5 s1)). rewrite Hstop. cbn [snd].
  eexists. split; [reflexivity|]. split; [reflexivity|]. split; [reflexivity|].
  split; [reflexivity|]. split.
  { unfold with_fields. destruct s as [[c b pr r0] t]. cbn in *. now subst. }
  split.
  { cbn. rewrite <- !app_assoc. reflexivity. }
  unfold spawns, graceful_signals, escalations, spawning, graceful in *.
  destruct tail; try discriminate Htail; destruct (os_name_nt env'); cbn;
    rewrite !filter_app, !length_app, ?Q1, ?Q2, ?Q3; cbn; auto.
Qed.

Lemma scoped_use_restores_witness :
  exists s1 s2 evs,
    __aenter__ (posix always_503) fresh = (Ok (self s1), s1)
    /\ _is_running (self s1) = true
    /\ _process (self s1) = Some (mkPopen 4242)
    /\ __aexit__ (posix always_503) s1 = (Ok tt, s2)
    /\ self s2 = self fresh
    /\ trace s2 = (trace fresh ++ evs)%list
    /\ spawns evs = 1%nat
    /\ graceful_signals evs = 1%nat
    /\ escalations evs = 0%nat.
Proof.
  apply (scoped_use_restores (posix always_503) (posix always_503) fresh
           (mkPopen 4242)); try reflexivity.
  intros e H. injection H as <-. discriminate.
Defined.

End Shutdown.

(* ================================================================== *)
(** * Further properties of the availability prober                    *)
(* ================================================================== *)

Section ProbeLoopMore.

Import Service.

Variable env : Env.
Variable url : string.
Variable m : Z.

Local Abbreviation loop := (health_check_loop env url m).

Ltac one_iteration a :=
  let status := fresh "status" in
  let e := fresh "e" in
  let Hp := fresh "Hp" in
  destruct (probe env a) as [status|e] eqn:Hp;
  [ destruct (Z.eq_dec status 200) as [->|]
  | destruct (client_error_dec (exn_cls e));
    [ destruct (Z_lt_le_dec (Z.of_nat a) m) | ] ].

(** A run of retryable attempts is passed over, one probe each. *)
Lemma loop_skip d : forall todo a s,
  (forall j, (a <= j < a + d)%nat -> retryable (probe env j)) ->
  Z.of_nat (a + d) <= m ->
  exists evs,
    loop (d + todo) a s = loop todo (a + d)%nat (after s evs)
    /\ attempts evs = d
    /\ (sleeps evs <= d)%nat.
Proof.
  induction d as [|d IH]; intros todo a s Hall Hm.
  - exists []. rewrite after_nil, Nat.add_0_r. repeat split. cbn. lia.
  - assert (Hrest : forall j, (S a <= j < S a + d)%nat -> retryable (probe env j))
      by (intros j Hj; apply Hall; lia).
    assert (Hm' : Z.of_nat (S a + d) <= m) by lia.
    replace (a + S d)%nat with (S a + d)%nat by lia. cbn [Nat.add].
    destruct (Hall a ltac:(lia)) as [(e & Hp & Hc)|(status & Hp & Hs)].
    + rewrite (loop_retry env url m (d + todo) a s e) by (assumption || lia).
      edestruct (IH todo (S a)) as (evs & -> & Ha & Hsl); [exact Hrest|exact Hm'|].
      rewrite after_after. eexists. split; [reflexivity|].
      rewrite attempts_app, sleeps_app, Ha. cbn. split; lia.
    + rewrite (loop_unhealthy env url m (d + todo) a s status) by assumption.
      edestruct (IH todo (S a)) as (evs & -> & Ha & Hsl); [exact Hrest|exact Hm'|].
      rewrite after_after. eexists. split; [reflexivity|].
      rewrite attempts_app, sleeps_app, Ha. cbn. split; lia.
Qed.

(** The loop returns [True] exactly when a 200 comes within the budget
    and after retryable attempts only. *)
Lemma loop_success_iff todo : forall a s,
  Z.of_nat a + Z.of_nat todo = m + 1 ->
  (fst (loop todo a s) = Ok true
   <-> exists k, (a <= k)%nat /\ Z.of_nat k <= m /\ probe env k = Response 200
                 /\ forall j, (a <= j < k)%nat -> retryable (probe env j)).
Proof.
  induction todo as [|todo IH]; intros a s Hsum.
  - rewrite loop_exhausted. cbn. split; [intros H; discriminate H|].
    intros (k & Hk & Hm & _). lia.
  - assert (Hshift :
              (exists e, probe env a = Raises e /\ exn_cls e = ClientError
                         /\ Z.of_nat a < m)
              \/ (exists status, probe env a = Response status /\ status <> 200) ->
              ((exists k, (S a <= k)%nat /\ Z.of_nat k <= m
                          /\ probe env k = Response 200
                          /\ forall j, (S a <= j < k)%nat -> retryable (probe env j))
               <-> exists k, (a <= k)%nat /\ Z.of_nat k <= m
                             /\ probe env k = Response 200
                             /\ forall j, (a <= j < k)%nat -> retryable (probe env j))).
    { intros Ha. split; intros (k & Hk & Hm & H200 & Hall); exists k.
      - repeat split; try assumption; try lia.
        intros j Hj. destruct (Nat.eq_dec j a) as [->|Hne]; [|apply Hall; lia].
        destruct Ha as [(e & Hp & Hc & _)|(status & Hp & Hs)].
        + left. exists e. now split.
        + right. exists status. now split.
      - assert (k <> a).
        { intros ->. destruct Ha as [(e & Hp & _)|(status & Hp & Hs)]; congruence. }
        repeat split; try assumption; try lia. intros j Hj. apply Hall. lia. }
    one_iteration a.
    + rewrite loop_healthy by assumption. cbn. split; [intros _|reflexivity].
      exists a. repeat split; try assumption; lia.
    + erewrite loop_unhealthy by eassumption.
      rewrite IH by lia. apply Hshift. right. eauto.
    + erewrite loop_retry by eassumption.
      rewrite IH by lia. apply Hshift. left. eauto.
    + rewrite (loop_unreachable env url m todo a s e) by assumption. cbn.
      split; [intros H; discriminate H|].
      intros (k & Hk & Hm & H200 & _). assert (k = a) as -> by lia. congruence.
    + rewrite (loop_unexpected env url m todo a s e) by assumption. cbn.
      split; [intros H; discriminate H|].
      intros (k & Hk & Hm & H200 & Hall).
      destruct (Nat.eq_dec k a) as [->|Hne]; [congruence|].
      destruct (Hall a ltac:(lia)) as [(e' & Hp' & Hc')|(status & Hp' & _)]; congruence.
Qed.

(** The loop never uses more attempts than it was given, sleeps less
    often than it probes, and only ever for one second. *)
Lemma loop_bounds todo : forall a s,
  m + 1 <= Z.of_nat a + Z.of_nat todo ->
  exists r new,
    loop todo a s = (r, after s new)
    /\ (attempts new <= todo)%nat
    /\ (todo <> 0%nat -> attempts new <> 0%nat)
    /\ (sleeps new <= pred todo)%nat
    /\ (sleeps new <= pred (attempts new))%nat
    /\ Forall (fun ev => is_sleep ev = true -> ev = EvSleep 1) new.
Proof.
  induction todo as [|todo IH]; intros a s Hinv.
  - exists (fst (loop 0%nat a s)), []. split; [now rewrite after_nil|].
    repeat split; cbn; auto.
  - one_iteration a.
    + rewrite loop_healthy by assumption. do 2 eexists. split; [reflexivity|].
      cbn. repeat split; try lia. repeat constructor; discriminate.
    + erewrite loop_unhealthy by eassumption.
      destruct (IH (S a) (after s [EvProbe a url;
                  EvLog WARNING ("Health check returned status " ++ str_int status)]))
        as (r & new & -> & Ha & Hpos & Hs & Hsa & Hone); [lia|].
      rewrite after_after. do 2 eexists. split; [reflexivity|].
      rewrite attempts_app, sleeps_app. cbn.
      split; [lia|]. split; [lia|]. split; [lia|]. split; [lia|].
      repeat constructor; try discriminate. assumption.
    + erewrite loop_retry by eassumption.
      destruct (IH (S a) (after s [EvProbe a url;
                  EvLog DEBUG ("Health check attempt " ++ str_int (Z.of_nat a + 1)
                                 ++ " failed: " ++ str_exn e);
                  EvSleep 1]))
        as (r & new & -> & Ha & Hpos & Hs & Hsa & Hone); [lia|].
      assert (attempts new <> 0%nat) as Hnext by (apply Hpos; lia).
      rewrite after_after. do 2 eexists. split; [reflexivity|].
      rewrite attempts_app, sleeps_app. cbn.
      split; [lia|]. split; [lia|]. split; [lia|]. split; [lia|].
      repeat constructor; try discriminate; auto.
    + rewrite (loop_unreachable env url m todo a s e) by assumption.
      do 2 eexists. split; [reflexivity|].
      cbn. repeat split; try lia. repeat constructor; discriminate.
    + rewrite (loop_unexpected env url m todo a s e) by assumption.
      do 2 eexists. split; [reflexivity|].
      cbn. repeat split; try lia. repeat constructor; discriminate.
Qed.

End ProbeLoopMore.

Section ProberMore.

Import Service.

(** X10. Whatever the probe does, health_check makes at most retries+1
    attempts and sleeps at most retries times, always for one time unit
    and less often than it probes; with a negative budget it makes no
    attempt at all and raises HealthCheckError at once. *)
Theorem health_check_bounded (env : Env) (retries : option Z) (s : st) :
  exists r new,
    health_check env retries s = (r, after s new)
    /\ Z.of_nat (attempts new) <= Z.max 0 (retry_budget retries (self s) + 1)
    /\ Z.of_nat (sleeps new) <= Z.max 0 (retry_budget retries (self s))
    /\ (sleeps new <= pred (attempts new))%nat
    /\ Forall (fun ev => is_sleep ev = true -> ev = EvSleep 1) new
    /\ (retry_budget retries (self s) < 0 ->
        new = [] /\ exists msg, r = Raise (mkExn HealthCheckError msg)).
Proof.
  rewrite health_check_unfold.
  destruct (loop_bounds env (health_url (self s)) (retry_budget retries (self s))
              (Z.to_nat (retry_budget retries (self s) + 1)) 0%nat s)
    as (r & new & Hrun & Ha & _ & Hs & Hsa & Hone); [lia|].
  exists r, new. split; [assumption|]. split; [lia|]. split; [lia|].
  split; [assumption|]. split; [assumption|].
  intros Hneg.
  replace (Z.to_nat (retry_budget retries (self s) + 1)) with 0%nat in Hrun by lia.
  rewrite loop_exhausted in Hrun. injection Hrun as <- Hnew.
  split; [|eexists; reflexivity].
  unfold after in Hnew. destruct s as [o t]. cbn in Hnew.
  injection Hnew as Hnew. rewrite <- (app_nil_r t) in Hnew at 1.
  now apply app_inv_head in Hnew.
Qed.

(** X11. health_check returns True exactly when some attempt within the
    budget is answered with HTTP 200 and every attempt before it was
    retryable (a connection failure or a non-200 response); it has then
    made exactly that many attempts plus one. *)
Theorem health_check_succeeds_iff (env : Env) (retries : option Z) (s : st) :
  (fst (health_check env retries s) = Ok true
   <-> exists k, Z.of_nat k <= retry_budget retries (self s)
                 /\ probe env k = Response 200
                 /\ forall j, (j < k)%nat -> retryable (probe env j))
  /\ (forall k, Z.of_nat k <= retry_budget retries (self s) ->
                probe env k = Response 200 ->
                (forall j, (j < k)%nat -> retryable (probe env j)) ->
                exists new,
                  health_check env retries s = (Ok true, after s new)
                  /\ attempts new = S k).
Proof.
  rewrite health_check_unfold.
  set (m := retry_budget retries (self s)). set (url := health_url (self s)).
  split.
  - destruct (Z_lt_le_dec (m + 1) 0) as [Hneg|Hpos].
    + replace (Z.to_nat (m + 1)) with 0%nat by lia. rewrite loop_exhausted. cbn.
      split; [intros H; discriminate H|]. intros (k & Hk & _). lia.
    + rewrite (loop_success_iff env url m (Z.to_nat (m + 1)) 0%nat s) by lia.
      split; intros (k & H); exists k.
      * destruct H as (_ & Hm & H200 & Hall). repeat split; try assumption.
        intros j Hj. apply Hall. lia.
      * destruct H as (Hm & H200 & Hall). repeat split; try assumption; try lia.
        intros j Hj. apply Hall. lia.
  - intros k Hk H200 Hall.
    replace (Z.to_nat (m + 1)) with (k + S (Z.to_nat (m - Z.of_nat k)))%nat by lia.
    destruct (loop_skip env url m k (S (Z.to_nat (m - Z.of_nat k))) 0%nat s)
      as (evs & -> & Ha & _).
    + intros j Hj. apply Hall. lia.
    + cbn. lia.
    + cbn [Nat.add]. rewrite loop_healthy by assumption. rewrite after_after.
      eexists. split; [reflexivity|]. rewrite attempts_app, Ha. cbn. lia.
Qed.

Lemma health_check_succeeds_iff_witness :
  exists new,
    health_check (posix status_503_then_200) None fresh = (Ok true, after fresh new)
    /\ attempts new = 2%nat.
Proof.
  apply (proj2 (health_check_succeeds_iff (posix status_503_then_200) None fresh)
           1%nat).
  - cbn. lia.
  - reflexivity.
  - intros j Hj. assert (j = 0%nat) as -> by lia.
    right. exists 503. split; [reflexivity|discriminate].
Defined.

(** X12. An attempt that fails with anything but a client error ends the
    health check at once, whatever is left of the budget: when the
    attempts before it were retryable, health_check raises
    HealthCheckError carrying the cause and has made no attempt after
    it. *)
Theorem health_check_unexpected_aborts (env : Env) (retries : option Z) (s : st)
        (k : nat) (e : exn) :
  Z.of_nat k <= retry_budget retries (self s) ->
  (forall j, (j < k)%nat -> retryable (probe env j)) ->
  probe env k = Raises e ->
  exn_cls e <> ClientError ->
  exists new,
    health_check env retries s
    = (Raise (mkExn HealthCheckError ("Health check failed: " ++ str_exn e)),
       after s new)
    /\ attempts new = S k.
Proof.
  intros Hk Hall Hp Hc. rewrite health_check_unfold.
  set (m := retry_budget retries (self s)) in *. set (url := health_url (self s)).
  replace (Z.to_nat (m + 1)) with (k + S (Z.to_nat (m - Z.of_nat k)))%nat by lia.
  destruct (loop_skip env url m k (S (Z.to_nat (m - Z.of_nat k))) 0%nat s)
    as (evs & -> & Ha & _).
  - intros j Hj. apply Hall. lia.
  - cbn. lia.
  - cbn [Nat.add]. rewrite (loop_unexpected env url m _ k _ e) by assumption.
    rewrite after_after. eexists. split; [reflexivity|].
    rewrite attempts_app, Ha. cbn. lia.
Qed.

Lemma health_check_unexpected_aborts_witness :
  exists new,
    health_check
      (posix (fun k => match k with
                       | O => refused
                       | _ => Raises timeout_error
                       end))
      (Some 5) fresh
    = (Raise (mkExn HealthCheckError ("Health check failed: " ++ "")),
       after fresh new)
    /\ attempts new = 2%nat.
Proof.
  apply (health_check_unexpected_aborts
           (posix (fun k => match k with
                            | O => refused
                            | _ => Raises timeout_error
                            end))
           (Some 5) fresh 1%nat timeout_error).
  - cbn. lia.
  - intros j Hj. assert (j = 0%nat) as -> by lia.
    left. exists (mkExn ClientError "Cannot connect to host localhost:11434").
    split; reflexivity.
  - reflexivity.
  - discriminate.
Defined.

(** X13. When every attempt but the last was retryable, the last attempt
    alone decides the error: a connection failure there gives
    ConnectionError, a non-200 response there gives HealthCheckError
    naming the number of attempts, whatever the earlier attempts were. *)
Theorem health_check_last_attempt_decides (env : Env) (n : Z) (s : st) :
  0 <= n ->
  (forall j, Z.of_nat j < n -> retryable (probe env j)) ->
  (connection_failure (probe env (Z.to_nat n)) ->
   exists msg new,
     health_check env (Some n) s = (Raise (mkExn ConnectionError msg), after s new)
     /\ Z.of_nat (attempts new) = n + 1)
  /\ (unhealthy_response (probe env (Z.to_nat n)) ->
      exists new,
        health_check env (Some n) s
        = (Raise (mkExn HealthCheckError
                    ("Health check failed after " ++ str_int (n + 1) ++ " attempts")),
           after s new)
        /\ Z.of_nat (attempts new) = n + 1).
Proof.
  intros Hn Hall. rewrite health_check_unfold. cbn [retry_budget].
  set (url := health_url (self s)).
  replace (Z.to_nat (n + 1)) with (Z.to_nat n + 1)%nat by lia.
  destruct (loop_skip env url n (Z.to_nat n) 1%nat 0%nat s) as (evs & Hrun & Ha & _).
  - intros j Hj. apply Hall. lia.
  - cbn. lia.
  - rewrite Hrun. cbn [Nat.add]. split.
    + intros (e & Hp & Hc).
      rewrite (loop_unreachable env url n 0 (Z.to_nat n) _ e) by (assumption || lia).
      rewrite after_after. do 2 eexists. split; [reflexivity|].
      rewrite attempts_app, Ha. cbn. lia.
    + intros (status & Hp & Hs).
      rewrite (loop_unhealthy env url n 0 (Z.to_nat n) _ status) by assumption.
      rewrite loop_exhausted, after_after. eexists. split; [reflexivity|].
      rewrite attempts_app, Ha. cbn. lia.
Qed.

Lemma health_check_last_attempt_decides_witness :
  exists new,
    health_check
      (posix (fun k => match k with
                       | 2%nat => Response 503
                       | _ => refused
                       end))
      (Some 2) fresh
    = (Raise (mkExn HealthCheckError "Health check failed after 3 attempts"),
       after fresh new)
    /\ Z.of_nat (attempts new) = 2 + 1.
Proof.
  refine (proj2 (health_check_last_attempt_decides
                   (posix (fun k => match k with
                                    | 2%nat => Response 503
                                    | _ => refused
                                    end))
                   2 fresh _ _) _).
  - lia.
  - intros j Hj. left.
    exists (mkExn ClientError "Cannot connect to host localhost:11434").
    split; [|reflexivity]. destruct j as [|[|j]]; [reflexivity|reflexivity|lia].
  - exists 503. split; [reflexivity|discriminate].
Defined.

(** The result of get_models, by what the GET and the body come to. *)
Lemma get_models_run (env : Env) (body : res json) (s : st) :
  get_models env body s
  = (match probe env 0%nat with
     | Response status =>
         if status =? 200
         then match body with
              | Ok document => Ok document
              | Raise e => Raise (surfaced e)
              end
         else Raise (mkExn ConnectionError
                       ("Failed to get models: HTTP " ++ str_int status))
     | Raises e => Raise (surfaced e)
     end,
     after s [EvProbe 0 (health_url (self s))]).
Proof.
  unfold get_models, try_except, bind, get_self, emit, modify, lift, raise, after,
    surfaced.
  cbn.
  destruct (probe env 0%nat) as [status|e].
  - destruct (status =? 200); [|reflexivity].
    destruct body as [document|e]; [reflexivity|].
    now destruct (exn_cls e).
  - now destruct (exn_cls e).
Qed.

(** After a client error at attempt 0 a health check with a retry left
    goes on to a second attempt. *)
Lemma health_check_second_attempt (env : Env) (retries : option Z) (s : st) :
  connection_failure (probe env 0%nat) ->
  1 <= retry_budget retries (self s) ->
  exists r new,
    health_check env retries s = (r, after s new) /\ (2 <= attempts new)%nat.
Proof.
  intros (e & Hp & Hc) Hbudget.
  rewrite health_check_unfold.
  set (m := retry_budget retries (self s)) in *.
  replace (Z.to_nat (m + 1)) with (S (S (Z.to_nat (m - 1)))) by lia.
  rewrite (loop_retry env (health_url (self s)) m _ 0%nat s e Hp Hc) by lia.
  destruct (loop_bounds env (health_url (self s)) m (S (Z.to_nat (m - 1))) 1%nat
              (after s [EvProbe 0 (health_url (self s));
                        EvLog DEBUG ("Health check attempt "
                                       ++ str_int (Z.of_nat 0 + 1)
                                       ++ " failed: " ++ str_exn e);
                        EvSleep 1]))
    as (r' & new & Hrun & _ & Hsome & _); [lia|].
  rewrite Hrun, after_after. do 2 eexists. split; [reflexivity|].
  rewrite attempts_app. cbn.
  assert (attempts new <> 0%nat) by (apply Hsome; discriminate). lia.
Qed.

(** X14. get_models sends exactly one GET, to the URL of the probe,
    whatever comes of it: it never sleeps, writes no log line and leaves
    the supervisor as it is.  It returns a document exactly when the
    response has status 200 and its body parses to that document.  Any
    other status raises ConnectionError; an exception of the request or
    of the body is raised as ConnectionError when it is a client error
    and as it is otherwise.  In particular a connection failure that
    health_check, with one retry or more, answers with a second attempt
    ends get_models at once. *)
Theorem get_models_outcomes (env : Env) (body : res json) (s : st) :
  exists r,
    get_models env body s = (r, after s [EvProbe 0 (health_url (self s))])
    /\ (forall document,
          r = Ok document <-> probe env 0%nat = Response 200 /\ body = Ok document)
    /\ (forall status,
          probe env 0%nat = Response status -> status <> 200 ->
          r = Raise (mkExn ConnectionError
                       ("Failed to get models: HTTP " ++ str_int status)))
    /\ (forall e,
          probe env 0%nat = Raises e
          \/ (probe env 0%nat = Response 200 /\ body = Raise e) ->
          (exn_cls e = ClientError ->
           r = Raise (mkExn ConnectionError
                        ("Failed to connect to Ollama service: " ++ str_exn e)))
          /\ (exn_cls e <> ClientError -> r = Raise e))
    /\ (connection_failure (probe env 0%nat) ->
        exists msg, r = Raise (mkExn ConnectionError msg))
    /\ (connection_failure (probe env 0%nat) ->
        forall retries,
          1 <= retry_budget retries (self s) ->
          exists r' new,
            health_check env retries s = (r', after s new)
            /\ (2 <= attempts new)%nat).
Proof.
  eexists. split; [apply get_models_run|].
  split; [|split; [|split; [|split]]].
  - intros document. split.
    + intros H. destruct (probe env 0%nat) as [status|e]; [|discriminate H].
      destruct (status =? 200) eqn:Hs; [|discriminate H].
      apply Z.eqb_eq in Hs. subst status.
      destruct body as [d|e]; [|discriminate H]. now injection H as ->.
    + intros (Hp & Hb). now rewrite Hp, Hb.
  - intros status Hp Hne. rewrite Hp.
    apply Z.eqb_neq in Hne. now rewrite Hne.
  - intros e Hcause.
    assert (Hr : (match probe env 0%nat with
                  | Response status =>
                      if status =? 200
                      then match body with
                           | Ok document => Ok document
                           | Raise e => Raise (surfaced e)
                           end
                      else Raise (mkExn ConnectionError
                                    ("Failed to get models: HTTP " ++ str_int status))
                  | Raises e => Raise (surfaced e)
                  end) = Raise (surfaced e)).
    { destruct Hcause as [Hp|(Hp & Hb)]; rewrite Hp; [reflexivity|]. now rewrite Hb. }
    rewrite Hr. unfold surfaced. split.
    + intros Hc. now rewrite Hc.
    + intros Hc. destruct (exn_cls e); try reflexivity. now elim Hc.
  - intros (e & Hp & Hc). rewrite Hp. unfold surfaced. rewrite Hc.
    eexists. reflexivity.
  - intros H retries Hbudget. now apply health_check_second_attempt.
Qed.

End ProberMore.

(* ================================================================== *)
(** * Properties of connecting and disconnecting                       *)
(* ================================================================== *)

Section ConnectionProps.

Import Router.

Ltac run_connection :=
  unfold connect, disconnect, _connect_clickhouse, _connect_postgres, try_except,
    bind, lift, ret, raise, get, modify, say, set_clickhouse_client,
    set_session_factory, set_engine, set_connected, modify;
  cbn.

(** Case analysis on what the drivers return, in program order. *)
Ltac outcome :=
  match goal with
  | |- context [match ?x with _ => _ end] =>
      lazymatch x with
      | context [match _ with _ => _ end] => fail
      | _ => destruct x eqn:?; cbn
      end
  end.

Ltac outcomes := repeat outcome.

(** What connect changes, by its result. *)
Lemma connect_effect (drivers : Drivers) (env : Env) (s : ms) :
  config (manager (snd (connect drivers env s))) = config (manager s)
  /\ _start_time (manager (snd (connect drivers env s))) = _start_time (manager s)
  /\ (fst (connect drivers env s) = Ok tt ->
      _connected (manager (snd (connect drivers env s))) = true)
  /\ (forall e, fst (connect drivers env s) = Raise e ->
      _connected (manager (snd (connect drivers env s))) = _connected (manager s))
  /\ (engine_behind_factory s -> engine_behind_factory (snd (connect drivers env s))).
Proof.
  unfold engine_behind_factory. run_connection.
  destruct (wants_clickhouse (config (manager s))) eqn:Hch;
    destruct (wants_postgres (config (manager s))) eqn:Hpg; cbn; outcomes;
    repeat split; try reflexivity; try congruence; try (intros; discriminate);
    try (intros; assumption); auto.
Qed.

(** X16. connect marks the manager connected exactly when it returns;
    when it raises, the flag is as before.  It never touches the
    configuration or the start time, touches the ClickHouse client only
    when the exporter type is clickhouse or both, the Postgres engine and
    session factory only when it is postgres or both, and never leaves a
    session factory without its engine. *)
Theorem connect_outcome (drivers : Drivers) (env : Env) (s : ms) :
  let r := fst (connect drivers env s) in
  let s' := snd (connect drivers env s) in
  config (manager s') = config (manager s)
  /\ _start_time (manager s') = _start_time (manager s)
  /\ (r = Ok tt -> _connected (manager s') = true)
  /\ (forall e, r = Raise e -> _connected (manager s') = _connected (manager s))
  /\ (wants_clickhouse (config (manager s)) = false ->
      _clickhouse_client (manager s') = _clickhouse_client (manager s))
  /\ (wants_postgres (config (manager s)) = false ->
      _postgres_engine s' = _postgres_engine s
      /\ _postgres_session_factory (manager s')
         = _postgres_session_factory (manager s))
  /\ (engine_behind_factory s -> engine_behind_factory s').
Proof.
  cbv zeta. unfold engine_behind_factory. run_connection.
  destruct (wants_clickhouse (config (manager s))) eqn:Hch;
    destruct (wants_postgres (config (manager s))) eqn:Hpg; cbn; outcomes;
    repeat split; try reflexivity; try congruence; try (intros; discriminate);
    try (intros; assumption); auto.
Qed.

(** X17. With an exporter type that is none of clickhouse, postgres and
    both, connect consults no driver, installs no backend and still
    returns with the manager marked connected. *)
Theorem connect_unknown_exporter (drivers : Drivers) (env : Env) (s : ms) :
  wants_clickhouse (config (manager s)) = false ->
  wants_postgres (config (manager s)) = false ->
  connect drivers env s
  = (Ok tt,
     mkMs (mkManager (config (manager s)) (_clickhouse_client (manager s))
                     (_postgres_session_factory (manager s)) true
                     (_start_time (manager s)))
          (_postgres_engine s)
          (lines s ++ [(INFO, "Database connections established (type: "
                                ++ exporter_type (config (manager s)) ++ ")")])).
Proof.
  intros Hch Hpg. run_connection. rewrite Hch, Hpg. reflexivity.
Qed.

Lemma connect_unknown_exporter_witness :
  connect (unreachable_clickhouse lost_clickhouse (postgres_over [] 0)) hourly
          (new_manager (config_for "none") 0)
  = (Ok tt,
     mkMs (mkManager (config_for "none") None None true 0) None
          [(INFO, "Database connections established (type: none)")]).
Proof.
  apply (connect_unknown_exporter
           (unreachable_clickhouse lost_clickhouse (postgres_over [] 0)) hourly
           (new_manager (config_for "none") 0)); reflexivity.
Defined.

(** X18. When the ClickHouse client is built but the server fails the
    test statement, connect raises that very exception, logs it twice,
    does not try Postgres and does not mark the manager connected; the
    client nevertheless stays installed, so that with exporter type
    clickhouse or both the queries are routed to it. *)
Theorem connect_failed_test_keeps_client (drivers : Drivers) (env : Env) (s : ms)
        (c : ClickHouseClient) (e : exn) :
  wants_clickhouse (config (manager s)) = true ->
  import_clickhouse_driver drivers = Ok tt ->
  new_clickhouse_client drivers
    (clickhouse_host (config (manager s))) (clickhouse_port (config (manager s)))
    (clickhouse_database (config (manager s))) (clickhouse_user (config (manager s)))
    (clickhouse_password (config (manager s))) = Ok c ->
  clickhouse_select1 drivers c = Raise e ->
  connect drivers env s
  = (Raise e,
     mkMs (with_clickhouse_client (manager s) (Some c)) (_postgres_engine s)
          (lines s ++ [(ERROR, "Failed to connect to ClickHouse: " ++ str_exn e);
                       (ERROR, "Failed to connect to database: " ++ str_exn e)]))
  /\ use_clickhouse (with_clickhouse_client (manager s) (Some c)) = true.
Proof.
  intros Hch Himp Hnew Htest. split.
  - run_connection. rewrite Hch. cbn. rewrite Himp. cbn. rewrite Hnew. cbn.
    rewrite Htest. cbn. unfold with_clickhouse_client.
    now rewrite <- app_assoc.
  - unfold use_clickhouse, with_clickhouse_client. cbn.
    unfold wants_clickhouse in Hch. rewrite Hch. reflexivity.
Qed.

Lemma connect_failed_test_keeps_client_witness :
  connect (unreachable_clickhouse lost_clickhouse (postgres_over [] 0)) hourly
          (new_manager (config_for "both") 0)
  = (Raise driver_error,
     mkMs (with_clickhouse_client (manager (new_manager (config_for "both") 0))
                                  (Some lost_clickhouse))
          None
          [(ERROR, "Failed to connect to ClickHouse: " ++ str_exn driver_error);
           (ERROR, "Failed to connect to database: " ++ str_exn driver_error)])
  /\ use_clickhouse
       (with_clickhouse_client (manager (new_manager (config_for "both") 0))
                               (Some lost_clickhouse)) = true.
Proof.
  apply (connect_failed_test_keeps_client
           (unreachable_clickhouse lost_clickhouse (postgres_over [] 0)) hourly
           (new_manager (config_for "both") 0) lost_clickhouse driver_error);
    reflexivity.
Defined.

(** disconnect on a state whose session factory has its engine. *)
Lemma disconnect_run (drivers : Drivers) (s : ms) :
  engine_behind_factory s ->
  exists lns,
    disconnect drivers s
    = (Ok tt,
       mkMs (mkManager (config (manager s)) None None false (_start_time (manager s)))
            None (lines s ++ lns)).
Proof.
  unfold engine_behind_factory. intros Hinv. run_connection.
  destruct (_clickhouse_client (manager s)) as [c|] eqn:Hc; cbn;
    [destruct (clickhouse_disconnect drivers c) as [[]|e]; cbn|];
    (destruct (_postgres_engine s) as [eng|] eqn:He; cbn;
     [destruct (engine_dispose eng) as [[]|e']; cbn|]);
    rewrite ?Hc, <- ?app_assoc; try (eexists; reflexivity).
  all: destruct (_postgres_session_factory (manager s)) eqn:Hf; cbn in *;
    [specialize (Hinv eq_refl); discriminate Hinv
    |rewrite ?He, ?Hf; eexists; reflexivity].
Qed.

Lemma run_mcall_invariant (c : mcall) (s : ms) :
  engine_behind_factory s ->
  engine_behind_factory (run_mcall c s)
  /\ config (manager (run_mcall c s)) = config (manager s)
  /\ _start_time (manager (run_mcall c s)) = _start_time (manager s).
Proof.
  intros Hinv. destruct c as [drivers env|drivers]; cbn [run_mcall].
  - destruct (connect_effect drivers env s) as (H1 & H2 & _ & _ & H7).
    auto.
  - destruct (disconnect_run drivers s Hinv) as (lns & ->). cbn.
    repeat split. unfold engine_behind_factory. cbn. intros H; discriminate H.
Qed.

Lemma run_mcalls_invariant (cs : list mcall) : forall s,
  engine_behind_factory s ->
  engine_behind_factory (run_mcalls cs s)
  /\ config (manager (run_mcalls cs s)) = config (manager s)
  /\ _start_time (manager (run_mcalls cs s)) = _start_time (manager s).
Proof.
  induction cs as [|c cs IH]; intros s Hinv; [cbn; auto|].
  cbn [run_mcalls fold_left].
  destruct (run_mcall_invariant c s Hinv) as (H1 & H2 & H3).
  destruct (IH (run_mcall c s) H1) as (H4 & H5 & H6).
  unfold run_mcalls in *. split; [assumption|]. split; congruence.
Qed.

(** X19. Whatever connect and disconnect calls a new manager has been
    through, and whatever the drivers raise while closing, disconnect
    returns and leaves no client, no engine and no session factory, with
    the manager marked not connected and its configuration and start time
    as at creation; every query then gives the empty result. *)
Theorem disconnect_clears (cs : list mcall) (cfg : DatabaseConfig) (now : Z)
        (drivers : Drivers) :
  exists lns,
    disconnect drivers (run_mcalls cs (new_manager cfg now))
    = (Ok tt, mkMs (mkManager cfg None None false now) None lns)
    /\ forall env time_range granularity limit offset status model s,
         get_history env (mkManager cfg None None false now) time_range granularity s
         = (Ok [], s)
         /\ get_logs env (mkManager cfg None None false now) limit offset status model s
            = (Ok empty_logs, s)
         /\ get_model_stats env (mkManager cfg None None false now) s = (Ok [], s)
         /\ get_current_stats env (mkManager cfg None None false now) s
            = _get_empty_stats env (mkManager cfg None None false now) s.
Proof.
  destruct (run_mcalls_invariant cs (new_manager cfg now)) as (Hinv & Hc & Ht).
  { unfold engine_behind_factory. cbn. intros H; discriminate H. }
  destruct (disconnect_run drivers _ Hinv) as (lns & ->).
  rewrite Hc, Ht. cbn. eexists. split; [reflexivity|].
  intros. unfold get_history, get_logs, get_model_stats, get_current_stats.
  rewrite use_clickhouse_none by reflexivity. cbn. auto.
Qed.

End ConnectionProps.

(* ================================================================== *)
(** * Rounding to the nearest double                                   *)
(* ================================================================== *)

Section Floats.

(** Rounding to an integer moves a number by at most a half. *)
Lemma round_half_even_error (q : Q) :
  (Qabs (inject_Z (round_half_even q) - q) <= 1 # 2)%Q.
Proof.
  unfold round_half_even.
  pose proof (Qfloor_le q) as Hlo. pose proof (Qlt_floor q) as Hhi.
  rewrite inject_Z_plus in Hhi. change (inject_Z 1) with 1%Q in Hhi.
  apply Qabs_Qle_condition.
  destruct (Qcompare (q - inject_Z (Qfloor q)) (1 # 2)) eqn:Hc.
  - apply Qeq_alt in Hc.
    destruct (Z.even (Qfloor q)); rewrite ?inject_Z_plus;
      change (inject_Z 1) with 1%Q; split; lra.
  - apply Qlt_alt in Hc. split; lra.
  - apply Qgt_alt in Hc. rewrite inject_Z_plus. change (inject_Z 1) with 1%Q.
    split; lra.
Qed.

Lemma Qpower2_pos (e : Z) : (0 < Qpower 2 e)%Q.
Proof. apply Qpower_0_lt. reflexivity. Qed.

(** [binade] is no larger than the binary logarithm. *)
Lemma binade_le (q : Q) : ~ (q == 0)%Q -> (Qpower 2 (binade q) <= Qabs q)%Q.
Proof.
  intros Hq. unfold binade.
  set (n := Z.abs (Qnum q)). set (d := Zpos (Qden q)).
  destruct (Qle_bool (Qpower 2 (Z.log2 n - Z.log2 d)) (Qabs q)) eqn:Hb.
  - now apply Qle_bool_iff.
  - assert (Hn : 0 < n).
    { subst n. destruct q as [a b]. cbn in *.
      assert (a <> 0) by (intros ->; apply Hq; reflexivity).
      lia. }
    assert (Hd : 0 < d) by (subst d; lia).
    assert (Habs : (Qabs q == inject_Z n / inject_Z d)%Q).
    { subst n d. destruct q as [a b]. cbn [Qabs Qnum Qden]. apply Qmake_Qdiv. }
    rewrite Habs.
    pose proof (Z.log2_nonneg n) as Hln. pose proof (Z.log2_nonneg d) as Hld.
    replace (Z.log2 n - Z.log2 d - 1) with (Z.log2 n + - (Z.log2 d + 1)) by lia.
    rewrite Qpower_plus by discriminate.
    rewrite Qpower_opp.
    change 2%Q with (inject_Z 2).
    rewrite <- !Zpower_Qpower by lia.
    pose proof (Z.log2_spec n Hn) as (Hn1 & _).
    pose proof (Z.log2_spec d Hd) as (_ & Hd2).
    replace (Z.succ (Z.log2 d)) with (Z.log2 d + 1) in Hd2 by lia.
    set (A := inject_Z (2 ^ Z.log2 n)). set (B := inject_Z (2 ^ (Z.log2 d + 1))).
    assert (H1 : (A <= inject_Z n)%Q) by (subst A; rewrite <- Zle_Qle; lia).
    assert (H2 : (inject_Z d <= B)%Q) by (subst B; rewrite <- Zle_Qle; lia).
    assert (H3 : (0 < inject_Z d)%Q) by (rewrite <- (Zlt_Qlt 0); lia).
    assert (H4 : (0 < A)%Q).
    { subst A. rewrite <- (Zlt_Qlt 0). apply Z.pow_pos_nonneg; lia. }
    assert (H5 : (0 < B)%Q) by lra.
    apply Qle_shift_div_l; [assumption|].
    assert (H6 : (inject_Z d / B <= 1)%Q) by (apply Qle_shift_div_r; [assumption|lra]).
    assert (H7 : (A * / B * inject_Z d == A * (inject_Z d / B))%Q)
      by (field; lra).
    rewrite H7.
    assert (H8 : (A * (inject_Z d / B) <= A * 1)%Q).
    { apply Qmult_le_compat_nonneg; split; try lra.
      apply Qle_shift_div_l; [assumption|lra]. }
    lra.
Qed.

(** A rounded quotient is within half a unit in the last place. *)
Lemma fl_error (q : Q) :
  (Qabs (fl q - q) <= Qabs q * (1 # 2 ^ 53) + Qpower 2 (-1075))%Q.
Proof.
  unfold fl. destruct (Qeq_bool q 0) eqn:Hz.
  - apply Qeq_bool_eq in Hz. rewrite Hz. vm_compute. discriminate.
  - apply Qeq_bool_neq in Hz.
    set (e := Z.max (binade q - 52) (-1074)).
    pose proof (Qpower2_pos e) as HP.
    pose proof (round_half_even_error (q / Qpower 2 e)) as Hr.
    set (r := inject_Z (round_half_even (q / Qpower 2 e))) in *.
    assert (Hdiff : (r * Qpower 2 e - q == (r - q / Qpower 2 e) * Qpower 2 e)%Q)
      by (field; lra).
    rewrite Hdiff, Qabs_Qmult, (Qabs_pos (Qpower 2 e)) by lra.
    assert (Hhalf : (Qabs (r - q / Qpower 2 e) * Qpower 2 e <= (1 # 2) * Qpower 2 e)%Q).
    { apply Qmult_le_compat_r; lra. }
    assert (Hstep : ((1 # 2) * Qpower 2 e
                     <= Qabs q * (1 # 2 ^ 53) + Qpower 2 (-1075))%Q).
    { pose proof (binade_le q Hz) as Hb.
      pose proof (Qabs_nonneg q) as Hq0.
      subst e. destruct (Z.max_spec (binade q - 52) (-1074)) as [(_ & ->)|(_ & ->)].
      - assert (Heta : ((1 # 2) * Qpower 2 (-1074) == Qpower 2 (-1075))%Q)
          by (vm_compute; reflexivity).
        rewrite Heta.
        assert (0 <= Qabs q * (1 # 2 ^ 53))%Q by (apply Qmult_le_0_compat; [assumption|discriminate]).
        lra.
      - replace (binade q - 52) with (binade q + -52) by lia.
        rewrite Qpower_plus by discriminate.
        assert (Hc : ((1 # 2) * (Qpower 2 (binade q) * Qpower 2 (-52))
                      == Qpower 2 (binade q) * (1 # 2 ^ 53))%Q).
        { assert (Hk : (Qpower 2 (-52) == 2 * (1 # 2 ^ 53))%Q) by (vm_compute; reflexivity).
          rewrite Hk. ring. }
        rewrite Hc.
        assert (Qpower 2 (binade q) * (1 # 2 ^ 53) <= Qabs q * (1 # 2 ^ 53))%Q
          by (apply Qmult_le_compat_r; [assumption|discriminate]).
        assert (0 < Qpower 2 (-1075))%Q by apply Qpower2_pos.
        lra. }
    lra.
Qed.

Lemma Qabs_inject_Z_ge1 (z : Z) : z <> 0 -> (1 <= Qabs (inject_Z z))%Q.
Proof.
  intros Hz. unfold inject_Z, Qabs, Qle. cbn. lia.
Qed.

Ltac numeral p :=
  let v := eval vm_compute in p in change p with v in *.

Lemma tiny_small : (0 < Qpower 2 (-1075) /\ Qpower 2 (-1075) <= 1 # 2 ^ 200)%Q.
Proof. split; vm_compute; [reflexivity|discriminate]. Qed.

(** Microseconds turned into hours by the two divisions of the source
    are within one part in [2^51] of the exact number of hours. *)
Lemma double_quotients_close (us : Z) :
  (Qabs (fl (fl (inject_Z us / 1000000) / 3600) - inject_Z us / 3600000000)
   <= Qabs (inject_Z us / 3600000000) * (1 # 2 ^ 51))%Q.
Proof.
  destruct (Z.eq_dec us 0) as [->|Hnz]; [vm_compute; discriminate|].
  set (x := (inject_Z us / 1000000)%Q).
  pose proof (fl_error x) as E1.
  pose proof (fl_error (fl x / 3600)) as E2.
  set (s := fl x) in *. set (h := fl (s / 3600)) in *.
  pose proof (Qabs_inject_Z_ge1 us Hnz) as Hus.
  set (a := Qabs (inject_Z us)) in *.
  assert (Hax : (Qabs x == a / 1000000)%Q).
  { subst x a. unfold Qdiv. rewrite Qabs_Qmult. reflexivity. }
  assert (Hex : (Qabs (inject_Z us / 3600000000) == a / 3600000000)%Q).
  { subst a. unfold Qdiv. rewrite Qabs_Qmult. reflexivity. }
  assert (Hxe : (inject_Z us / 3600000000 == x / 3600)%Q) by (subst x; field).
  rewrite Hex, Hxe. rewrite Hax in E1.
  pose proof (Qle_Qabs x) as H1. pose proof (Qle_Qabs (- x)) as H2.
  rewrite Qabs_opp in H2. rewrite Hax in H1, H2.
  destruct tiny_small as (Heta0 & Heta).
  clearbody x s h a. clear Hax Hex Hxe Hnz.
  generalize dependent (Qpower 2 (-1075)). intros eta E1 E2 Heta0 Heta.
  numeral (2 ^ 53)%positive. numeral (2 ^ 51)%positive. numeral (2 ^ 200)%positive.
  unfold Qdiv in *.
  change (/ 1000000)%Q with (1 # 1000000)%Q in *.
  change (/ 3600)%Q with (1 # 3600)%Q in *.
  change (/ 3600000000)%Q with (1 # 3600000000)%Q in *.
  apply Qabs_Qle_condition in E1. destruct E1 as (E1a & E1b).
  assert (Hs : (Qabs (s * (1 # 3600))
                <= (a * (1 # 1000000)
                    + (a * (1 # 1000000) * (1 # 9007199254740992) + eta))
                   * (1 # 3600))%Q).
  { apply Qabs_Qle_condition. split; lra. }
  assert (E2' : (Qabs (h - s * (1 # 3600))
                 <= (a * (1 # 1000000)
                     + (a * (1 # 1000000) * (1 # 9007199254740992) + eta))
                    * (1 # 3600) * (1 # 9007199254740992) + eta)%Q) by lra.
  apply Qabs_Qle_condition in E2'. destruct E2' as (E2a & E2b).
  apply Qabs_Qle_condition. split; lra.
Qed.

End Floats.

(* ================================================================== *)
(** * The snapshot of a manager without backend                        *)
(* ================================================================== *)

Section Uptime.

Import Router.

(** C5. A manager made by the constructor and taken through any connect
    and disconnect calls, once it holds neither a ClickHouse client nor a
    Postgres session factory, answers get_current_stats without raising:
    the counters and rates of the snapshot are zero, and uptime_hours is
    the time between the clock reading of the constructor and the first
    clock reading of the query, in hours, as double arithmetic gives it:
    the microseconds divided by 10^6 and then by 3600, each quotient
    rounded to the nearest double, which is within one part in 2^51 of
    the exact number of hours. *)
Theorem current_stats_without_backend
        (env : Env) (cfg : DatabaseConfig) (s0 : st) (mgr : DatabaseManager) (s1 : st)
        (cs : list mcall) (lines0 : list (level * string)) (s : st) :
  __init__ env cfg s0 = (Ok mgr, s1) ->
  let self := manager (run_mcalls cs (mkMs mgr None lines0)) in
  _clickhouse_client self = None ->
  _postgres_session_factory self = None ->
  exists snap s',
    get_current_stats env self s = (Ok snap, s')
    /\ tokens_total snap = 0
    /\ tokens_per_sec snap = 0%Q
    /\ error_count snap = 0
    /\ request_count snap = 0
    /\ avg_latency_ms snap = 0%Q
    /\ models_available snap = 0
    /\ uptime_hours snap
       = fl (fl (inject_Z (clock env (clock_reads s) - clock env (clock_reads s0))
                 / 1000000)
             / 3600)
    /\ (Qabs (uptime_hours snap
              - inject_Z (clock env (clock_reads s) - clock env (clock_reads s0))
                / 3600000000)
        <= Qabs (inject_Z (clock env (clock_reads s) - clock env (clock_reads s0))
                 / 3600000000)
           * (1 # 2 ^ 51))%Q.
Proof.
  intros Hinit self Hch Hpg.
  rewrite created_manager in Hinit. injection Hinit as <- _.
  assert (Hstart : _start_time self = clock env (clock_reads s0)).
  { subst self.
    destruct (run_mcalls_invariant cs
                (mkMs (mkManager cfg None None false (clock env (clock_reads s0)))
                      None lines0)) as (_ & _ & Ht).
    - unfold engine_behind_factory. cbn. intros H. discriminate H.
    - exact Ht. }
  unfold get_current_stats.
  rewrite (use_clickhouse_none self Hch), Hpg. cbn [is_some].
  rewrite empty_stats_run, Hstart.
  do 2 eexists. split; [reflexivity|].
  cbn [tokens_total tokens_per_sec error_count request_count avg_latency_ms
       models_available uptime_hours].
  repeat split. apply double_quotients_close.
Qed.

End Uptime.

Lemma current_stats_without_backend_witness :
  exists snap s',
    Router.get_current_stats Router.hourly
      (Router.manager
         (Router.run_mcalls
            [Router.Connect
               (Router.unreachable_clickhouse Router.lost_clickhouse
                                              (Router.postgres_over [] 0))
               Router.hourly;
             Router.Disconnect
               (Router.unreachable_clickhouse Router.lost_clickhouse
                                              (Router.postgres_over [] 0))]
            (Router.mkMs
               (Router.mkManager Router.default_DatabaseConfig None None false 0)
               None [])))
      (Router.mkSt 3 [])
    = (Ok snap, s')
    /\ Router.tokens_total snap = 0
    /\ Router.tokens_per_sec snap = 0%Q
    /\ Router.error_count snap = 0
    /\ Router.request_count snap = 0
    /\ Router.avg_latency_ms snap = 0%Q
    /\ Router.models_available snap = 0
    /\ Router.uptime_hours snap
       = fl (fl (inject_Z (Router.clock Router.hourly 3 - Router.clock Router.hourly 0)
                 / 1000000)
             / 3600)
    /\ (Qabs (Router.uptime_hours snap
              - inject_Z (Router.clock Router.hourly 3 - Router.clock Router.hourly 0)
                / 3600000000)
        <= Qabs (inject_Z (Router.clock Router.hourly 3 - Router.clock Router.hourly 0)
                 / 3600000000)
           * (1 # 2 ^ 51))%Q.
Proof.
  apply (current_stats_without_backend Router.hourly Router.default_DatabaseConfig
           Router.s0
           (Router.mkManager Router.default_DatabaseConfig None None false 0)
           (Router.mkSt 1 [])
           [Router.Connect
              (Router.unreachable_clickhouse Router.lost_clickhouse
                                             (Router.postgres_over [] 0))
              Router.hourly;
            Router.Disconnect
              (Router.unreachable_clickhouse Router.lost_clickhouse
                                             (Router.postgres_over [] 0))]
           [] (Router.mkSt 3 [])); reflexivity.
Defined.

(** C5 as stated fails: one second after its creation a manager without
    backend reports an uptime that is the double nearest to 1/3600 of an
    hour, not 1/3600. *)
Lemma uptime_hours_is_rounded :
  exists mgr s1 snap s',
    Router.__init__ Router.every_second Router.default_DatabaseConfig Router.s0
    = (Ok mgr, s1)
    /\ Router._clickhouse_client mgr = None
    /\ Router._postgres_session_factory mgr = None
    /\ Router.get_current_stats Router.every_second mgr s1 = (Ok snap, s')
    /\ Router.clock Router.every_second (Router.clock_reads s1)
       - Router.clock Router.every_second (Router.clock_reads Router.s0) = 1000000
    /\ ~ (Router.uptime_hours snap == 1 # 3600)%Q
    /\ (Router.uptime_hours snap == 5124095576030431 # 18446744073709551616)%Q.
Proof.
  do 4 eexists. split; [reflexivity|]. split; [reflexivity|].
  split; [reflexivity|]. split; [reflexivity|]. split; [reflexivity|].
  split.
  - intros H. vm_compute in H. discriminate H.
  - vm_compute. reflexivity.
Qed.

(* ================================================================== *)
(** * Further properties of the backend query router                   *)
(* ================================================================== *)

Section RouterMore.

Import Router.

Variable env : Env.

Ltac outcome :=
  match goal with
  | |- context [match ?x with _ => _ end] =>
      lazymatch x with
      | context [match _ with _ => _ end] => fail
      | _ => destruct x eqn:?; cbn
      end
  end.

(** X20. get_current_stats always returns a snapshot, whichever backend
    answers or fails; its models_available is always 0, and its
    timestamp is the last reading of the clock the call has made. *)
Theorem snapshot_models_available_zero (self : DatabaseManager) (s : st) :
  exists snap s',
    get_current_stats env self s = (Ok snap, s')
    /\ models_available snap = 0
    /\ (clock_reads s < clock_reads s')%nat
    /\ timestamp snap = clock env (pred (clock_reads s')).
Proof.
  unfold get_current_stats, _get_current_stats_clickhouse,
    _get_current_stats_postgres, _get_current_stats_clickhouse_try,
    _get_current_stats_postgres_try, _get_empty_stats, uptime_seconds, utcnow,
    try_except, bind, lift, ret, log, modify, deref, call, index0, subscript.
  cbn. repeat outcome; do 2 eexists; (split; [reflexivity|]); cbn;
    repeat split; lia.
Qed.

(** X21. An unrecognised time range is read as 1h and an unrecognised
    granularity as 1m; the hours are always 1, 6 or 24 and the bucket
    width is always 1, 5 or 60 minutes, so never zero. *)
Theorem history_defaults (self : DatabaseManager) (time_range granularity : string)
        (s : st) :
  (time_range <> "1h" -> time_range <> "6h" -> time_range <> "24h" ->
   get_history env self time_range granularity s
   = get_history env self "1h" granularity s)
  /\ (granularity <> "1m" -> granularity <> "5m" -> granularity <> "1h" ->
      get_history env self time_range granularity s
      = get_history env self time_range "1m" s)
  /\ In (range_map time_range) [1; 6; 24]
  /\ In (granularity_map granularity) [1; 5; 60].
Proof.
  unfold get_history, range_map, granularity_map.
  split; [|split; [|split]].
  - intros H1 H6 H24.
    apply String.eqb_neq in H1, H6, H24. now rewrite H1, H6, H24.
  - intros H1 H5 H60.
    apply String.eqb_neq in H1, H5, H60. now rewrite H1, H5, H60.
  - destruct (time_range =? "1h")%string; [cbn; auto|].
    destruct (time_range =? "6h")%string; [cbn; auto|].
    destruct (time_range =? "24h")%string; cbn; auto.
  - destruct (granularity =? "1m")%string; [cbn; auto|].
    destruct (granularity =? "5m")%string; [cbn; auto|].
    destruct (granularity =? "1h")%string; cbn; auto.
Qed.

(** X22. The router asks one backend only.  When the exporter type is
    clickhouse or both and a ClickHouse client is there, no query depends
    on the Postgres session factory; when the exporter type is neither,
    no query depends on the ClickHouse client, and a session factory that
    is there answers, whatever the exporter type says. *)
Theorem router_asks_one_backend (self : DatabaseManager) :
  (use_clickhouse self = true ->
   forall f time_range granularity limit offset status model s,
     get_current_stats env (with_session_factory self f) s
     = get_current_stats env self s
     /\ get_history env (with_session_factory self f) time_range granularity s
        = get_history env self time_range granularity s
     /\ get_logs env (with_session_factory self f) limit offset status model s
        = get_logs env self limit offset status model s
     /\ get_model_stats env (with_session_factory self f) s
        = get_model_stats env self s)
  /\ (wants_clickhouse (config self) = false ->
      forall c time_range granularity limit offset status model s,
        get_current_stats env (with_clickhouse_client self c) s
        = get_current_stats env self s
        /\ get_history env (with_clickhouse_client self c) time_range granularity s
           = get_history env self time_range granularity s
        /\ get_logs env (with_clickhouse_client self c) limit offset status model s
           = get_logs env self limit offset status model s
        /\ get_model_stats env (with_clickhouse_client self c) s
           = get_model_stats env self s)
  /\ (use_clickhouse self = false ->
      is_some (_postgres_session_factory self) = true ->
      forall time_range granularity limit offset status model s,
        get_current_stats env self s = _get_current_stats_postgres env self s
        /\ get_history env self time_range granularity s
           = _get_history_postgres env self (range_map time_range)
                                   (granularity_map granularity) s
        /\ get_logs env self limit offset status model s
           = _get_logs_postgres env self limit offset status model s
        /\ get_model_stats env self s = _get_model_stats_postgres env self s).
Proof.
  split; [|split].
  - intros Huse f tr g limit offset status model s.
    assert (Huse' : use_clickhouse (with_session_factory self f) = true)
      by exact Huse.
    unfold get_current_stats, get_history, get_logs, get_model_stats.
    rewrite Huse, Huse'. repeat split.
  - intros Hwant c tr g limit offset status model s.
    assert (Huse : use_clickhouse self = false).
    { unfold use_clickhouse. unfold wants_clickhouse in Hwant. now rewrite Hwant. }
    assert (Huse' : use_clickhouse (with_clickhouse_client self c) = false).
    { unfold use_clickhouse, with_clickhouse_client. cbn.
      unfold wants_clickhouse in Hwant. now rewrite Hwant. }
    unfold get_current_stats, get_history, get_logs, get_model_stats.
    rewrite Huse, Huse'. cbn [with_clickhouse_client _postgres_session_factory].
    destruct (is_some (_postgres_session_factory self)); repeat split.
  - intros Huse Hpg tr g limit offset status model s.
    unfold get_current_stats, get_history, get_logs, get_model_stats.
    rewrite Huse, Hpg. repeat split.
Qed.

(** X23. An empty string as status or model filter is no filter: the
    logs query behaves exactly as if the filter had been left out. *)
Theorem logs_empty_filter_is_none (self : DatabaseManager) (limit offset : Z)
        (status model : option string) (s : st) :
  get_logs env self limit offset (Some "") model s
  = get_logs env self limit offset None model s
  /\ get_logs env self limit offset status (Some "") s
     = get_logs env self limit offset status None s.
Proof.
  unfold get_logs, _get_logs_clickhouse, _get_logs_postgres,
    _get_logs_clickhouse_try, _get_logs_postgres_try.
  split; cbn [given str_of String.eqb negb]; reflexivity.
Qed.

End RouterMore.

Section RouterMoreWitnesses.

Import Router.

Lemma history_defaults_witness :
  get_history hourly (manager_on_clickhouse
                     (clickhouse_over one_request_per_hour half_past_twelve))
              "7d" "1h" s0
  = get_history hourly (manager_on_clickhouse
                       (clickhouse_over one_request_per_hour half_past_twelve))
                "1h" "1h" s0.
Proof.
  apply (proj1 (history_defaults hourly
                  (manager_on_clickhouse
                     (clickhouse_over one_request_per_hour half_past_twelve))
                  "7d" "1h" s0)); discriminate.
Defined.

Lemma router_asks_one_backend_witness :
  get_history hourly
    (with_clickhouse_client
       (manager_on_postgres (postgres_over two_requests_one_hour half_past_twelve))
       (Some lost_clickhouse))
    "6h" "1h" s0
  = get_history hourly
      (manager_on_postgres (postgres_over two_requests_one_hour half_past_twelve))
      "6h" "1h" s0.
Proof.
  apply (proj1 (proj2 (router_asks_one_backend hourly
                         (manager_on_postgres
                            (postgres_over two_requests_one_hour half_past_twelve))))
           eq_refl (Some lost_clickhouse) "6h" "1h" 100 0 None None s0).
Defined.

End RouterMoreWitnesses.

Section LogsText.

Import Router.

(** X24. Whatever the filter values are, the text of the WHERE clause
    sent with the logs queries is one of four constants per backend: the
    result depends on the backend only through its answers to that text,
    and the filter values travel as parameters only. *)
Theorem logs_where_clause_is_fixed (status model : option string) :
  exists w_clickhouse w_postgres,
    In w_clickhouse ["1=1"; "status = %(status)s"; "model = %(model)s";
                     "status = %(status)s AND model = %(model)s"]
    /\ In w_postgres ["TRUE"; "status = :status"; "model = :model";
                      "status = :status AND model = :model"]
    /\ (forall self c c' limit offset s,
          _clickhouse_client self = Some c ->
          (forall ps, ch_logs_count c w_clickhouse ps
                      = ch_logs_count c' w_clickhouse ps) ->
          (forall ps, ch_logs c w_clickhouse ps = ch_logs c' w_clickhouse ps) ->
          _get_logs_clickhouse self limit offset status model s
          = _get_logs_clickhouse (with_clickhouse_client self (Some c'))
                                 limit offset status model s)
    /\ (forall env self f f' limit offset s,
          _postgres_session_factory self = Some f ->
          enter_session f = enter_session f' ->
          (forall ps, pg_logs_count f w_postgres ps
                      = pg_logs_count f' w_postgres ps) ->
          (forall ps, pg_logs f w_postgres ps = pg_logs f' w_postgres ps) ->
          _get_logs_postgres env self limit offset status model s
          = _get_logs_postgres env (with_session_factory self (Some f'))
                               limit offset status model s).
Proof.
  unfold _get_logs_clickhouse, _get_logs_postgres, _get_logs_clickhouse_try,
    _get_logs_postgres_try, try_except, bind, lift, deref, call.
  exists (where_clause
            ((if given status then ["status = %(status)s"] else [])
               ++ (if given model then ["model = %(model)s"] else []))%list "1=1"),
         (where_clause
            ((if given status then ["status = :status"] else [])
               ++ (if given model then ["model = :model"] else []))%list "TRUE").
  split; [destruct (given status), (given model); cbn; auto 6|].
  split; [destruct (given status), (given model); cbn; auto 6|].
  split.
  - intros self c c' limit offset s Hc Hcount Hpage.
    cbn [with_clickhouse_client _clickhouse_client]. rewrite Hc.
    cbn. rewrite Hcount, Hpage. reflexivity.
  - intros env self f f' limit offset s Hf Henter Hcount Hpage.
    cbn [with_session_factory _postgres_session_factory]. rewrite Hf.
    cbn. rewrite Henter, Hcount, Hpage. reflexivity.
Qed.

End LogsText.

Section Conservation.

Import Router.

Variable bucket : Z -> Z.

Lemma Zsum_add {A} (f g : A -> Z) (l : list A) :
  Zsum (map (fun x => f x + g x) l) = Zsum (map f l) + Zsum (map g l).
Proof.
  unfold Zsum. induction l as [|x l IH]; cbn; [reflexivity|]. rewrite IH. lia.
Qed.

Lemma Zsum_ext {A} (f g : A -> Z) (l : list A) :
  (forall x, In x l -> f x = g x) -> Zsum (map f l) = Zsum (map g l).
Proof.
  unfold Zsum. induction l as [|x l IH]; intros H; cbn; [reflexivity|].
  rewrite (H x (or_introl eq_refl)), IH; [reflexivity|].
  intros y Hy. apply H. now right.
Qed.

Lemma Zsum_zero {A} (l : list A) : Zsum (map (fun _ => 0) l) = 0.
Proof. unfold Zsum. induction l as [|x l IH]; cbn; [reflexivity|]. now rewrite IH. Qed.

(** Among distinct keys exactly one is a given key. *)
Lemma Zsum_indicator (keys : list Z) (k : Z) :
  NoDup keys -> In k keys ->
  Zsum (map (fun b => if k =? b then 1 else 0) keys) = 1.
Proof.
  induction keys as [|b keys IH]; intros Hnd Hin; [destruct Hin|].
  inversion Hnd as [|? ? Hnotin Hnd']; subst.
  change (Zsum (map (fun b0 => if k =? b0 then 1 else 0) (b :: keys)))
    with ((if k =? b then 1 else 0)
          + Zsum (map (fun b0 => if k =? b0 then 1 else 0) keys)).
  destruct (Z.eqb_spec k b) as [->|Hne].
  - rewrite (Zsum_ext _ (fun _ => 0)), Zsum_zero; [reflexivity|].
    intros x Hx. destruct (Z.eqb_spec b x); [subst; contradiction|reflexivity].
  - destruct Hin as [Heq|Hin]; [congruence|]. now rewrite IH.
Qed.

Lemma newest_first_NoDup (l : list Z) : newest_first l -> NoDup l.
Proof.
  induction l as [|x l IH]; intros H; constructor.
  - intros Hin. pose proof (newest_first_below x l H x Hin). lia.
  - apply IH. now apply newest_first_tail in H.
Qed.

(** Every row that satisfies [P] is counted in exactly one group. *)
Lemma count_partition (P : metric -> bool) (keys : list Z) (rows : list metric) :
  NoDup keys ->
  (forall r, In r rows -> In (bucket (m_timestamp r)) keys) ->
  Zsum (map (fun b => Z.of_nat (List.length (filter P (group_of bucket b rows)))) keys)
  = Z.of_nat (List.length (filter P rows)).
Proof.
  intros Hnd. induction rows as [|r rows IH]; intros Hcover.
  - apply (Zsum_zero keys).
  - rewrite (Zsum_ext _
               (fun b => (if bucket (m_timestamp r) =? b
                          then (if P r then 1 else 0) else 0)
                         + Z.of_nat (List.length
                                       (filter P (group_of bucket b rows))))).
    + rewrite (Zsum_add
                 (fun b => if bucket (m_timestamp r) =? b
                           then (if P r then 1 else 0) else 0)
                 (fun b => Z.of_nat (List.length
                                       (filter P (group_of bucket b rows))))),
        IH by (intros x Hx; apply Hcover; now right).
      cbn [filter]. destruct (P r).
      * rewrite Zsum_indicator; [cbn [List.length]; lia|assumption|].
        apply Hcover. now left.
      * rewrite (Zsum_ext _ (fun _ => 0)), Zsum_zero; [lia|].
        intros x _. now destruct (_ =? _).
    + intros b _. unfold group_of. cbn [filter].
      destruct (bucket (m_timestamp r) =? b); [|lia].
      cbn [filter]. destruct (P r); cbn [List.length]; lia.
Qed.

Lemma buckets_cover (rows : list metric) :
  NoDup (buckets_of bucket rows)
  /\ forall r, In r rows -> In (bucket (m_timestamp r)) (buckets_of bucket rows).
Proof.
  split.
  - apply newest_first_NoDup, group_keys_desc_newest_first.
  - intros r Hr. unfold buckets_of. rewrite group_keys_desc_In.
    apply in_map_iff. now exists r.
Qed.

End Conservation.

Section HistoryMore.

Import Router.

Lemma float_or0_Float (q : Q) : (float_ (or0 (Float q)) == q)%Q.
Proof.
  unfold or0, truthy. destruct (Qeq_bool q 0) eqn:Hq; cbn; [|reflexivity].
  apply Qeq_bool_eq in Hq. now rewrite Hq.
Qed.

(** The points made of the rows of a history query, whatever the bucket
    expression: each carries the rounded quotient of its bucket's request
    count by the width, and the counts add up to the requests in range. *)
Lemma throughput_total (bucket : Z -> Z) (rows : list metric) (n : Z)
      (mk : Z -> list metric -> history_row) :
  (forall b g, time_bucket (mk b g) = b) ->
  (forall b g, r_throughput (mk b g)
               = Float (fl (inject_Z (count_case "ollama_requests_total" g)
                              / inject_Z n))) ->
  let points := map history_point
                    (map (fun b => mk b (group_of bucket b rows))
                         (buckets_of bucket rows)) in
  Forall (fun p => (h_throughput p
                    == fl (inject_Z (bucket_requests bucket rows (h_timestamp p))
                             / inject_Z n))%Q) points
  /\ Zsum (map (fun p => bucket_requests bucket rows (h_timestamp p)) points)
     = Z.of_nat (List.length (filter (named "ollama_requests_total") rows)).
Proof.
  intros Hkey Hmk points. subst points. split.
  - apply Forall_forall. intros p Hp.
    apply in_map_iff in Hp. destruct Hp as (row & <- & Hrow).
    apply in_map_iff in Hrow. destruct Hrow as (b & <- & _).
    cbn [h_throughput h_timestamp history_point].
    rewrite Hkey, Hmk. apply float_or0_Float.
  - rewrite !map_map. cbn [h_timestamp history_point].
    rewrite (map_ext _ (fun b => Z.of_nat (List.length
                                   (filter (named "ollama_requests_total")
                                           (group_of bucket b rows)))))
      by (intros b; now rewrite Hkey).
    destruct (buckets_cover bucket rows) as (Hnd & Hcover).
    apply (count_partition bucket (named "ollama_requests_total")
             (buckets_of bucket rows) rows Hnd Hcover).
Qed.

Lemma granularity_nonzero (granularity : string) :
  ~ (inject_Z (granularity_map granularity) == 0)%Q.
Proof.
  unfold granularity_map.
  destruct (granularity =? "1m")%string; [discriminate|].
  destruct (granularity =? "5m")%string; [discriminate|].
  destruct (granularity =? "1h")%string; discriminate.
Qed.

Lemma history_run_clickhouse env self c table now time_range granularity s :
  use_clickhouse self = true ->
  _clickhouse_client self = Some c ->
  serves_history_clickhouse c table now ->
  get_history env self time_range granularity s
  = (Ok (map history_point
             (sql_history_clickhouse table now (range_map time_range)
                                     (granularity_map granularity))), s).
Proof.
  intros Huse Hc Hserves. unfold get_history. rewrite Huse.
  unfold _get_history_clickhouse, try_except, _get_history_clickhouse_try, bind, lift.
  rewrite Hc. cbn. now rewrite Hserves.
Qed.

Lemma history_run_postgres env self f table now time_range granularity s :
  use_clickhouse self = false ->
  _postgres_session_factory self = Some f ->
  import_text env = Ok tt ->
  serves_history_postgres f table now ->
  get_history env self time_range granularity s
  = (Ok (map history_point
             (sql_history_postgres table now (range_map time_range)
                                   (granularity_map granularity))), s).
Proof.
  intros Huse Hf Himp (Henter & Hserves). unfold get_history. rewrite Huse, Hf.
  cbn [is_some].
  unfold _get_history_postgres, try_except, _get_history_postgres_try, bind, lift.
  rewrite Himp, Hf. cbn. rewrite Henter. cbn. now rewrite Hserves.
Qed.

(** X25. No request is lost or counted twice by the bucketing: on either
    backend the request rows counted in the buckets of the history points
    add up to the number of request rows in the time range, and the
    throughput of each point is its bucket's count divided by the
    granularity in minutes, rounded to the nearest double. *)
Theorem history_throughput_conserved
        (env : Env) (self : DatabaseManager) (table : list metric) (now : Z)
        (time_range granularity : string) (s : st) :
  (forall c,
      use_clickhouse self = true ->
      _clickhouse_client self = Some c ->
      serves_history_clickhouse c table now ->
      exists points,
        get_history env self time_range granularity s = (Ok points, s)
        /\ Forall (fun p =>
                     (h_throughput p
                      == fl (inject_Z
                               (bucket_requests
                                  (fun t => toStartOfInterval
                                              t (granularity_map granularity))
                                  (selected now (range_map time_range) table)
                                  (h_timestamp p))
                             / inject_Z (granularity_map granularity)))%Q)
                  points
        /\ Zsum (map (fun p =>
                        bucket_requests
                          (fun t => toStartOfInterval t (granularity_map granularity))
                          (selected now (range_map time_range) table)
                          (h_timestamp p))
                     points)
           = Z.of_nat (List.length
                         (requests_in_range table now (range_map time_range))))
  /\ (forall f,
         use_clickhouse self = false ->
         _postgres_session_factory self = Some f ->
         import_text env = Ok tt ->
         serves_history_postgres f table now ->
         exists points,
           get_history env self time_range granularity s = (Ok points, s)
           /\ Forall (fun p =>
                        (h_throughput p
                         == fl (inject_Z
                                  (bucket_requests
                                     date_trunc_minute
                                     (selected now (range_map time_range) table)
                                     (h_timestamp p))
                                / inject_Z (granularity_map granularity)))%Q)
                     points
           /\ Zsum (map (fun p =>
                           bucket_requests
                             date_trunc_minute
                             (selected now (range_map time_range) table)
                             (h_timestamp p))
                        points)
              = Z.of_nat (List.length
                            (requests_in_range table now (range_map time_range)))).
Proof.
  split.
  - intros c Huse Hc Hserves.
    rewrite (history_run_clickhouse env self c table now) by assumption.
    eexists. split; [reflexivity|]. unfold sql_history_clickhouse.
    apply (throughput_total
             (fun t => toStartOfInterval t (granularity_map granularity))
             (selected now (range_map time_range) table)
             (granularity_map granularity)
             (fun b g =>
                mkHistoryRow b
                  (Float (sum_case "ollama_tokens_generated_total" g))
                  (avg_case "ollama_request_latency_ms" g)
                  (Float (fl (inject_Z (count_case "ollama_requests_total" g)
                                / inject_Z (granularity_map granularity))))
                  (Float (sum_case "ollama_errors_total" g))));
      reflexivity.
  - intros f Huse Hf Himp Hserves.
    rewrite (history_run_postgres env self f table now) by assumption.
    eexists. split; [reflexivity|]. unfold sql_history_postgres.
    apply (throughput_total date_trunc_minute
             (selected now (range_map time_range) table)
             (granularity_map granularity)
             (fun b g =>
                mkHistoryRow b
                  (coalesce0 (Float (sum_case "ollama_tokens_generated_total" g)))
                  (coalesce0 (avg_case "ollama_request_latency_ms" g))
                  (Float (fl (inject_Z (count_case "ollama_requests_total" g)
                                / inject_Z (granularity_map granularity))))
                  (coalesce0 (Float (sum_case "ollama_errors_total" g)))));
      reflexivity.
Qed.

End HistoryMore.

Lemma history_throughput_conserved_witness :
  exists points,
    Router.get_history Router.hourly
      (Router.manager_on_clickhouse
         (Router.clickhouse_over Router.one_request_per_hour Router.half_past_twelve))
      "6h" "1h" Router.s0 = (Ok points, Router.s0)
    /\ Forall (fun p =>
                 (Router.h_throughput p
                  == fl (inject_Z
                           (Router.bucket_requests
                              (fun t => Router.toStartOfInterval
                                          t (Router.granularity_map "1h"))
                              (Router.selected Router.half_past_twelve
                                               (Router.range_map "6h")
                                               Router.one_request_per_hour)
                              (Router.h_timestamp p))
                         / inject_Z (Router.granularity_map "1h")))%Q)
              points
    /\ Router.Zsum
         (map (fun p =>
                 Router.bucket_requests
                   (fun t => Router.toStartOfInterval t (Router.granularity_map "1h"))
                   (Router.selected Router.half_past_twelve (Router.range_map "6h")
                                    Router.one_request_per_hour)
                   (Router.h_timestamp p))
              points)
       = Z.of_nat (List.length
                     (Router.requests_in_range Router.one_request_per_hour
                                               Router.half_past_twelve
                                               (Router.range_map "6h"))).
Proof.
  apply (proj1 (history_throughput_conserved Router.hourly
                  (Router.manager_on_clickhouse
                     (Router.clickhouse_over Router.one_request_per_hour
                                             Router.half_past_twelve))
                  Router.one_request_per_hour Router.half_past_twelve
                  "6h" "1h" Router.s0)
           (Router.clickhouse_over Router.one_request_per_hour
                                   Router.half_past_twelve)
           eq_refl eq_refl (fun _ _ => eq_refl)).
Defined.

Section HistoryBounds.

Import Router.

(** Truncation to a width [w] that divides the range: the buckets of
    the rows in range, none of them in the future, are at most one more
    than the widths the range holds. *)
Lemma bucket_count_bound (w k now hours : Z) (table : list metric) :
  0 < w -> 0 <= k -> hours * hour_us = k * w ->
  (forall r, In r table -> m_timestamp r <= now) ->
  Z.of_nat (List.length (buckets_of (fun t => t - t mod w) (selected now hours table)))
  <= k + 1.
Proof.
  intros Hw Hk Hdiv Hpast.
  pose proof (newest_first_length w (now / w - k)
                (buckets_of (fun t => t - t mod w) (selected now hours table))
                (now / w) Hw (group_keys_desc_newest_first _)) as Hlen.
  enough (Z.of_nat (List.length (buckets_of (fun t => t - t mod w)
                                            (selected now hours table)))
          <= Z.max 0 (now / w - (now / w - k) + 1)) by lia.
  apply Hlen. intros x Hx. unfold buckets_of in Hx.
  rewrite group_keys_desc_In, in_map_iff in Hx. destruct Hx as (r & <- & Hr).
  unfold selected in Hr. apply filter_In in Hr as (Hr & Hrange).
  unfold in_range in Hrange. specialize (Hpast r Hr).
  exists (m_timestamp r / w). split.
  - rewrite Z.mod_eq by lia. lia.
  - split.
    + replace (now / w - k) with ((now + (- k) * w) / w)
        by (rewrite Z.div_add by lia; lia).
      apply Z.div_le_mono; lia.
    + apply Z.div_le_mono; lia.
Qed.

(** X26. With no row stamped later than the server's now, the history
    holds at most 60*hours/minutes + 1 points on ClickHouse, for every
    time range and granularity, and at most 60*hours + 1 points on
    Postgres. *)
Theorem history_point_count_bound
        (env : Env) (self : DatabaseManager) (table : list metric) (now : Z)
        (time_range granularity : string) (s : st) :
  (forall r, In r table -> m_timestamp r <= now) ->
  (forall c,
      use_clickhouse self = true ->
      _clickhouse_client self = Some c ->
      serves_history_clickhouse c table now ->
      exists points,
        get_history env self time_range granularity s = (Ok points, s)
        /\ Z.of_nat (List.length points)
           <= 60 * range_map time_range / granularity_map granularity + 1)
  /\ (forall f,
         use_clickhouse self = false ->
         _postgres_session_factory self = Some f ->
         import_text env = Ok tt ->
         serves_history_postgres f table now ->
         exists points,
           get_history env self time_range granularity s = (Ok points, s)
           /\ Z.of_nat (List.length points) <= 60 * range_map time_range + 1).
Proof.
  intros Hpast.
  assert (Hr : In (range_map time_range) [1; 6; 24]).
  { unfold range_map.
    destruct (time_range =? "1h")%string; [cbn; auto|].
    destruct (time_range =? "6h")%string; [cbn; auto|].
    destruct (time_range =? "24h")%string; cbn; auto. }
  assert (Hg : In (granularity_map granularity) [1; 5; 60]).
  { unfold granularity_map.
    destruct (granularity =? "1m")%string; [cbn; auto|].
    destruct (granularity =? "5m")%string; [cbn; auto|].
    destruct (granularity =? "1h")%string; cbn; auto. }
  split.
  - intros c Huse Hc Hserves.
    rewrite (history_run_clickhouse env self c table now) by assumption.
    eexists. split; [reflexivity|].
    unfold sql_history_clickhouse. rewrite !length_map.
    change (buckets_of (fun t => toStartOfInterval t (granularity_map granularity)))
      with (buckets_of (fun t => t - t mod (granularity_map granularity * minute_us))).
    apply bucket_count_bound; try assumption.
    + cbn in Hg. destruct Hg as [<-|[<-|[<-|[]]]]; reflexivity.
    + cbn in Hr, Hg.
      destruct Hr as [<-|[<-|[<-|[]]]]; destruct Hg as [<-|[<-|[<-|[]]]];
        vm_compute; discriminate.
    + cbn in Hr, Hg.
      destruct Hr as [<-|[<-|[<-|[]]]]; destruct Hg as [<-|[<-|[<-|[]]]];
        reflexivity.
  - intros f Huse Hf Himp Hserves.
    rewrite (history_run_postgres env self f table now) by assumption.
    eexists. split; [reflexivity|].
    unfold sql_history_postgres. rewrite !length_map.
    change (buckets_of date_trunc_minute)
      with (buckets_of (fun t => t - t mod minute_us)).
    apply bucket_count_bound; try assumption.
    + reflexivity.
    + cbn in Hr. destruct Hr as [<-|[<-|[<-|[]]]]; vm_compute; discriminate.
    + cbn in Hr. destruct Hr as [<-|[<-|[<-|[]]]]; reflexivity.
Qed.

(** X27. The Postgres adapter buckets by the minute whatever the
    granularity: its timestamps are the minute-truncated timestamps of
    the rows in range, each once and newest first, and two granularities
    give the same timestamps, token sums, latencies and error counts;
    only the throughput can differ. *)
Theorem history_postgres_ignores_granularity
        (env : Env) (self : DatabaseManager) (f : SessionFactory)
        (table : list metric) (now : Z) (time_range g1 g2 : string) (s : st) :
  use_clickhouse self = false ->
  _postgres_session_factory self = Some f ->
  import_text env = Ok tt ->
  serves_history_postgres f table now ->
  exists points1 points2,
    get_history env self time_range g1 s = (Ok points1, s)
    /\ get_history env self time_range g2 s = (Ok points2, s)
    /\ map h_timestamp points1
       = buckets_of date_trunc_minute (selected now (range_map time_range) table)
    /\ newest_first (map h_timestamp points1)
    /\ map h_timestamp points2 = map h_timestamp points1
    /\ map h_tokens_total points2 = map h_tokens_total points1
    /\ map h_latency_ms points2 = map h_latency_ms points1
    /\ map h_error_count points2 = map h_error_count points1.
Proof.
  intros Huse Hf Himp Hserves.
  rewrite !(history_run_postgres env self f table now) by assumption.
  do 2 eexists. split; [reflexivity|]. split; [reflexivity|].
  unfold sql_history_postgres. rewrite !map_map. cbn.
  split; [apply map_id|]. split.
  - rewrite map_id. apply group_keys_desc_newest_first.
  - repeat split.
Qed.

End HistoryBounds.

Lemma history_point_count_bound_witness :
  exists points,
    Router.get_history Router.hourly
      (Router.manager_on_postgres
         (Router.postgres_over Router.two_requests_one_hour Router.half_past_twelve))
      "6h" "1h" Router.s0 = (Ok points, Router.s0)
    /\ Z.of_nat (List.length points) <= 60 * Router.range_map "6h" + 1.
Proof.
  refine (proj2 (history_point_count_bound Router.hourly
                   (Router.manager_on_postgres
                      (Router.postgres_over Router.two_requests_one_hour
                                            Router.half_past_twelve))
                   Router.two_requests_one_hour Router.half_past_twelve
                   "6h" "1h" Router.s0 _)
            (Router.postgres_over Router.two_requests_one_hour
                                  Router.half_past_twelve)
            eq_refl eq_refl eq_refl (conj eq_refl (fun _ _ => eq_refl))).
  intros r Hr. cbn in Hr.
  repeat (destruct Hr as [<-|Hr]; [vm_compute; discriminate|]). destruct Hr.
Defined.

Lemma history_postgres_ignores_granularity_witness :
  exists points1 points2,
    Router.get_history Router.hourly
      (Router.manager_on_postgres
         (Router.postgres_over Router.two_requests_one_hour Router.half_past_twelve))
      "6h" "1m" Router.s0 = (Ok points1, Router.s0)
    /\ Router.get_history Router.hourly
         (Router.manager_on_postgres
            (Router.postgres_over Router.two_requests_one_hour
                                  Router.half_past_twelve))
         "6h" "1h" Router.s0 = (Ok points2, Router.s0)
    /\ map Router.h_timestamp points2 = map Router.h_timestamp points1.
Proof.
  destruct (history_postgres_ignores_granularity Router.hourly
              (Router.manager_on_postgres
                 (Router.postgres_over Router.two_requests_one_hour
                                       Router.half_past_twelve))
              (Router.postgres_over Router.two_requests_one_hour
                                    Router.half_past_twelve)
              Router.two_requests_one_hour Router.half_past_twelve
              "6h" "1m" "1h" Router.s0
              eq_refl eq_refl eq_refl (conj eq_refl (fun _ _ => eq_refl)))
    as (p1 & p2 & H1 & H2 & _ & _ & H5 & _).
  exists p1, p2. split; [exact H1|]. split; [exact H2|exact H5].
Defined.

(* ================================================================== *)
(** * Properties of the environment configuration and of api/server.py *)
(* ================================================================== *)

Section FromEnv.

Import Router.

(** X28. A variable that is not set leaves its field at the default of
    the dataclass, a variable that is set as text is taken as it is (the
    exporter type is not checked against the three known ones), and
    from_env returns whenever neither port variable is set. *)
Theorem from_env_defaults (os : Os) :
  (environ os "CLICKHOUSE_PORT" = None -> environ os "POSTGRES_PORT" = None ->
   is_ok (from_env os) = true)
  /\ forall cfg, from_env os = Ok cfg ->
       exporter_type cfg
       = getenv os "EXPORTER_TYPE" (exporter_type default_DatabaseConfig)
       /\ clickhouse_host cfg
          = getenv os "CLICKHOUSE_HOST" (clickhouse_host default_DatabaseConfig)
       /\ (environ os "CLICKHOUSE_PORT" = None ->
           clickhouse_port cfg = clickhouse_port default_DatabaseConfig)
       /\ clickhouse_database cfg
          = getenv os "CLICKHOUSE_DATABASE" (clickhouse_database default_DatabaseConfig)
       /\ clickhouse_user cfg
          = getenv os "CLICKHOUSE_USER" (clickhouse_user default_DatabaseConfig)
       /\ clickhouse_password cfg
          = getenv os "CLICKHOUSE_PASSWORD" (clickhouse_password default_DatabaseConfig)
       /\ postgres_host cfg
          = getenv os "POSTGRES_HOST" (postgres_host default_DatabaseConfig)
       /\ (environ os "POSTGRES_PORT" = None ->
           postgres_port cfg = postgres_port default_DatabaseConfig)
       /\ postgres_database cfg
          = getenv os "POSTGRES_DATABASE" (postgres_database default_DatabaseConfig)
       /\ postgres_user cfg
          = getenv os "POSTGRES_USER" (postgres_user default_DatabaseConfig)
       /\ postgres_password cfg
          = getenv os "POSTGRES_PASSWORD" (postgres_password default_DatabaseConfig).
Proof.
  split.
  - intros Hc Hp. unfold from_env, getenv. rewrite Hc, Hp. reflexivity.
  - intros cfg. unfold from_env.
    destruct (int_str os (getenv os "CLICKHOUSE_PORT" "9000")) as [cp|e] eqn:Hcp;
      [|intros H; discriminate H].
    destruct (int_str os (getenv os "POSTGRES_PORT" "5432")) as [pp|e] eqn:Hpp;
      [|intros H; discriminate H].
    intros H. injection H as <-. cbn.
    repeat split.
    + intros Hn. unfold getenv in Hcp. rewrite Hn in Hcp. cbn in Hcp. congruence.
    + intros Hn. unfold getenv in Hpp. rewrite Hn in Hpp. cbn in Hpp. congruence.
Qed.

End FromEnv.

Lemma from_env_defaults_witness :
  Router.from_env Router.nothing_set = Ok Router.default_DatabaseConfig
  /\ Router.clickhouse_port Router.default_DatabaseConfig = 9000
  /\ Router.postgres_port Router.default_DatabaseConfig = 5432.
Proof.
  split; [reflexivity|].
  destruct (proj2 (from_env_defaults Router.nothing_set)
                  Router.default_DatabaseConfig eq_refl)
    as (_ & _ & Hc & _ & _ & _ & _ & Hp & _).
  split; [exact (Hc eq_refl) | exact (Hp eq_refl)].
Defined.

Section ServerProps.

Import Router Server.

Ltac run_server :=
  unfold lifespan_startup, lifespan_shutdown, health_check, init_database,
    close_database, get_database_manager, DatabaseManager_, __init__, utcnow,
    Router.uptime_seconds, is_connected,
    on_manager, in_world, set_db_manager, Server.log,
    try_except, bind, lift, ret, raise, get, modify;
  cbn -[connect disconnect].

(** disconnect returns whatever the drivers do. *)
Lemma disconnect_returns (drivers : Drivers) (s : ms) :
  exists s', disconnect drivers s = (Ok tt, s')
             /\ exists lns, lines s' = (lines s ++ lns)%list.
Proof.
  unfold disconnect, try_except, bind, lift, ret, raise, get, modify, say,
    set_clickhouse_client, set_session_factory, set_engine, set_connected, modify.
  cbn.
  destruct (_clickhouse_client (manager s)) as [c|]; cbn;
    [destruct (clickhouse_disconnect drivers c) as [[]|e]; cbn|];
    (destruct (_postgres_engine s) as [eng|]; cbn;
     [destruct (engine_dispose eng) as [[]|e']; cbn|]);
    eexists; (split; [reflexivity|]); cbn; rewrite <- ?app_assoc;
    eexists; reflexivity.
Qed.

(** X29. Neither half of the lifespan raises.  When the environment
    cannot be read, start-up leaves the global as it was; otherwise the
    global holds a manager with the configuration of the environment,
    made at the time of the call, whether connect went through or not,
    and the manager is marked connected exactly when connect returned.
    Shut-down leaves the global empty without reading the clock,
    whatever the drivers raise while closing. *)
Theorem lifespan_never_raises (os : Os) (env : Env) (drivers : Drivers) (p : proc) :
  (exists p',
     lifespan_startup os env drivers p = (Ok tt, p')
     /\ match from_env os with
        | Raise _ => _db_manager p' = _db_manager p /\ reads p' = reads p
        | Ok cfg =>
            exists mgr engine,
              _db_manager p' = Some (mgr, engine)
              /\ config mgr = cfg
              /\ _start_time mgr = clock env (reads p)
              /\ reads p' = S (reads p)
              /\ _connected mgr
                 = is_ok (fst (connect drivers env
                                 (mkMs (mkManager cfg None None false
                                                  (clock env (reads p)))
                                       None
                                       (logged p ++
                                        [(INFO, "Starting Ollama monitoring API server")]))))
        end)
  /\ (exists lns,
        lifespan_shutdown drivers p
        = (Ok tt, mkProc None (reads p) (logged p ++ lns))).
Proof.
  split.
  - run_server. destruct (from_env os) as [cfg|e]; cbn.
    + pose proof (connect_effect drivers env
                    (mkMs (mkManager cfg None None false (clock env (reads p))) None
                          (logged p ++ [(INFO, "Starting Ollama monitoring API server")])))
        as (Hc & Ht & Hok & Hraise & _).
      cbn -[connect] in Hc, Ht, Hok, Hraise.
      destruct (connect drivers env _) as [[[]|e] s'] eqn:Hrun; cbn in *.
      * eexists. split; [reflexivity|]. cbn.
        exists (manager s'), (_postgres_engine s'). repeat split; auto.
      * eexists. split; [reflexivity|]. cbn.
        exists (manager s'), (_postgres_engine s'). repeat split; eauto.
    + eexists. split; [reflexivity|]. cbn. auto.
  - run_server. destruct (_db_manager p) as [[mgr engine]|] eqn:Hg; cbn -[disconnect].
    + rewrite ?Hg. cbn -[disconnect].
      destruct (disconnect_returns drivers
                  (mkMs mgr engine
                        (logged p ++ [(INFO, "Shutting down Ollama monitoring API server")])))
        as (s' & -> & lns & Hl).
      cbn in *. rewrite Hl, <- app_assoc. eexists. reflexivity.
    + rewrite <- Hg. destruct p; cbn. eexists. reflexivity.
Qed.

(** X30. The health endpoint never raises.  With a manager installed it
    reports healthy when the manager is marked connected and degraded
    otherwise, with the uptime counted from the manager's creation, and
    leaves the global alone.  With none installed it makes one from the
    environment and, never connecting it, reports degraded; only when the
    environment cannot be read does it report unhealthy, with the error
    text as the only detail. *)
Theorem health_endpoint_outcome (isoformat : Z -> string) (os : Os) (env : Env)
        (p : proc) :
  exists resp p',
    health_check isoformat os env p = (Ok resp, p')
    /\ (status resp = "healthy" <-> database_connected resp = true)
    /\ match _db_manager p with
       | Some (mgr, engine) =>
           status resp = (if _connected mgr then "healthy" else "degraded")
           /\ database_connected resp = _connected mgr
           /\ uptime_seconds resp
              = fl (inject_Z (clock env (reads p) - _start_time mgr) / 1000000)
           /\ _db_manager p' = _db_manager p
       | None =>
           match from_env os with
           | Ok cfg =>
               status resp = "degraded"
               /\ database_connected resp = false
               /\ _db_manager p'
                  = Some (mkManager cfg None None false (clock env (reads p)), None)
           | Raise e =>
               status resp = "unhealthy"
               /\ database_connected resp = false
               /\ details resp = [("error", str_exn e)]
               /\ _db_manager p' = None
           end
       end.
Proof.
  run_server. destruct (_db_manager p) as [[mgr engine]|] eqn:Hg; cbn.
  - do 2 eexists. split; [reflexivity|]. cbn.
    destruct (_connected mgr); cbn; repeat split; auto; intros H; discriminate H.
  - destruct (from_env os) as [cfg|e]; cbn.
    + do 2 eexists. split; [reflexivity|]. cbn.
      repeat split; auto; intros H; discriminate H.
    + do 2 eexists. split; [reflexivity|]. cbn.
      repeat split; auto; intros H; discriminate H.
Qed.

End ServerProps.
